(** * Invoice schema and error taxonomy: a shallow embedding

    Embeds [backend/app/schemas/invoice_schema.py] and
    [backend/app/utils/exceptions.py].

    The two files lean on the Python runtime ([decimal.Decimal] in its default
    context, [float], [datetime.date]) and on pydantic's [BaseModel]
    (version 2, the only one on which [Field(..., min_length=1)] on a list
    field is accepted).  The parts of those that the validators touch are
    modelled first; the schema and the exceptions follow, and the properties
    come last. *)

From Stdlib Require Import ZArith NArith Lia Bool.
From Stdlib Require Import SpecFloat.
From stdpp Require Import base option list strings gmap pretty.

Open Scope Z_scope.

(** ** Raised exceptions *)

(** [decimal] signals trapped by the default context
    ([traps=[InvalidOperation, DivisionByZero, Overflow]]); a trapped signal
    is raised as an exception deriving from [ArithmeticError]. *)
Inductive DecimalSignal := InvalidOperation | Overflow.

(** What a validator body can raise. *)
Inductive PyError :=
  | ValueError (msg : string)
  | DecimalException (s : DecimalSignal).

Inductive PyResult (A : Type) :=
  | Return (a : A)
  | Raise (e : PyError).
Arguments Return {A} a.
Arguments Raise {A} e.

#[global] Instance PyResult_ret : MRet PyResult := λ A a, Return a.
#[global] Instance PyResult_bind : MBind PyResult := λ A B f m,
  match m with
  | Return a => f a
  | Raise e => Raise e
  end.

(** ** [decimal.Decimal] under the default context *)

Module PyDecimal.

(** [Decimal._sign], [Decimal._int] (a digit string without leading zeros,
    kept as the number it spells) and [Decimal._exp]; the special values
    carry no coefficient. *)
Inductive Decimal :=
  | Finite (sign : bool) (coefficient : N) (exponent : Z)
  | Infinity (sign : bool)
  | NaN.

(** [getcontext()]: [Context(prec=28, rounding=ROUND_HALF_EVEN,
    Emin=-999999, Emax=999999, capitals=1, clamp=0)]. *)
Definition prec : Z := 28.
Definition Emax : Z := 999999.
Definition Emin : Z := -999999.
Definition Etiny : Z := Emin - prec + 1.
Definition Etop : Z := Emax - prec + 1.

(** [len(self._int)]: the number of decimal digits of the coefficient
    (1 for zero).  The positive argument only bounds the recursion: a
    number has no more decimal digits than binary ones. *)
Fixpoint ndigits_go (fuel : positive) (c : N) : Z :=
  if (c <? 10)%N then 1
  else match fuel with
       | xH => 1
       | xO f | xI f => 1 + ndigits_go f (c / 10)%N
       end.

Definition ndigits (c : N) : Z :=
  match c with
  | N0 => 1
  | Npos p => ndigits_go p c
  end.

Definition pow10 (k : Z) : N := Z.to_N (10 ^ k).

(** [not self]: a finite zero of either sign. *)
Definition is_zero (d : Decimal) : bool :=
  match d with
  | Finite _ c _ => (c =? 0)%N
  | _ => false
  end.

Definition is_finite (d : Decimal) : bool :=
  match d with
  | Finite _ _ _ => true
  | _ => false
  end.

(** ROUND_HALF_EVEN on a coefficient that loses its last [k] digits:
    the kept prefix [c / 10^k], plus one when the dropped part is above
    one half, or exactly one half with an odd prefix. *)
Definition round_half_even (c : N) (k : Z) : N :=
  let q := (c / pow10 k)%N in
  let r := (c mod pow10 k)%N in
  match (2 * r ?= pow10 k)%N with
  | Gt => (q + 1)%N
  | Eq => if N.odd q then (q + 1)%N else q
  | Lt => q
  end.

(** [Decimal._fix]: bring a finite result into the context.  Zero keeps
    its sign and has its exponent clipped to [Etiny..Emax]; a coefficient
    longer than [prec] digits (or a subnormal one) is rounded; a result
    above [Emax] signals Overflow, which is trapped. *)
Definition fix_ (s : bool) (c : N) (e : Z) : PyResult Decimal :=
  if (c =? 0)%N then Return (Finite s 0 (Z.min (Z.max e Etiny) Emax))
  else
    let exp_min0 := ndigits c + e - prec in
    if Etop <? exp_min0 then Raise (DecimalException Overflow)
    else
      let exp_min := Z.max exp_min0 Etiny in
      if e <? exp_min then
        let q := round_half_even c (exp_min - e) in
        let '(q, exp_min) :=
          if prec <? ndigits q then ((q / 10)%N, exp_min + 1) else (q, exp_min) in
        if Etop <? exp_min then Raise (DecimalException Overflow)
        else Return (Finite s q exp_min)
      else Return (Finite s c e).

(** The integer a finite decimal denotes in units of [10^m], for
    [m <= exponent]. *)
Definition units_at (m : Z) (s : bool) (c : N) (e : Z) : Z :=
  (if s then -1 else 1) * Z.of_N c * 10 ^ (e - m).

Definition copy_negate (d : Decimal) : Decimal :=
  match d with
  | Finite s c e => Finite (negb s) c e
  | Infinity s => Infinity (negb s)
  | NaN => NaN
  end.

(** The exact sum of two finite decimals, at the smaller exponent; a zero
    sum is negative only when both operands are negative zeros (the
    rounding mode is not ROUND_FLOOR). *)
Definition exact_sum (sa : bool) (ca : N) (ea : Z) (sb : bool) (cb : N) (eb : Z)
    : bool * N * Z :=
  let m := Z.min ea eb in
  let total := units_at m sa ca ea + units_at m sb cb eb in
  if ((ca =? 0) && (cb =? 0))%N then (sa && sb, 0%N, m)
  else if total =? 0 then (false, 0%N, m)
  else (total <? 0, Z.abs_N total, m).

(** [Decimal.__add__].  A quiet NaN operand gives NaN without a signal;
    opposite infinities signal InvalidOperation; the exact sum of finite
    operands is handed to [_fix]. *)
Definition add (a b : Decimal) : PyResult Decimal :=
  match a, b with
  | NaN, _ | _, NaN => Return NaN
  | Infinity sa, Infinity sb =>
      if eqb sa sb then Return (Infinity sa)
      else Raise (DecimalException InvalidOperation)
  | Infinity sa, Finite _ _ _ => Return (Infinity sa)
  | Finite _ _ _, Infinity sb => Return (Infinity sb)
  | Finite sa ca ea, Finite sb cb eb =>
      let '(s, c, e) := exact_sum sa ca ea sb cb eb in
      fix_ s c e
  end.

(** [Decimal.__sub__]: [self.__add__(other.copy_negate())]. *)
Definition sub (a b : Decimal) : PyResult Decimal :=
  add a (copy_negate b).

(** [Decimal.__mul__]. *)
Definition mul (a b : Decimal) : PyResult Decimal :=
  match a, b with
  | NaN, _ | _, NaN => Return NaN
  | Infinity sa, Infinity sb => Return (Infinity (xorb sa sb))
  | Infinity sa, Finite sb cb _ =>
      if (cb =? 0)%N then Raise (DecimalException InvalidOperation)
      else Return (Infinity (xorb sa sb))
  | Finite sa ca _, Infinity sb =>
      if (ca =? 0)%N then Raise (DecimalException InvalidOperation)
      else Return (Infinity (xorb sa sb))
  | Finite sa ca ea, Finite sb cb eb =>
      fix_ (xorb sa sb) (ca * cb)%N (ea + eb)
  end.

(** [Decimal.__abs__]: [__neg__] or [__pos__] by sign, both of which end
    in [_fix]. *)
Definition abs (d : Decimal) : PyResult Decimal :=
  match d with
  | NaN => Return NaN
  | Infinity _ => Return (Infinity false)
  | Finite _ c e => fix_ false c e
  end.

(** [Decimal._cmp] on non-NaN operands: exact, no rounding. *)
Definition cmp (a b : Decimal) : comparison :=
  match a, b with
  | Finite sa ca ea, Finite sb cb eb =>
      let m := Z.min ea eb in
      units_at m sa ca ea ?= units_at m sb cb eb
  | Infinity sa, Infinity sb =>
      match sa, sb with
      | true, false => Lt
      | false, true => Gt
      | _, _ => Eq
      end
  | Infinity sa, _ => if sa then Lt else Gt
  | _, Infinity sb => if sb then Gt else Lt
  | _, _ => Eq
  end.

Definition is_nan (d : Decimal) : bool :=
  match d with NaN => true | _ => false end.

(** [Decimal.__gt__] and [__ge__]: an ordering comparison involving a NaN
    signals InvalidOperation. *)
Definition gt (a b : Decimal) : PyResult bool :=
  if is_nan a || is_nan b then Raise (DecimalException InvalidOperation)
  else Return (match cmp a b with Gt => true | _ => false end).

Definition ge (a b : Decimal) : PyResult bool :=
  if is_nan a || is_nan b then Raise (DecimalException InvalidOperation)
  else Return (match cmp a b with Lt => false | _ => true end).

(** [Decimal.__str__] (scientific notation, [capitals=1]). *)
Definition zeros (k : Z) : string := String.concat "" (replicate (Z.to_nat k) "0"%string).

Definition str (d : Decimal) : string :=
  match d with
  | NaN => "NaN"
  | Infinity s => (if s then "-" else "") +:+ "Infinity"
  | Finite s c e =>
      let digits := pretty c in
      let len := Z.of_nat (String.length digits) in
      let leftdigits := e + len in
      let dotplace := if (e <=? 0) && (-6 <? leftdigits) then leftdigits else 1 in
      let intpart :=
        if dotplace <=? 0 then "0"
        else if len <=? dotplace then digits +:+ zeros (dotplace - len)
        else String.substring 0 (Z.to_nat dotplace) digits in
      let fracpart :=
        if dotplace <=? 0 then "." +:+ zeros (- dotplace) +:+ digits
        else if len <=? dotplace then ""
        else "." +:+ String.substring (Z.to_nat dotplace) (Z.to_nat (len - dotplace)) digits in
      let exp :=
        if leftdigits =? dotplace then ""
        else "E" +:+ (if 0 <=? leftdigits - dotplace then "+" else "") +:+ pretty (leftdigits - dotplace) in
      (if s then "-" else "") +:+ intpart +:+ fracpart +:+ exp
  end.

(** The literals of the schema: [Decimal("0")] and [Decimal("0.01")]. *)
Definition zero : Decimal := Finite false 0 0.
Definition cent : Decimal := Finite false 1 (-2).

End PyDecimal.

(** ** [float] *)

Module PyFloat.
Import PyDecimal.

(** A Python float is an IEEE 754 binary64 value: [S754_finite s m e]
    stands for [(-1)^s * m * 2^e] with [m < 2^53] and [-1074 <= e]. *)
Definition float := spec_float.

Definition zero : float := S754_zero false.
Definition one : float := S754_finite false 4503599627370496 (-52).

(** [a < b] and [a <= b] on floats; false as soon as a NaN is involved. *)
Definition lt (a b : float) : bool := SFltb a b.
Definition le (a b : float) : bool := SFleb a b.

(** *** [repr]: the shortest decimal string that reads back as the float *)

(** A positive rational as numerator and denominator. *)
Definition frac_le (an ad bn bd : Z) : bool := an * bd <=? bn * ad.
Definition frac_lt (an ad bn bd : Z) : bool := an * bd <? bn * ad.

(** The smallest [j >= from] with [num * 10^j >= den]. *)
Fixpoint first_scale (fuel : nat) (num den from : Z) : Z :=
  match fuel with
  | O => from
  | S f => if den <=? num * 10 ^ from then from else first_scale f num den (from + 1)
  end.

(** [floor (log10 (num / den))]. *)
Definition floor_log10 (num den : Z) : Z :=
  if den <=? num then ndigits (Z.to_N (num / den)) - 1
  else - first_scale 400 num den 1.

Fixpoint strip_zeros (fuel : nat) (d s : Z) : Z * Z :=
  match fuel with
  | O => (d, s)
  | S f => if (d mod 10 =? 0) && negb (d =? 0) then strip_zeros f (d / 10) (s + 1) else (d, s)
  end.

(** The candidates with [n] significant digits around [num/den]: the
    result is [Some (d, s)] for the decimal [d * 10^s] closest to the float
    among those that lie in its rounding interval [low/den .. high/den]. *)
Definition candidate (num den low high : Z) (inclusive : bool) (k n : Z) : option (Z * Z) :=
  let s := k - n + 1 in
  let '(vn_unit, vd) := if 0 <=? s then (10 ^ s, 1) else (1, 10 ^ (- s)) in
  let d := (num * vd) / (den * vn_unit) in
  let inside (d : Z) :=
    if inclusive
    then frac_le low den (d * vn_unit) vd && frac_le (d * vn_unit) vd high den
    else frac_lt low den (d * vn_unit) vd && frac_lt (d * vn_unit) vd high den in
  let dist_lo := num * vd - d * vn_unit * den in
  let dist_hi := (d + 1) * vn_unit * den - num * vd in
  match inside d, inside (d + 1) with
  | true, true => if dist_lo <=? dist_hi then Some (d, s) else Some (d + 1, s)
  | true, false => Some (d, s)
  | false, true => Some (d + 1, s)
  | false, false => None
  end.

Fixpoint shortest (fuel : nat) (num den low high : Z) (inclusive : bool) (k n : Z) : Z * Z :=
  match fuel with
  | O => (0, 0)
  | S f =>
      match candidate num den low high inclusive k n with
      | Some r => r
      | None => shortest f num den low high inclusive k (n + 1)
      end
  end.

(** Digits and decimal exponent of [repr] for the finite positive float
    [m * 2^e]: the float is printed as the digits of the first component
    times ten to the second. *)
Definition repr_digits (m : positive) (e : Z) : Z * Z :=
  let u := 2 ^ Z.max e 0 in
  let den := 4 * 2 ^ Z.max (- e) 0 in
  let num := 4 * Z.pos m * u in
  let high := num + 2 * u in
  let low := if (Z.pos m =? 2 ^ 52) && (-1074 <? e) then num - u else num - 2 * u in
  let k := floor_log10 num den in
  let '(d, s) := shortest 17 num den low high (Z.even (Z.pos m)) k 1 in
  strip_zeros 20 d s.

(** [Decimal(str(x))].  [str] is [repr]: exponent notation when the
    decimal point falls more than 16 places right or more than 3 places
    left of the first digit, otherwise positional notation, with [.0]
    appended to an integral value. *)
Definition to_decimal (x : float) : Decimal :=
  match x with
  | S754_nan => NaN
  | S754_infinity s => Infinity s
  | S754_zero s => Finite s 0 (-1)
  | S754_finite s m e =>
      let '(d, dexp) := repr_digits m e in
      let nd := ndigits (Z.to_N d) in
      let decpt := dexp + nd in
      if (decpt <=? -4) || (16 <? decpt) then Finite s (Z.to_N d) dexp
      else if nd <=? decpt then Finite s (Z.to_N (d * 10 ^ (decpt - nd + 1))) (-1)
      else Finite s (Z.to_N d) dexp
  end.

(** [format(x, ".2f")]. *)
Definition two_digits (n : Z) : string :=
  (if n <? 10 then "0" else "") +:+ pretty n.

Definition format_2f (x : float) : string :=
  match x with
  | S754_nan => "nan"
  | S754_infinity s => (if s then "-" else "") +:+ "inf"
  | S754_zero s => (if s then "-" else "") +:+ "0.00"
  | S754_finite s m e =>
      let num := 100 * Z.pos m * 2 ^ Z.max e 0 in
      let den := 2 ^ Z.max (- e) 0 in
      let q := num / den in
      let r := num mod den in
      let q := match 2 * r ?= den with
               | Gt => q + 1
               | Eq => if Z.odd q then q + 1 else q
               | Lt => q
               end in
      (if s then "-" else "") +:+ pretty (q / 100) +:+ "." +:+ two_digits (q mod 100)
  end.

End PyFloat.

(** ** [datetime.date], [datetime.datetime] *)

(** A date is identified with its proleptic Gregorian ordinal
    ([date.toordinal()], 1 for 0001-01-01): dates compare as their ordinals
    do and [(a - b).days] is the difference of the ordinals. *)
Record date := Date { toordinal : Z }.

Definition date_gt (a b : date) : bool := toordinal b <? toordinal a.

(** [(a - b).days] *)
Definition days_between (a b : date) : Z := toordinal a - toordinal b.

(** [date(year, month, day)] and back, as [datetime] computes them. *)
Definition is_leap (year : Z) : bool :=
  (year mod 4 =? 0) && (negb (year mod 100 =? 0) || (year mod 400 =? 0)).

Definition days_before_year (year : Z) : Z :=
  let y := year - 1 in
  y * 365 + y / 4 - y / 100 + y / 400.

Definition days_in_month (year month : Z) : Z :=
  if (month =? 2) && is_leap year then 29
  else nth (Z.to_nat month) [0; 31; 28; 31; 30; 31; 30; 31; 31; 30; 31; 30; 31] 0.

Definition days_before_month (year month : Z) : Z :=
  nth (Z.to_nat month) [0; 0; 31; 59; 90; 120; 151; 181; 212; 243; 273; 304; 334] 0
  + (if (2 <? month) && is_leap year then 1 else 0).

Definition ymd (year month day : Z) : date :=
  Date (days_before_year year + days_before_month year month + day).

Definition ord2ymd (n : Z) : Z * Z * Z :=
  let n := n - 1 in
  let n400 := n / 146097 in
  let n := n mod 146097 in
  let n100 := n / 36524 in
  let n := n mod 36524 in
  let n4 := n / 1461 in
  let n := n mod 1461 in
  let n1 := n / 365 in
  let n := n mod 365 in
  let year := n400 * 400 + 1 + n100 * 100 + n4 * 4 + n1 in
  if (n1 =? 4) || (n100 =? 4) then (year - 1, 12, 31)
  else
    let month := Z.shiftr (n + 50) 5 in
    let preceding := days_before_month year month in
    let '(month, preceding) :=
      if n <? preceding then (month - 1, preceding - days_in_month year (month - 1))
      else (month, preceding) in
    (year, month, n - preceding + 1).

(** Zero-padded decimal of width [w]. *)
Definition zero_padded (w : nat) (n : Z) : string :=
  let s := pretty n in
  String.concat "" (replicate (w - String.length s) "0"%string) +:+ s.

(** [date.isoformat()], which is also [str] of a date. *)
Definition isoformat (d : date) : string :=
  let '(y, m, dd) := ord2ymd (toordinal d) in
  zero_padded 4 y +:+ "-" +:+ zero_padded 2 m +:+ "-" +:+ zero_padded 2 dd.

(** A timestamp: its calendar day and the microseconds elapsed in it. *)
Record datetime := Datetime { day_of : date; microseconds : Z }.

(** What the validators read from the system clock: [date.today()] and
    [datetime.now()]. *)
Record Clock := { today : date; now : datetime }.

(** ** Python values *)

Set Warnings "-register-all".

(** The values that occur in the key/value trees of the two files: the
    [details] of an error, the envelope of [handle_exception] and the result
    of [Invoice.to_dict].  A [dict] with string keys is a finite map. *)
Inductive PyVal :=
  | VNone
  | VBool (b : bool)
  | VInt (z : Z)
  | VFloat (x : PyFloat.float)
  | VStr (s : string)
  | VDecimal (d : PyDecimal.Decimal)
  | VDate (d : date)
  | VDatetime (t : datetime)
  | VList (items : list PyVal)
  | VDict (entries : gmap string PyVal).

Abbreviation dict := (gmap string PyVal).

(** An [Optional[str]] argument as a value. *)
Definition of_optional_str (o : option string) : PyVal :=
  match o with
  | Some s => VStr s
  | None => VNone
  end.

Definition of_optional_int (o : option Z) : PyVal :=
  match o with
  | Some z => VInt z
  | None => VNone
  end.

(** ** exceptions.py *)

Module Exceptions.

(** The classes of the module: the base class and its twenty subclasses. *)
Inductive ErrorClass :=
  | InvoiceAIException_
  | FileProcessingError_ | UnsupportedFileTypeError_ | OCRError_ | EmptyFileError_
  | LLMExtractionError_ | LLMTimeoutError_ | LLMRateLimitError_
  | ValidationError_ | LowConfidenceError_
  | ERPConnectionError_ | ERPAuthenticationError_ | ERPDataFormatError_
  | ERPTimeoutError_ | DuplicateInvoiceError_
  | CustomerNotFoundError_ | ConfigurationError_ | VendorMappingError_
  | AuthenticationError_ | AuthorizationError_
  | MaxRetriesExceededError_.

(** [__name__] of each class. *)
Definition class_name (c : ErrorClass) : string :=
  match c with
  | InvoiceAIException_ => "InvoiceAIException"
  | FileProcessingError_ => "FileProcessingError"
  | UnsupportedFileTypeError_ => "UnsupportedFileTypeError"
  | OCRError_ => "OCRError"
  | EmptyFileError_ => "EmptyFileError"
  | LLMExtractionError_ => "LLMExtractionError"
  | LLMTimeoutError_ => "LLMTimeoutError"
  | LLMRateLimitError_ => "LLMRateLimitError"
  | ValidationError_ => "ValidationError"
  | LowConfidenceError_ => "LowConfidenceError"
  | ERPConnectionError_ => "ERPConnectionError"
  | ERPAuthenticationError_ => "ERPAuthenticationError"
  | ERPDataFormatError_ => "ERPDataFormatError"
  | ERPTimeoutError_ => "ERPTimeoutError"
  | DuplicateInvoiceError_ => "DuplicateInvoiceError"
  | CustomerNotFoundError_ => "CustomerNotFoundError"
  | ConfigurationError_ => "ConfigurationError"
  | VendorMappingError_ => "VendorMappingError"
  | AuthenticationError_ => "AuthenticationError"
  | AuthorizationError_ => "AuthorizationError"
  | MaxRetriesExceededError_ => "MaxRetriesExceededError"
  end.

(** An instance of [InvoiceAIException] or of one of its subclasses: its
    class and the three attributes [__init__] sets. *)
Record InvoiceAIException := {
  class_of : ErrorClass;
  message : string;
  error_code : string;
  details : dict;
}.

(** [x or y] on an optional string and on an optional dict: the empty
    string and the empty dict are falsy like [None]. *)
Definition str_or (x : option string) (y : string) : string :=
  match x with
  | Some s => if String.eqb s "" then y else s
  | None => y
  end.

Definition dict_or (x : option dict) (y : dict) : dict :=
  match x with
  | Some d => if decide (d = ∅) then y else d
  | None => y
  end.

Definition list_or (x : option (list PyVal)) (y : list PyVal) : list PyVal :=
  match x with
  | Some (_ :: _ as l) => l
  | _ => y
  end.

(** [InvoiceAIException.__init__], run for the class [c]. *)
Definition init (c : ErrorClass) (message : string)
    (error_code : option string) (details : option dict) : InvoiceAIException :=
  {| class_of := c;
     message := message;
     error_code := str_or error_code "GENERAL_ERROR";
     details := dict_or details ∅ |}.

(** [InvoiceAIException.to_dict] *)
Definition to_dict (self : InvoiceAIException) : dict :=
  {[ "error" := VStr (error_code self);
     "message" := VStr (message self);
     "details" := VDict (details self) ]}.

(** *** The subclasses: each [__init__] calls the base one *)

Definition FileProcessingError (message : string) (filename : option string) :=
  init FileProcessingError_ message (Some "FILE_PROCESSING_ERROR")
    (Some {[ "filename" := of_optional_str filename ]}).

Definition UnsupportedFileTypeError (file_type : string) (supported_types : list PyVal) :=
  init UnsupportedFileTypeError_
    ("File type '" +:+ file_type +:+ "' is not supported")
    (Some "UNSUPPORTED_FILE_TYPE")
    (Some {[ "file_type" := VStr file_type;
             "supported_types" := VList supported_types ]}).

Definition OCRError (message : string) (image_path : option string) :=
  init OCRError_ message (Some "OCR_ERROR")
    (Some {[ "image_path" := of_optional_str image_path ]}).

Definition EmptyFileError (filename : string) :=
  init EmptyFileError_
    ("File '" +:+ filename +:+ "' is empty or contains no readable content")
    (Some "EMPTY_FILE")
    (Some {[ "filename" := VStr filename ]}).

Definition LLMExtractionError (message : string) (model : option string) :=
  init LLMExtractionError_ message (Some "LLM_EXTRACTION_ERROR")
    (Some {[ "model" := of_optional_str model ]}).

Definition LLMTimeoutError (timeout_seconds : Z) :=
  init LLMTimeoutError_
    ("LLM request timed out after " +:+ pretty timeout_seconds +:+ " seconds")
    (Some "LLM_TIMEOUT")
    (Some {[ "timeout_seconds" := VInt timeout_seconds ]}).

Definition LLMRateLimitError (retry_after : option Z) :=
  init LLMRateLimitError_ "LLM rate limit exceeded" (Some "LLM_RATE_LIMIT")
    (Some {[ "retry_after_seconds" := of_optional_int retry_after ]}).

Definition ValidationError (message : string) (field : option string)
    (validation_errors : option (list PyVal)) :=
  init ValidationError_ message (Some "VALIDATION_ERROR")
    (Some {[ "field" := of_optional_str field;
             "validation_errors" := VList (list_or validation_errors []) ]}).

Definition LowConfidenceError (confidence_score threshold : PyFloat.float) :=
  init LowConfidenceError_
    ("Extraction confidence (" +:+ PyFloat.format_2f confidence_score
       +:+ ") below threshold (" +:+ PyFloat.format_2f threshold +:+ ")")
    (Some "LOW_CONFIDENCE")
    (Some {[ "confidence_score" := VFloat confidence_score;
             "threshold" := VFloat threshold ]}).

Definition ERPConnectionError (message erp_system : string) :=
  init ERPConnectionError_ message (Some "ERP_CONNECTION_ERROR")
    (Some {[ "erp_system" := VStr erp_system ]}).

Definition ERPAuthenticationError (erp_system : string) :=
  init ERPAuthenticationError_ ("Authentication failed for " +:+ erp_system)
    (Some "ERP_AUTH_ERROR")
    (Some {[ "erp_system" := VStr erp_system ]}).

Definition ERPDataFormatError (message : string) (expected_format : option string) :=
  init ERPDataFormatError_ message (Some "ERP_DATA_FORMAT_ERROR")
    (Some {[ "expected_format" := of_optional_str expected_format ]}).

Definition ERPTimeoutError (erp_system : string) (timeout_seconds : Z) :=
  init ERPTimeoutError_
    ("Connection to " +:+ erp_system +:+ " timed out after "
       +:+ pretty timeout_seconds +:+ " seconds")
    (Some "ERP_TIMEOUT")
    (Some {[ "erp_system" := VStr erp_system;
             "timeout_seconds" := VInt timeout_seconds ]}).

Definition DuplicateInvoiceError (invoice_number : string) (existing_id : option string) :=
  init DuplicateInvoiceError_
    ("Invoice '" +:+ invoice_number +:+ "' already exists")
    (Some "DUPLICATE_INVOICE")
    (Some {[ "invoice_number" := VStr invoice_number;
             "existing_id" := of_optional_str existing_id ]}).

Definition CustomerNotFoundError (customer_id : string) :=
  init CustomerNotFoundError_ ("Customer '" +:+ customer_id +:+ "' not found")
    (Some "CUSTOMER_NOT_FOUND")
    (Some {[ "customer_id" := VStr customer_id ]}).

Definition ConfigurationError (message : string) (config_file : option string) :=
  init ConfigurationError_ message (Some "CONFIGURATION_ERROR")
    (Some {[ "config_file" := of_optional_str config_file ]}).

Definition VendorMappingError (vendor_name customer_id : string) :=
  init VendorMappingError_
    ("Vendor '" +:+ vendor_name +:+ "' not found in mapping for customer '"
       +:+ customer_id +:+ "'")
    (Some "VENDOR_MAPPING_ERROR")
    (Some {[ "vendor_name" := VStr vendor_name;
             "customer_id" := VStr customer_id ]}).

(** [message] defaults to ["Authentication failed"]. *)
Definition AuthenticationError (message : option string) :=
  init AuthenticationError_ (default "Authentication failed" message)
    (Some "AUTHENTICATION_ERROR") None.

(** [message] defaults to ["Insufficient permissions"]. *)
Definition AuthorizationError (message : option string) (required_permission : option string) :=
  init AuthorizationError_ (default "Insufficient permissions" message)
    (Some "AUTHORIZATION_ERROR")
    (Some {[ "required_permission" := of_optional_str required_permission ]}).

Definition MaxRetriesExceededError (operation : string) (max_retries : Z) :=
  init MaxRetriesExceededError_
    ("Operation '" +:+ operation +:+ "' failed after "
       +:+ pretty max_retries +:+ " retries")
    (Some "MAX_RETRIES_EXCEEDED")
    (Some {[ "operation" := VStr operation;
             "max_retries" := VInt max_retries ]}).

(** *** [handle_exception] *)

(** Any raised Python exception, as [handle_exception] sees it: an
    instance of the module's hierarchy, or an exception of another class,
    of which only [type(exception).__name__] and [str(exception)] are
    read. *)
Inductive Exception :=
  | Known (e : InvoiceAIException)
  | Foreign (type_name : string) (str_ : string).

(** [isinstance(exception, InvoiceAIException)] *)
Definition isinstance_InvoiceAIException (exception : Exception) : bool :=
  match exception with
  | Known _ => true
  | Foreign _ _ => false
  end.

(** [type(exception).__name__] *)
Definition type_name_of (exception : Exception) : string :=
  match exception with
  | Known e => class_name (class_of e)
  | Foreign type_name _ => type_name
  end.

(** [str(exception)]; the base [__init__] passes [message] on to
    [Exception.__init__]. *)
Definition str_of (exception : Exception) : string :=
  match exception with
  | Known e => message e
  | Foreign _ str_ => str_
  end.

Definition handle_exception (exception : Exception) : dict :=
  match exception with
  | Known e => to_dict e
  | Foreign _ _ =>
      {[ "error" := VStr "INTERNAL_ERROR";
         "message" := VStr (str_of exception);
         "details" := VDict {[ "exception_type" := VStr (type_name_of exception) ]} ]}
  end.

(** *** The calls that build an instance of each subclass *)

(** One constructor per subclass, with the arguments of its [__init__]. *)
Inductive Raised :=
  | RFileProcessingError (message : string) (filename : option string)
  | RUnsupportedFileTypeError (file_type : string) (supported_types : list PyVal)
  | ROCRError (message : string) (image_path : option string)
  | REmptyFileError (filename : string)
  | RLLMExtractionError (message : string) (model : option string)
  | RLLMTimeoutError (timeout_seconds : Z)
  | RLLMRateLimitError (retry_after : option Z)
  | RValidationError (message : string) (field : option string)
      (validation_errors : option (list PyVal))
  | RLowConfidenceError (confidence_score threshold : PyFloat.float)
  | RERPConnectionError (message erp_system : string)
  | RERPAuthenticationError (erp_system : string)
  | RERPDataFormatError (message : string) (expected_format : option string)
  | RERPTimeoutError (erp_system : string) (timeout_seconds : Z)
  | RDuplicateInvoiceError (invoice_number : string) (existing_id : option string)
  | RCustomerNotFoundError (customer_id : string)
  | RConfigurationError (message : string) (config_file : option string)
  | RVendorMappingError (vendor_name customer_id : string)
  | RAuthenticationError (message : option string)
  | RAuthorizationError (message : option string) (required_permission : option string)
  | RMaxRetriesExceededError (operation : string) (max_retries : Z).

Definition instantiate (r : Raised) : InvoiceAIException :=
  match r with
  | RFileProcessingError m f => FileProcessingError m f
  | RUnsupportedFileTypeError t s => UnsupportedFileTypeError t s
  | ROCRError m p => OCRError m p
  | REmptyFileError f => EmptyFileError f
  | RLLMExtractionError m md => LLMExtractionError m md
  | RLLMTimeoutError t => LLMTimeoutError t
  | RLLMRateLimitError r => LLMRateLimitError r
  | RValidationError m f v => ValidationError m f v
  | RLowConfidenceError c t => LowConfidenceError c t
  | RERPConnectionError m s => ERPConnectionError m s
  | RERPAuthenticationError s => ERPAuthenticationError s
  | RERPDataFormatError m f => ERPDataFormatError m f
  | RERPTimeoutError s t => ERPTimeoutError s t
  | RDuplicateInvoiceError n i => DuplicateInvoiceError n i
  | RCustomerNotFoundError c => CustomerNotFoundError c
  | RConfigurationError m f => ConfigurationError m f
  | RVendorMappingError v c => VendorMappingError v c
  | RAuthenticationError m => AuthenticationError m
  | RAuthorizationError m p => AuthorizationError m p
  | RMaxRetriesExceededError o n => MaxRetriesExceededError o n
  end.

(** The code string and the detail keys each kind is documented with
    (the class's [error_code] and the keys of its [details] literal;
    the spec names them for the kinds it lists). *)
Definition documented_code (c : ErrorClass) : string :=
  match c with
  | InvoiceAIException_ => "GENERAL_ERROR"
  | FileProcessingError_ => "FILE_PROCESSING_ERROR"
  | UnsupportedFileTypeError_ => "UNSUPPORTED_FILE_TYPE"
  | OCRError_ => "OCR_ERROR"
  | EmptyFileError_ => "EMPTY_FILE"
  | LLMExtractionError_ => "LLM_EXTRACTION_ERROR"
  | LLMTimeoutError_ => "LLM_TIMEOUT"
  | LLMRateLimitError_ => "LLM_RATE_LIMIT"
  | ValidationError_ => "VALIDATION_ERROR"
  | LowConfidenceError_ => "LOW_CONFIDENCE"
  | ERPConnectionError_ => "ERP_CONNECTION_ERROR"
  | ERPAuthenticationError_ => "ERP_AUTH_ERROR"
  | ERPDataFormatError_ => "ERP_DATA_FORMAT_ERROR"
  | ERPTimeoutError_ => "ERP_TIMEOUT"
  | DuplicateInvoiceError_ => "DUPLICATE_INVOICE"
  | CustomerNotFoundError_ => "CUSTOMER_NOT_FOUND"
  | ConfigurationError_ => "CONFIGURATION_ERROR"
  | VendorMappingError_ => "VENDOR_MAPPING_ERROR"
  | AuthenticationError_ => "AUTHENTICATION_ERROR"
  | AuthorizationError_ => "AUTHORIZATION_ERROR"
  | MaxRetriesExceededError_ => "MAX_RETRIES_EXCEEDED"
  end.


End Exceptions.

(** ** pydantic: validating the fields of a model *)

(** Where an error sits: field names and list indices, outermost first. *)
Inductive LocItem := Key (name : string) | Index (i : nat).

(** The kinds of error the schema can produce.  [value_error] carries the
    message of the [ValueError] a validator raised. *)
Inductive ErrorType :=
  | missing
  | finite_number
  | greater_than
  | greater_than_equal
  | less_than_equal
  | too_short
  | value_error (msg : string).

Record ErrorDetail := { type_ : ErrorType; loc : list LocItem }.

(** The outcome of validating a field or of constructing a model: the
    validated value; a [pydantic.ValidationError] with its list of errors;
    or an exception that is neither a [ValueError] nor an [AssertionError],
    which pydantic lets through as it is. *)
Inductive Validated (A : Type) :=
  | Valid (a : A)
  | Invalid (errors : list ErrorDetail)
  | Propagated (s : DecimalSignal).
Arguments Valid {A} a.
Arguments Invalid {A} errors.
Arguments Propagated {A} s.

#[global] Instance Validated_ret : MRet Validated := λ A a, Valid a.
#[global] Instance Validated_bind : MBind Validated := λ A B f m,
  match m with
  | Valid a => f a
  | Invalid e => Invalid e
  | Propagated s => Propagated s
  end.
#[global] Instance Validated_fmap : FMap Validated := λ A B f m,
  match m with
  | Valid a => Valid (f a)
  | Invalid e => Invalid e
  | Propagated s => Propagated s
  end.

(** Fields are validated one after the other and their errors are
    collected; an exception stops the validation where it is raised. *)
Definition ap {A B} (f : Validated (A → B)) (x : Validated A) : Validated B :=
  match f, x with
  | Propagated s, _ => Propagated s
  | _, Propagated s => Propagated s
  | Valid g, Valid a => Valid (g a)
  | Valid _, Invalid e => Invalid e
  | Invalid e, Valid _ => Invalid e
  | Invalid e1, Invalid e2 => Invalid (e1 ++ e2)
  end.
Infix "<*>" := ap (at level 61, left associativity).

(** [name in values]: a field is in [values] once it has been validated. *)
Definition to_option {A} (v : Validated A) : option A :=
  match v with
  | Valid a => Some a
  | _ => None
  end.

Definition fail {A} (name : string) (t : ErrorType) : Validated A :=
  Invalid [{| type_ := t; loc := [Key name] |}].

(** Errors of a nested value are reported under the field that holds it. *)
Definition under {A} (i : LocItem) (v : Validated A) : Validated A :=
  match v with
  | Invalid e => Invalid (map (λ d, {| type_ := type_ d; loc := i :: loc d |}) e)
  | _ => v
  end.

(** [Field(...)]: a required field. *)
Definition required {A} (name : string) (x : option A) : Validated A :=
  match x with
  | Some a => Valid a
  | None => fail name missing
  end.

(** [Field(default=...)]: the default is taken as it is, a supplied value
    is validated. *)
Definition with_default {A} (default : A) (check : A → Validated A) (x : option A)
    : Validated A :=
  match x with
  | Some a => check a
  | None => Valid default
  end.

(** An [Optional[...]] field holding a nested value. *)
Definition optional {A B} (check : A → Validated B) (x : option A) : Validated (option B) :=
  match x with
  | Some a => Some <$> check a
  | None => Valid None
  end.

(** A [Decimal] field: NaN and the infinities are refused. *)
Definition decimal_field (name : string) (d : PyDecimal.Decimal) : Validated PyDecimal.Decimal :=
  if PyDecimal.is_finite d then Valid d else fail name finite_number.

(** A [Decimal] field with [ge=bound]. *)
Definition decimal_ge (name : string) (bound d : PyDecimal.Decimal) : Validated PyDecimal.Decimal :=
  if PyDecimal.is_finite d then
    match PyDecimal.cmp d bound with
    | Lt => fail name greater_than_equal
    | _ => Valid d
    end
  else fail name finite_number.

(** [float] fields with [gt=bound], with [ge=bound] and with
    [ge=lower, le=upper]. *)
Definition float_gt (name : string) (bound x : PyFloat.float) : Validated PyFloat.float :=
  if PyFloat.lt bound x then Valid x else fail name greater_than.

Definition float_ge (name : string) (bound x : PyFloat.float) : Validated PyFloat.float :=
  if PyFloat.le bound x then Valid x else fail name greater_than_equal.

Definition float_between (name : string) (lower upper x : PyFloat.float) : Validated PyFloat.float :=
  if PyFloat.le x upper then
    if PyFloat.le lower x then Valid x else fail name greater_than_equal
  else fail name less_than_equal.

(** An [int] field with [ge=bound]. *)
Definition int_ge (name : string) (bound n : Z) : Validated Z :=
  if bound <=? n then Valid n else fail name greater_than_equal.

(** The items of a list field, each validated in turn. *)
Fixpoint validate_items {A B} (check : A → Validated B) (i : nat) (l : list A)
    : Validated (list B) :=
  match l with
  | [] => Valid []
  | x :: rest => Valid cons <*> under (Index i) (check x) <*> validate_items check (S i) rest
  end.

(** [min_length] of a list field. *)
Definition min_length {A} (name : string) (n : nat) (l : list A) : Validated (list A) :=
  if (n <=? length l)%nat then Valid l else fail name too_short.

(** A [@validator] run after the field's own validation: a [ValueError]
    becomes an error of the field, any other exception leaves pydantic. *)
Definition run_validator {A} (name : string) (r : PyResult A) : Validated A :=
  match r with
  | Return a => Valid a
  | Raise (ValueError msg) => fail name (value_error msg)
  | Raise (DecimalException s) => Propagated s
  end.

(** *** Key/value trees *)

(** An entry that [exclude_none=True] leaves out when the field is [None]. *)
Definition put_opt (k : string) (v : option PyVal) (d : dict) : dict :=
  match v with
  | Some x => <[k := x]> d
  | None => d
  end.

(** A keyword argument read from a tree: absent, or of the type of the
    field ([None] when the value is of another type). *)
Definition get {A} (proj : PyVal → option A) (d : dict) (k : string) : option (option A) :=
  match d !! k with
  | None => Some None
  | Some v => Some <$> proj v
  end.

Definition as_str (v : PyVal) : option string :=
  match v with VStr s => Some s | _ => None end.
Definition as_int (v : PyVal) : option Z :=
  match v with VInt z => Some z | _ => None end.
Definition as_bool (v : PyVal) : option bool :=
  match v with VBool b => Some b | _ => None end.
Definition as_float (v : PyVal) : option PyFloat.float :=
  match v with VFloat x => Some x | _ => None end.
Definition as_decimal (v : PyVal) : option PyDecimal.Decimal :=
  match v with VDecimal d => Some d | _ => None end.
Definition as_date (v : PyVal) : option date :=
  match v with VDate d => Some d | _ => None end.
Definition as_datetime (v : PyVal) : option datetime :=
  match v with VDatetime t => Some t | _ => None end.
Definition as_list {A} (proj : PyVal → option A) (v : PyVal) : option (list A) :=
  match v with VList l => mapM proj l | _ => None end.
Definition as_model {A} (of_dict : dict → option A) (v : PyVal) : option A :=
  match v with VDict d => of_dict d | _ => None end.

(** ** invoice_schema.py *)

(** *** The enumerations *)

Inductive InvoiceType := STANDARD | CREDIT_NOTE | DEBIT_NOTE | PROFORMA.
Inductive Currency := SAR | USD | EUR | AED | EGP.
Inductive Language := AR | EN | FR | MIXED.

(** The [value] of each member.  The enumerations mix [str] in, so a member
    and its value are equal as Python values and a tree holds the value. *)
Definition InvoiceType_value (x : InvoiceType) : string :=
  match x with
  | STANDARD => "standard"
  | CREDIT_NOTE => "credit_note"
  | DEBIT_NOTE => "debit_note"
  | PROFORMA => "proforma"
  end.

Definition Currency_value (x : Currency) : string :=
  match x with
  | SAR => "SAR" | USD => "USD" | EUR => "EUR" | AED => "AED" | EGP => "EGP"
  end.

Definition Language_value (x : Language) : string :=
  match x with
  | AR => "ar" | EN => "en" | FR => "fr" | MIXED => "mixed"
  end.

Definition as_InvoiceType (v : PyVal) : option InvoiceType :=
  s ← as_str v;
  list_find (λ x, InvoiceType_value x = s) [STANDARD; CREDIT_NOTE; DEBIT_NOTE; PROFORMA]
    ≫= λ r, Some r.2.

Definition as_Currency (v : PyVal) : option Currency :=
  s ← as_str v;
  list_find (λ x, Currency_value x = s) [SAR; USD; EUR; AED; EGP] ≫= λ r, Some r.2.

Definition as_Language (v : PyVal) : option Language :=
  s ← as_str v;
  list_find (λ x, Language_value x = s) [AR; EN; FR; MIXED] ≫= λ r, Some r.2.

(** *** [VendorInfo] *)

Module VendorInfo.

(** The keyword arguments of a construction, typed as the fields are;
    [None] stands for an argument that is not supplied. *)
Module Args.
Record t := {
  name : option string;
  name_ar : option string;
  name_en : option string;
  tax_id : option string;
  registration_number : option string;
  address : option string;
  city : option string;
  country : option string;
  phone : option string;
  email : option string;
  website : option string;
  mapped_vendor_code : option string;
}.
End Args.

(** A validated instance. *)
Record t := {
  name : string;
  name_ar : option string;
  name_en : option string;
  tax_id : option string;
  registration_number : option string;
  address : option string;
  city : option string;
  country : option string;
  phone : option string;
  email : option string;
  website : option string;
  mapped_vendor_code : option string;
}.

(** Construction from keyword arguments: the fields are validated in
    declaration order. *)
Definition construct (data : Args.t) : Validated t :=
  let name := required "name" (Args.name data) in
  let name_ar := Valid (Args.name_ar data) in
  let name_en := Valid (Args.name_en data) in
  let tax_id := Valid (Args.tax_id data) in
  let registration_number := Valid (Args.registration_number data) in
  let address := Valid (Args.address data) in
  let city := Valid (Args.city data) in
  let country := Valid (Args.country data) in
  let phone := Valid (Args.phone data) in
  let email := Valid (Args.email data) in
  let website := Valid (Args.website data) in
  let mapped_vendor_code := Valid (Args.mapped_vendor_code data) in
  Valid Build_t
    <*> name <*> name_ar <*> name_en <*> tax_id <*> registration_number <*> address
    <*> city <*> country <*> phone <*> email <*> website <*> mapped_vendor_code.

(** [self.dict(exclude_none=True)] *)
Definition dict_ (self : t) : dict :=
  <["name" := VStr (name self)]> $
  put_opt "name_ar" (VStr <$> name_ar self) $
  put_opt "name_en" (VStr <$> name_en self) $
  put_opt "tax_id" (VStr <$> tax_id self) $
  put_opt "registration_number" (VStr <$> registration_number self) $
  put_opt "address" (VStr <$> address self) $
  put_opt "city" (VStr <$> city self) $
  put_opt "country" (VStr <$> country self) $
  put_opt "phone" (VStr <$> phone self) $
  put_opt "email" (VStr <$> email self) $
  put_opt "website" (VStr <$> website self) $
  put_opt "mapped_vendor_code" (VStr <$> mapped_vendor_code self) $
  ∅.

(** The keyword arguments that spell an instance out. *)
Definition args_of (self : t) : Args.t :=
  {|
    Args.name := Some (name self);
    Args.name_ar := name_ar self;
    Args.name_en := name_en self;
    Args.tax_id := tax_id self;
    Args.registration_number := registration_number self;
    Args.address := address self;
    Args.city := city self;
    Args.country := country self;
    Args.phone := phone self;
    Args.email := email self;
    Args.website := website self;
    Args.mapped_vendor_code := mapped_vendor_code self
  |}.

(** The keyword arguments read off a tree whose values already have the
    types of the fields. *)
Definition of_dict (d : dict) : option Args.t :=
  name ← get as_str d "name";
  name_ar ← get as_str d "name_ar";
  name_en ← get as_str d "name_en";
  tax_id ← get as_str d "tax_id";
  registration_number ← get as_str d "registration_number";
  address ← get as_str d "address";
  city ← get as_str d "city";
  country ← get as_str d "country";
  phone ← get as_str d "phone";
  email ← get as_str d "email";
  website ← get as_str d "website";
  mapped_vendor_code ← get as_str d "mapped_vendor_code";
  Some {|
    Args.name := name;
    Args.name_ar := name_ar;
    Args.name_en := name_en;
    Args.tax_id := tax_id;
    Args.registration_number := registration_number;
    Args.address := address;
    Args.city := city;
    Args.country := country;
    Args.phone := phone;
    Args.email := email;
    Args.website := website;
    Args.mapped_vendor_code := mapped_vendor_code
  |}.

End VendorInfo.

(** *** [CustomerInfo] *)

Module CustomerInfo.

Module Args.
Record t := {
  name : option string;
  tax_id : option string;
  registration_number : option string;
  address : option string;
  city : option string;
  country : option string;
  phone : option string;
}.
End Args.

Record t := {
  name : string;
  tax_id : option string;
  registration_number : option string;
  address : option string;
  city : option string;
  country : option string;
  phone : option string;
}.

(** Construction from keyword arguments: the fields are validated in
    declaration order. *)
Definition construct (data : Args.t) : Validated t :=
  let name := required "name" (Args.name data) in
  let tax_id := Valid (Args.tax_id data) in
  let registration_number := Valid (Args.registration_number data) in
  let address := Valid (Args.address data) in
  let city := Valid (Args.city data) in
  let country := Valid (Args.country data) in
  let phone := Valid (Args.phone data) in
  Valid Build_t
    <*> name <*> tax_id <*> registration_number <*> address <*> city <*> country
    <*> phone.

(** [self.dict(exclude_none=True)] *)
Definition dict_ (self : t) : dict :=
  <["name" := VStr (name self)]> $
  put_opt "tax_id" (VStr <$> tax_id self) $
  put_opt "registration_number" (VStr <$> registration_number self) $
  put_opt "address" (VStr <$> address self) $
  put_opt "city" (VStr <$> city self) $
  put_opt "country" (VStr <$> country self) $
  put_opt "phone" (VStr <$> phone self) $
  ∅.

(** The keyword arguments that spell an instance out. *)
Definition args_of (self : t) : Args.t :=
  {|
    Args.name := Some (name self);
    Args.tax_id := tax_id self;
    Args.registration_number := registration_number self;
    Args.address := address self;
    Args.city := city self;
    Args.country := country self;
    Args.phone := phone self
  |}.

(** The keyword arguments read off a tree whose values already have the
    types of the fields. *)
Definition of_dict (d : dict) : option Args.t :=
  name ← get as_str d "name";
  tax_id ← get as_str d "tax_id";
  registration_number ← get as_str d "registration_number";
  address ← get as_str d "address";
  city ← get as_str d "city";
  country ← get as_str d "country";
  phone ← get as_str d "phone";
  Some {|
    Args.name := name;
    Args.tax_id := tax_id;
    Args.registration_number := registration_number;
    Args.address := address;
    Args.city := city;
    Args.country := country;
    Args.phone := phone
  |}.

End CustomerInfo.

(** *** [TaxBreakdown] *)

Module TaxBreakdown.

Import PyDecimal.

Module Args.
Record t := {
  tax_type : option string;
  tax_rate : option Decimal;
  taxable_amount : option Decimal;
  tax_amount : option Decimal;
}.
End Args.

Record t := {
  tax_type : string;
  tax_rate : Decimal;
  taxable_amount : Decimal;
  tax_amount : Decimal;
}.

(** Construction from keyword arguments: the fields are validated in
    declaration order. *)
Definition construct (data : Args.t) : Validated t :=
  let tax_type := required "tax_type" (Args.tax_type data) in
  let tax_rate :=
    required "tax_rate" (Args.tax_rate data) ≫= decimal_ge "tax_rate" zero in
  let taxable_amount :=
    required "taxable_amount" (Args.taxable_amount data) ≫= decimal_ge "taxable_amount" zero in
  let tax_amount :=
    required "tax_amount" (Args.tax_amount data) ≫= decimal_ge "tax_amount" zero in
  Valid Build_t
    <*> tax_type <*> tax_rate <*> taxable_amount <*> tax_amount.

(** [self.dict(exclude_none=True)] *)
Definition dict_ (self : t) : dict :=
  <["tax_type" := VStr (tax_type self)]> $
  <["tax_rate" := VDecimal (tax_rate self)]> $
  <["taxable_amount" := VDecimal (taxable_amount self)]> $
  <["tax_amount" := VDecimal (tax_amount self)]> $
  ∅.

(** The keyword arguments that spell an instance out. *)
Definition args_of (self : t) : Args.t :=
  {|
    Args.tax_type := Some (tax_type self);
    Args.tax_rate := Some (tax_rate self);
    Args.taxable_amount := Some (taxable_amount self);
    Args.tax_amount := Some (tax_amount self)
  |}.

(** The keyword arguments read off a tree whose values already have the
    types of the fields. *)
Definition of_dict (d : dict) : option Args.t :=
  tax_type ← get as_str d "tax_type";
  tax_rate ← get as_decimal d "tax_rate";
  taxable_amount ← get as_decimal d "taxable_amount";
  tax_amount ← get as_decimal d "tax_amount";
  Some {|
    Args.tax_type := tax_type;
    Args.tax_rate := tax_rate;
    Args.taxable_amount := taxable_amount;
    Args.tax_amount := tax_amount
  |}.

End TaxBreakdown.

(** *** [PaymentInfo] *)

Module PaymentInfo.

Module Args.
Record t := {
  payment_method : option string;
  payment_terms : option string;
  due_date : option date;
  bank_name : option string;
  bank_account : option string;
  iban : option string;
  swift_code : option string;
}.
End Args.

Record t := {
  payment_method : option string;
  payment_terms : option string;
  due_date : option date;
  bank_name : option string;
  bank_account : option string;
  iban : option string;
  swift_code : option string;
}.

(** Construction from keyword arguments: the fields are validated in
    declaration order. *)
Definition construct (data : Args.t) : Validated t :=
  let payment_method := Valid (Args.payment_method data) in
  let payment_terms := Valid (Args.payment_terms data) in
  let due_date := Valid (Args.due_date data) in
  let bank_name := Valid (Args.bank_name data) in
  let bank_account := Valid (Args.bank_account data) in
  let iban := Valid (Args.iban data) in
  let swift_code := Valid (Args.swift_code data) in
  Valid Build_t
    <*> payment_method <*> payment_terms <*> due_date <*> bank_name <*> bank_account
    <*> iban <*> swift_code.

(** [self.dict(exclude_none=True)] *)
Definition dict_ (self : t) : dict :=
  put_opt "payment_method" (VStr <$> payment_method self) $
  put_opt "payment_terms" (VStr <$> payment_terms self) $
  put_opt "due_date" (VDate <$> due_date self) $
  put_opt "bank_name" (VStr <$> bank_name self) $
  put_opt "bank_account" (VStr <$> bank_account self) $
  put_opt "iban" (VStr <$> iban self) $
  put_opt "swift_code" (VStr <$> swift_code self) $
  ∅.

(** The keyword arguments that spell an instance out. *)
Definition args_of (self : t) : Args.t :=
  {|
    Args.payment_method := payment_method self;
    Args.payment_terms := payment_terms self;
    Args.due_date := due_date self;
    Args.bank_name := bank_name self;
    Args.bank_account := bank_account self;
    Args.iban := iban self;
    Args.swift_code := swift_code self
  |}.

(** The keyword arguments read off a tree whose values already have the
    types of the fields. *)
Definition of_dict (d : dict) : option Args.t :=
  payment_method ← get as_str d "payment_method";
  payment_terms ← get as_str d "payment_terms";
  due_date ← get as_date d "due_date";
  bank_name ← get as_str d "bank_name";
  bank_account ← get as_str d "bank_account";
  iban ← get as_str d "iban";
  swift_code ← get as_str d "swift_code";
  Some {|
    Args.payment_method := payment_method;
    Args.payment_terms := payment_terms;
    Args.due_date := due_date;
    Args.bank_name := bank_name;
    Args.bank_account := bank_account;
    Args.iban := iban;
    Args.swift_code := swift_code
  |}.

End PaymentInfo.

(** *** [InvoiceLineItem] *)

Module InvoiceLineItem.

Import PyDecimal.

Module Args.
Record t := {
  description : option string;
  description_ar : option string;
  description_en : option string;
  quantity : option PyFloat.float;
  unit_price : option Decimal;
  unit : option string;
  discount : option Decimal;
  tax_rate : option Decimal;
  tax_amount : option Decimal;
  line_total : option Decimal;
  item_code : option string;
}.
(** The same arguments with another [discount]. *)
Definition with_discount (x : option Decimal) (data : t) : t :=
  {|
    description := description data;
    description_ar := description_ar data;
    description_en := description_en data;
    quantity := quantity data;
    unit_price := unit_price data;
    unit := unit data;
    discount := x;
    tax_rate := tax_rate data;
    tax_amount := tax_amount data;
    line_total := line_total data;
    item_code := item_code data
  |}.
(** The same arguments with another [tax_rate]. *)
Definition with_tax_rate (x : option Decimal) (data : t) : t :=
  {|
    description := description data;
    description_ar := description_ar data;
    description_en := description_en data;
    quantity := quantity data;
    unit_price := unit_price data;
    unit := unit data;
    discount := discount data;
    tax_rate := x;
    tax_amount := tax_amount data;
    line_total := line_total data;
    item_code := item_code data
  |}.
(** The same arguments with another [line_total]. *)
Definition with_line_total (x : option Decimal) (data : t) : t :=
  {|
    description := description data;
    description_ar := description_ar data;
    description_en := description_en data;
    quantity := quantity data;
    unit_price := unit_price data;
    unit := unit data;
    discount := discount data;
    tax_rate := tax_rate data;
    tax_amount := tax_amount data;
    line_total := x;
    item_code := item_code data
  |}.
End Args.

Record t := {
  description : string;
  description_ar : option string;
  description_en : option string;
  quantity : PyFloat.float;
  unit_price : Decimal;
  unit : option string;
  discount : Decimal;
  tax_rate : Decimal;
  tax_amount : Decimal;
  line_total : Decimal;
  item_code : option string;
}.

(** The instance with [line_total] replaced. *)
Definition with_line_total (x : Decimal) (self : t) : t :=
  {|
    description := description self;
    description_ar := description_ar self;
    description_en := description_en self;
    quantity := quantity self;
    unit_price := unit_price self;
    unit := unit self;
    discount := discount self;
    tax_rate := tax_rate self;
    tax_amount := tax_amount self;
    line_total := x;
    item_code := item_code self
  |}.

(** The instance with [tax_rate] replaced. *)
Definition with_tax_rate (x : Decimal) (self : t) : t :=
  {|
    description := description self;
    description_ar := description_ar self;
    description_en := description_en self;
    quantity := quantity self;
    unit_price := unit_price self;
    unit := unit self;
    discount := discount self;
    tax_rate := x;
    tax_amount := tax_amount self;
    line_total := line_total self;
    item_code := item_code self
  |}.

(** What [validate_line_total] reads in [values], the fields validated
    before [line_total]: a field that failed its own validation is not in
    [values]. *)
Module Values.
Record t := {
  quantity : option PyFloat.float;
  unit_price : option Decimal;
  discount : option Decimal;
  tax_amount : option Decimal;
}.
End Values.

Definition validate_line_total (v : Decimal) (values : Values.t) : PyResult Decimal :=
  match Values.quantity values, Values.unit_price values with
  | Some quantity, Some unit_price =>
      product ← mul (PyFloat.to_decimal quantity) unit_price;
      expected ← sub product (default zero (Values.discount values));
      expected ← add expected (default zero (Values.tax_amount values));
      difference ← sub expected v;
      distance ← abs difference;
      too_far ← gt distance cent;
      if too_far : bool
      then Raise (ValueError ("Line total mismatch: expected " +:+ str expected
                                +:+ ", got " +:+ str v))
      else Return v
  | _, _ => Return v
  end.

(** Construction from keyword arguments: the fields are validated in
    declaration order. *)
Definition construct (data : Args.t) : Validated t :=
  let description := required "description" (Args.description data) in
  let description_ar := Valid (Args.description_ar data) in
  let description_en := Valid (Args.description_en data) in
  let quantity :=
    required "quantity" (Args.quantity data) ≫= float_gt "quantity" PyFloat.zero in
  let unit_price :=
    required "unit_price" (Args.unit_price data) ≫= decimal_field "unit_price" in
  let unit := Valid (Args.unit data) in
  let discount := with_default zero (decimal_ge "discount" zero) (Args.discount data) in
  let tax_rate := with_default zero (decimal_ge "tax_rate" zero) (Args.tax_rate data) in
  let tax_amount :=
    with_default zero (decimal_ge "tax_amount" zero) (Args.tax_amount data) in
  let line_total :=
    v ← required "line_total" (Args.line_total data);
    v ← decimal_field "line_total" v;
    run_validator "line_total" (validate_line_total v
        {| Values.quantity := to_option quantity;
           Values.unit_price := to_option unit_price;
           Values.discount := to_option discount;
           Values.tax_amount := to_option tax_amount |}) in
  let item_code := Valid (Args.item_code data) in
  Valid Build_t
    <*> description <*> description_ar <*> description_en <*> quantity <*> unit_price
    <*> unit <*> discount <*> tax_rate <*> tax_amount <*> line_total <*> item_code.

(** [self.dict(exclude_none=True)] *)
Definition dict_ (self : t) : dict :=
  <["description" := VStr (description self)]> $
  put_opt "description_ar" (VStr <$> description_ar self) $
  put_opt "description_en" (VStr <$> description_en self) $
  <["quantity" := VFloat (quantity self)]> $
  <["unit_price" := VDecimal (unit_price self)]> $
  put_opt "unit" (VStr <$> unit self) $
  <["discount" := VDecimal (discount self)]> $
  <["tax_rate" := VDecimal (tax_rate self)]> $
  <["tax_amount" := VDecimal (tax_amount self)]> $
  <["line_total" := VDecimal (line_total self)]> $
  put_opt "item_code" (VStr <$> item_code self) $
  ∅.

(** The keyword arguments that spell an instance out. *)
Definition args_of (self : t) : Args.t :=
  {|
    Args.description := Some (description self);
    Args.description_ar := description_ar self;
    Args.description_en := description_en self;
    Args.quantity := Some (quantity self);
    Args.unit_price := Some (unit_price self);
    Args.unit := unit self;
    Args.discount := Some (discount self);
    Args.tax_rate := Some (tax_rate self);
    Args.tax_amount := Some (tax_amount self);
    Args.line_total := Some (line_total self);
    Args.item_code := item_code self
  |}.

(** The keyword arguments read off a tree whose values already have the
    types of the fields. *)
Definition of_dict (d : dict) : option Args.t :=
  description ← get as_str d "description";
  description_ar ← get as_str d "description_ar";
  description_en ← get as_str d "description_en";
  quantity ← get as_float d "quantity";
  unit_price ← get as_decimal d "unit_price";
  unit ← get as_str d "unit";
  discount ← get as_decimal d "discount";
  tax_rate ← get as_decimal d "tax_rate";
  tax_amount ← get as_decimal d "tax_amount";
  line_total ← get as_decimal d "line_total";
  item_code ← get as_str d "item_code";
  Some {|
    Args.description := description;
    Args.description_ar := description_ar;
    Args.description_en := description_en;
    Args.quantity := quantity;
    Args.unit_price := unit_price;
    Args.unit := unit;
    Args.discount := discount;
    Args.tax_rate := tax_rate;
    Args.tax_amount := tax_amount;
    Args.line_total := line_total;
    Args.item_code := item_code
  |}.

End InvoiceLineItem.

(** *** [Invoice] *)

Module Invoice.

Import PyDecimal.

Module Args.
Record t := {
  invoice_number : option string;
  invoice_type : option InvoiceType;
  invoice_date : option date;
  currency : option Currency;
  language_detected : option Language;
  vendor : option VendorInfo.Args.t;
  customer : option CustomerInfo.Args.t;
  line_items : option (list InvoiceLineItem.Args.t);
  subtotal : option Decimal;
  total_discount : option Decimal;
  total_tax : option Decimal;
  total_amount : option Decimal;
  tax_breakdown : option (list TaxBreakdown.Args.t);
  payment_info : option PaymentInfo.Args.t;
  po_number : option string;
  reference_number : option string;
  notes : option string;
  qr_code : option string;
  confidence_score : option PyFloat.float;
  extraction_timestamp : option datetime;
  source_file : option string;
  page_count : option Z;
}.
(** The same arguments with another [invoice_date]. *)
Definition with_invoice_date (x : option date) (data : t) : t :=
  {|
    invoice_number := invoice_number data;
    invoice_type := invoice_type data;
    invoice_date := x;
    currency := currency data;
    language_detected := language_detected data;
    vendor := vendor data;
    customer := customer data;
    line_items := line_items data;
    subtotal := subtotal data;
    total_discount := total_discount data;
    total_tax := total_tax data;
    total_amount := total_amount data;
    tax_breakdown := tax_breakdown data;
    payment_info := payment_info data;
    po_number := po_number data;
    reference_number := reference_number data;
    notes := notes data;
    qr_code := qr_code data;
    confidence_score := confidence_score data;
    extraction_timestamp := extraction_timestamp data;
    source_file := source_file data;
    page_count := page_count data
  |}.
(** The same arguments with another [line_items]. *)
Definition with_line_items (x : option (list InvoiceLineItem.Args.t)) (data : t) : t :=
  {|
    invoice_number := invoice_number data;
    invoice_type := invoice_type data;
    invoice_date := invoice_date data;
    currency := currency data;
    language_detected := language_detected data;
    vendor := vendor data;
    customer := customer data;
    line_items := x;
    subtotal := subtotal data;
    total_discount := total_discount data;
    total_tax := total_tax data;
    total_amount := total_amount data;
    tax_breakdown := tax_breakdown data;
    payment_info := payment_info data;
    po_number := po_number data;
    reference_number := reference_number data;
    notes := notes data;
    qr_code := qr_code data;
    confidence_score := confidence_score data;
    extraction_timestamp := extraction_timestamp data;
    source_file := source_file data;
    page_count := page_count data
  |}.
(** The same arguments with another [total_amount]. *)
Definition with_total_amount (x : option Decimal) (data : t) : t :=
  {|
    invoice_number := invoice_number data;
    invoice_type := invoice_type data;
    invoice_date := invoice_date data;
    currency := currency data;
    language_detected := language_detected data;
    vendor := vendor data;
    customer := customer data;
    line_items := line_items data;
    subtotal := subtotal data;
    total_discount := total_discount data;
    total_tax := total_tax data;
    total_amount := x;
    tax_breakdown := tax_breakdown data;
    payment_info := payment_info data;
    po_number := po_number data;
    reference_number := reference_number data;
    notes := notes data;
    qr_code := qr_code data;
    confidence_score := confidence_score data;
    extraction_timestamp := extraction_timestamp data;
    source_file := source_file data;
    page_count := page_count data
  |}.
(** The same arguments with another [tax_breakdown]. *)
Definition with_tax_breakdown (x : option (list TaxBreakdown.Args.t)) (data : t) : t :=
  {|
    invoice_number := invoice_number data;
    invoice_type := invoice_type data;
    invoice_date := invoice_date data;
    currency := currency data;
    language_detected := language_detected data;
    vendor := vendor data;
    customer := customer data;
    line_items := line_items data;
    subtotal := subtotal data;
    total_discount := total_discount data;
    total_tax := total_tax data;
    total_amount := total_amount data;
    tax_breakdown := x;
    payment_info := payment_info data;
    po_number := po_number data;
    reference_number := reference_number data;
    notes := notes data;
    qr_code := qr_code data;
    confidence_score := confidence_score data;
    extraction_timestamp := extraction_timestamp data;
    source_file := source_file data;
    page_count := page_count data
  |}.
End Args.

Record t := {
  invoice_number : string;
  invoice_type : InvoiceType;
  invoice_date : date;
  currency : Currency;
  language_detected : Language;
  vendor : VendorInfo.t;
  customer : option CustomerInfo.t;
  line_items : list InvoiceLineItem.t;
  subtotal : Decimal;
  total_discount : Decimal;
  total_tax : Decimal;
  total_amount : Decimal;
  tax_breakdown : option (list TaxBreakdown.t);
  payment_info : option PaymentInfo.t;
  po_number : option string;
  reference_number : option string;
  notes : option string;
  qr_code : option string;
  confidence_score : PyFloat.float;
  extraction_timestamp : datetime;
  source_file : option string;
  page_count : option Z;
}.

(** The instance with [invoice_date] replaced. *)
Definition with_invoice_date (x : date) (self : t) : t :=
  {|
    invoice_number := invoice_number self;
    invoice_type := invoice_type self;
    invoice_date := x;
    currency := currency self;
    language_detected := language_detected self;
    vendor := vendor self;
    customer := customer self;
    line_items := line_items self;
    subtotal := subtotal self;
    total_discount := total_discount self;
    total_tax := total_tax self;
    total_amount := total_amount self;
    tax_breakdown := tax_breakdown self;
    payment_info := payment_info self;
    po_number := po_number self;
    reference_number := reference_number self;
    notes := notes self;
    qr_code := qr_code self;
    confidence_score := confidence_score self;
    extraction_timestamp := extraction_timestamp self;
    source_file := source_file self;
    page_count := page_count self
  |}.

(** The instance with [total_amount] replaced. *)
Definition with_total_amount (x : Decimal) (self : t) : t :=
  {|
    invoice_number := invoice_number self;
    invoice_type := invoice_type self;
    invoice_date := invoice_date self;
    currency := currency self;
    language_detected := language_detected self;
    vendor := vendor self;
    customer := customer self;
    line_items := line_items self;
    subtotal := subtotal self;
    total_discount := total_discount self;
    total_tax := total_tax self;
    total_amount := x;
    tax_breakdown := tax_breakdown self;
    payment_info := payment_info self;
    po_number := po_number self;
    reference_number := reference_number self;
    notes := notes self;
    qr_code := qr_code self;
    confidence_score := confidence_score self;
    extraction_timestamp := extraction_timestamp self;
    source_file := source_file self;
    page_count := page_count self
  |}.

(** The instance with [line_items] replaced. *)
Definition with_line_items (x : list InvoiceLineItem.t) (self : t) : t :=
  {|
    invoice_number := invoice_number self;
    invoice_type := invoice_type self;
    invoice_date := invoice_date self;
    currency := currency self;
    language_detected := language_detected self;
    vendor := vendor self;
    customer := customer self;
    line_items := x;
    subtotal := subtotal self;
    total_discount := total_discount self;
    total_tax := total_tax self;
    total_amount := total_amount self;
    tax_breakdown := tax_breakdown self;
    payment_info := payment_info self;
    po_number := po_number self;
    reference_number := reference_number self;
    notes := notes self;
    qr_code := qr_code self;
    confidence_score := confidence_score self;
    extraction_timestamp := extraction_timestamp self;
    source_file := source_file self;
    page_count := page_count self
  |}.

(** The instance with [tax_breakdown] replaced. *)
Definition with_tax_breakdown (x : option (list TaxBreakdown.t)) (self : t) : t :=
  {|
    invoice_number := invoice_number self;
    invoice_type := invoice_type self;
    invoice_date := invoice_date self;
    currency := currency self;
    language_detected := language_detected self;
    vendor := vendor self;
    customer := customer self;
    line_items := line_items self;
    subtotal := subtotal self;
    total_discount := total_discount self;
    total_tax := total_tax self;
    total_amount := total_amount self;
    tax_breakdown := x;
    payment_info := payment_info self;
    po_number := po_number self;
    reference_number := reference_number self;
    notes := notes self;
    qr_code := qr_code self;
    confidence_score := confidence_score self;
    extraction_timestamp := extraction_timestamp self;
    source_file := source_file self;
    page_count := page_count self
  |}.

(** What [validate_total] reads in [values]. *)
Module Values.
Record t := {
  subtotal : option Decimal;
  total_discount : option Decimal;
  total_tax : option Decimal;
}.
End Values.

Definition validate_total (v : Decimal) (values : Values.t) : PyResult Decimal :=
  match Values.subtotal values, Values.total_tax values, Values.total_discount values with
  | Some subtotal, Some total_tax, Some total_discount =>
      net ← sub subtotal total_discount;
      expected ← add net total_tax;
      difference ← sub expected v;
      distance ← abs difference;
      too_far ← gt distance cent;
      if too_far : bool
      then Raise (ValueError ("Total amount mismatch: expected " +:+ str expected
                                +:+ ", got " +:+ str v))
      else Return v
  | _, _, _ => Return v
  end.

(** Both reads of [date.today()] are taken on the same day. *)
Definition validate_date (clock : Clock) (v : date) : PyResult date :=
  if date_gt v (today clock) then
    if 30 <? days_between v (today clock)
    then Raise (ValueError ("Invoice date " +:+ isoformat v +:+ " is too far in the future"))
    else Return v
  else Return v.

(** Construction from keyword arguments: the fields are validated in
    declaration order. *)
Definition construct (clock : Clock) (data : Args.t) : Validated t :=
  let invoice_number := required "invoice_number" (Args.invoice_number data) in
  let invoice_type := with_default STANDARD Valid (Args.invoice_type data) in
  let invoice_date :=
    v ← required "invoice_date" (Args.invoice_date data);
    run_validator "invoice_date" (validate_date clock v) in
  let currency := with_default SAR Valid (Args.currency data) in
  let language_detected := with_default AR Valid (Args.language_detected data) in
  let vendor :=
    a ← required "vendor" (Args.vendor data);
    under (Key "vendor") (VendorInfo.construct a) in
  let customer :=
    optional (λ a, under (Key "customer") (CustomerInfo.construct a)) (Args.customer data) in
  let line_items :=
    l ← required "line_items" (Args.line_items data);
    l ← under (Key "line_items") (validate_items InvoiceLineItem.construct 0 l);
    min_length "line_items" 1 l in
  let subtotal :=
    required "subtotal" (Args.subtotal data) ≫= decimal_ge "subtotal" zero in
  let total_discount :=
    with_default zero (decimal_ge "total_discount" zero) (Args.total_discount data) in
  let total_tax :=
    with_default zero (decimal_ge "total_tax" zero) (Args.total_tax data) in
  let total_amount :=
    v ← required "total_amount" (Args.total_amount data);
    v ← decimal_ge "total_amount" zero v;
    run_validator "total_amount" (validate_total v
        {| Values.subtotal := to_option subtotal;
           Values.total_discount := to_option total_discount;
           Values.total_tax := to_option total_tax |}) in
  let tax_breakdown :=
    optional (λ l, under (Key "tax_breakdown") (validate_items TaxBreakdown.construct 0 l)) (Args.tax_breakdown data) in
  let payment_info :=
    optional (λ a, under (Key "payment_info") (PaymentInfo.construct a)) (Args.payment_info data) in
  let po_number := Valid (Args.po_number data) in
  let reference_number := Valid (Args.reference_number data) in
  let notes := Valid (Args.notes data) in
  let qr_code := Valid (Args.qr_code data) in
  let confidence_score :=
    with_default PyFloat.zero
      (float_between "confidence_score" PyFloat.zero PyFloat.one) (Args.confidence_score data) in
  let extraction_timestamp :=
    with_default (now clock) Valid (Args.extraction_timestamp data) in
  let source_file := Valid (Args.source_file data) in
  let page_count := Valid (Args.page_count data) in
  Valid Build_t
    <*> invoice_number <*> invoice_type <*> invoice_date <*> currency
    <*> language_detected <*> vendor <*> customer <*> line_items <*> subtotal
    <*> total_discount <*> total_tax <*> total_amount <*> tax_breakdown
    <*> payment_info <*> po_number <*> reference_number <*> notes <*> qr_code
    <*> confidence_score <*> extraction_timestamp <*> source_file <*> page_count.

(** [self.dict(exclude_none=True)] *)
Definition dict_ (self : t) : dict :=
  <["invoice_number" := VStr (invoice_number self)]> $
  <["invoice_type" := (λ x, VStr (InvoiceType_value x)) (invoice_type self)]> $
  <["invoice_date" := VDate (invoice_date self)]> $
  <["currency" := (λ x, VStr (Currency_value x)) (currency self)]> $
  <["language_detected" := (λ x, VStr (Language_value x)) (language_detected self)]> $
  <["vendor" := (λ x, VDict (VendorInfo.dict_ x)) (vendor self)]> $
  put_opt "customer" ((λ x, VDict (CustomerInfo.dict_ x)) <$> customer self) $
  <["line_items" := (λ l, VList (map (λ x, VDict (InvoiceLineItem.dict_ x)) l)) (line_items self)]> $
  <["subtotal" := VDecimal (subtotal self)]> $
  <["total_discount" := VDecimal (total_discount self)]> $
  <["total_tax" := VDecimal (total_tax self)]> $
  <["total_amount" := VDecimal (total_amount self)]> $
  put_opt "tax_breakdown" ((λ l, VList (map (λ x, VDict (TaxBreakdown.dict_ x)) l)) <$> tax_breakdown self) $
  put_opt "payment_info" ((λ x, VDict (PaymentInfo.dict_ x)) <$> payment_info self) $
  put_opt "po_number" (VStr <$> po_number self) $
  put_opt "reference_number" (VStr <$> reference_number self) $
  put_opt "notes" (VStr <$> notes self) $
  put_opt "qr_code" (VStr <$> qr_code self) $
  <["confidence_score" := VFloat (confidence_score self)]> $
  <["extraction_timestamp" := VDatetime (extraction_timestamp self)]> $
  put_opt "source_file" (VStr <$> source_file self) $
  put_opt "page_count" (VInt <$> page_count self) $
  ∅.

(** The keyword arguments that spell an instance out. *)
Definition args_of (self : t) : Args.t :=
  {|
    Args.invoice_number := Some (invoice_number self);
    Args.invoice_type := Some (invoice_type self);
    Args.invoice_date := Some (invoice_date self);
    Args.currency := Some (currency self);
    Args.language_detected := Some (language_detected self);
    Args.vendor := Some (VendorInfo.args_of (vendor self));
    Args.customer := CustomerInfo.args_of <$> customer self;
    Args.line_items := Some (map InvoiceLineItem.args_of (line_items self));
    Args.subtotal := Some (subtotal self);
    Args.total_discount := Some (total_discount self);
    Args.total_tax := Some (total_tax self);
    Args.total_amount := Some (total_amount self);
    Args.tax_breakdown := map TaxBreakdown.args_of <$> tax_breakdown self;
    Args.payment_info := PaymentInfo.args_of <$> payment_info self;
    Args.po_number := po_number self;
    Args.reference_number := reference_number self;
    Args.notes := notes self;
    Args.qr_code := qr_code self;
    Args.confidence_score := Some (confidence_score self);
    Args.extraction_timestamp := Some (extraction_timestamp self);
    Args.source_file := source_file self;
    Args.page_count := page_count self
  |}.

(** The keyword arguments read off a tree whose values already have the
    types of the fields. *)
Definition of_dict (d : dict) : option Args.t :=
  invoice_number ← get as_str d "invoice_number";
  invoice_type ← get as_InvoiceType d "invoice_type";
  invoice_date ← get as_date d "invoice_date";
  currency ← get as_Currency d "currency";
  language_detected ← get as_Language d "language_detected";
  vendor ← get (as_model VendorInfo.of_dict) d "vendor";
  customer ← get (as_model CustomerInfo.of_dict) d "customer";
  line_items ← get (as_list (as_model InvoiceLineItem.of_dict)) d "line_items";
  subtotal ← get as_decimal d "subtotal";
  total_discount ← get as_decimal d "total_discount";
  total_tax ← get as_decimal d "total_tax";
  total_amount ← get as_decimal d "total_amount";
  tax_breakdown ← get (as_list (as_model TaxBreakdown.of_dict)) d "tax_breakdown";
  payment_info ← get (as_model PaymentInfo.of_dict) d "payment_info";
  po_number ← get as_str d "po_number";
  reference_number ← get as_str d "reference_number";
  notes ← get as_str d "notes";
  qr_code ← get as_str d "qr_code";
  confidence_score ← get as_float d "confidence_score";
  extraction_timestamp ← get as_datetime d "extraction_timestamp";
  source_file ← get as_str d "source_file";
  page_count ← get as_int d "page_count";
  Some {|
    Args.invoice_number := invoice_number;
    Args.invoice_type := invoice_type;
    Args.invoice_date := invoice_date;
    Args.currency := currency;
    Args.language_detected := language_detected;
    Args.vendor := vendor;
    Args.customer := customer;
    Args.line_items := line_items;
    Args.subtotal := subtotal;
    Args.total_discount := total_discount;
    Args.total_tax := total_tax;
    Args.total_amount := total_amount;
    Args.tax_breakdown := tax_breakdown;
    Args.payment_info := payment_info;
    Args.po_number := po_number;
    Args.reference_number := reference_number;
    Args.notes := notes;
    Args.qr_code := qr_code;
    Args.confidence_score := confidence_score;
    Args.extraction_timestamp := extraction_timestamp;
    Args.source_file := source_file;
    Args.page_count := page_count
  |}.

(** [Invoice.to_dict] *)
Definition to_dict (self : t) : dict := dict_ self.

End Invoice.

(** *** [ExtractionResult] *)

Module ExtractionResult.

(** The [invoice] argument: an [Invoice] instance, which is taken as it is,
    or the keyword arguments of one, from which it is constructed. *)
Inductive InvoiceArg :=
  | Instance (self : Invoice.t)
  | Data (data : Invoice.Args.t).

Module Args.
Record t := {
  success : option bool;
  invoice : option InvoiceArg;
  errors : option (list string);
  warnings : option (list string);
  processing_time : option PyFloat.float;
  retry_count : option Z;
  llm_model_used : option string;
}.
End Args.

Record t := {
  success : bool;
  invoice : option Invoice.t;
  errors : list string;
  warnings : list string;
  processing_time : PyFloat.float;
  retry_count : Z;
  llm_model_used : option string;
}.

Definition validate_invoice (clock : Clock) (x : InvoiceArg) : Validated Invoice.t :=
  match x with
  | Instance self => Valid self
  | Data data => under (Key "invoice") (Invoice.construct clock data)
  end.

(** Construction from keyword arguments.  The class declares no validator:
    each field is checked on its own. *)
Definition construct (clock : Clock) (data : Args.t) : Validated t :=
  let success := required "success" (Args.success data) in
  let invoice := optional (validate_invoice clock) (Args.invoice data) in
  let errors := with_default [] Valid (Args.errors data) in
  let warnings := with_default [] Valid (Args.warnings data) in
  let processing_time :=
    required "processing_time" (Args.processing_time data)
    ≫= float_ge "processing_time" PyFloat.zero in
  let retry_count := with_default 0 (int_ge "retry_count" 0) (Args.retry_count data) in
  let llm_model_used := Valid (Args.llm_model_used data) in
  Valid Build_t
    <*> success <*> invoice <*> errors <*> warnings <*> processing_time
    <*> retry_count <*> llm_model_used.

End ExtractionResult.

(** *** [CustomerConfig] *)

Module CustomerConfig.

Module Args.
Record t := {
  customer_id : option string;
  customer_name : option string;
  connector_type : option string;
  connector_config : option dict;
  auto_process : option bool;
  require_approval : option bool;
  languages : option (list Language);
  default_currency : option Currency;
  vendor_mapping_file : option string;
}.
End Args.

Record t := {
  customer_id : string;
  customer_name : string;
  connector_type : string;
  connector_config : dict;
  auto_process : bool;
  require_approval : bool;
  languages : list Language;
  default_currency : Currency;
  vendor_mapping_file : option string;
}.

(** Construction from keyword arguments.  No field carries a constraint
    and the class declares no validator. *)
Definition construct (data : Args.t) : Validated t :=
  let customer_id := required "customer_id" (Args.customer_id data) in
  let customer_name := required "customer_name" (Args.customer_name data) in
  let connector_type := required "connector_type" (Args.connector_type data) in
  let connector_config := with_default ∅ Valid (Args.connector_config data) in
  let auto_process := with_default true Valid (Args.auto_process data) in
  let require_approval := with_default false Valid (Args.require_approval data) in
  let languages := with_default [AR; EN] Valid (Args.languages data) in
  let default_currency := with_default SAR Valid (Args.default_currency data) in
  let vendor_mapping_file := Valid (Args.vendor_mapping_file data) in
  Valid Build_t
    <*> customer_id <*> customer_name <*> connector_type <*> connector_config
    <*> auto_process <*> require_approval <*> languages <*> default_currency
    <*> vendor_mapping_file.

End CustomerConfig.

(** ** Instances as objects *)

(** The settings of a model that govern assignment to a field. *)
Record ModelConfig := {
  frozen : bool;
  validate_assignment : bool;
  use_enum_values : bool;
}.

(** [Invoice.Config] sets [json_encoders] and [use_enum_values];
    [InvoiceLineItem] has no [Config].  What a class does not set keeps
    pydantic's default, which is off for all three settings. *)
Definition Invoice_Config : ModelConfig :=
  {| frozen := false; validate_assignment := false; use_enum_values := true |}.

Definition InvoiceLineItem_Config : ModelConfig :=
  {| frozen := false; validate_assignment := false; use_enum_values := false |}.

(** Instances live in a store and are reached through references: every
    name bound to an instance holds the same reference. *)
Definition ref := positive.

Inductive Assigned (A : Type) :=
  | Stored (store : gmap ref A)
  | FrozenInstance
  | Refused (outcome : Validated A)
  | Dangling.
Arguments Stored {A} store.
Arguments FrozenInstance {A}.
Arguments Refused {A} outcome.
Arguments Dangling {A}.

(** [BaseModel.__setattr__] on a field, [update] being the replacement of
    that field by the assigned value: refused on a frozen model; with
    [validate_assignment] the updated instance has to pass validation;
    otherwise the value is stored as it is. *)
Definition setattr {A} (config : ModelConfig) (revalidate : A → Validated A)
    (update : A → A) (self : ref) (store : gmap ref A) : Assigned A :=
  match store !! self with
  | None => Dangling
  | Some obj =>
      if frozen config then FrozenInstance
      else if validate_assignment config then
        match revalidate (update obj) with
        | Valid obj' => Stored (<[self := obj']> store)
        | outcome => Refused outcome
        end
      else Stored (<[self := update obj]> store)
  end.

(** [invoice.total_amount = value] *)
Definition Invoice_set_total_amount (clock : Clock) (value : PyDecimal.Decimal) :=
  setattr Invoice_Config (λ obj, Invoice.construct clock (Invoice.args_of obj))
    (Invoice.with_total_amount value).

(** [item.line_total = value] *)
Definition InvoiceLineItem_set_line_total (value : PyDecimal.Decimal) :=
  setattr InvoiceLineItem_Config
    (λ obj, InvoiceLineItem.construct (InvoiceLineItem.args_of obj))
    (InvoiceLineItem.with_line_total value).

(** ** Exact decimal arithmetic *)

(** The operations of [PyDecimal] on finite decimals without the final
    [_fix]: the coefficient is kept to its last digit, whatever its length,
    and the exponent is not limited. *)
Module Exact.
Import PyDecimal.

Definition add (a b : Decimal) : Decimal :=
  match a, b with
  | Finite sa ca ea, Finite sb cb eb =>
      let '(s, c, e) := exact_sum sa ca ea sb cb eb in
      Finite s c e
  | _, _ => NaN
  end.

Definition sub (a b : Decimal) : Decimal := add a (copy_negate b).

Definition mul (a b : Decimal) : Decimal :=
  match a, b with
  | Finite sa ca ea, Finite sb cb eb => Finite (xorb sa sb) (ca * cb)%N (ea + eb)
  | _, _ => NaN
  end.

Definition abs (d : Decimal) : Decimal :=
  match d with
  | Finite _ c e => Finite false c e
  | _ => NaN
  end.

(** [|expected - actual| > 0.01], exactly. *)
Definition exceeds_cent (expected actual : Decimal) : bool :=
  match cmp (abs (sub expected actual)) cent with
  | Gt => true
  | _ => false
  end.

(** [subtotal - total_discount + total_tax] and
    [quantity * unit_price - discount + tax_amount], exactly. *)
Definition expected_total (subtotal total_discount total_tax : Decimal) : Decimal :=
  add (sub subtotal total_discount) total_tax.


(** A finite decimal that, written with [k] decimal places, has fewer than
    [b * 10^27] units in the last place. *)
Definition bounded (k b : Z) (d : Decimal) : Prop :=
  match d with
  | Finite _ c e => - k <= e <= 27 - k ∧ Z.of_N c * 10 ^ (e + k) < b * 10 ^ 27
  | _ => False
  end.

(** An amount with at most [k] decimal places and at most 27 digits when
    written with all [k] of them. *)
Definition fits (k : Z) (d : Decimal) : Prop := bounded k 1 d.

End Exact.

(** ** Outcomes of a construction *)

(** The construction raised instead of returning an instance. *)
Definition failed {A} (v : Validated A) : Prop :=
  match v with
  | Valid _ => False
  | _ => True
  end.

(** The errors of the [pydantic.ValidationError] a construction raised. *)
Definition errors_of {A} (v : Validated A) : list ErrorDetail :=
  match v with
  | Invalid e => e
  | _ => []
  end.

(** No exception other than [pydantic.ValidationError] left the
    construction. *)
Definition no_exception {A} (v : Validated A) : Prop :=
  match v with
  | Propagated _ => False
  | _ => True
  end.

(** [d >= 0] for a field with [ge=0]. *)
Definition nonnegative (d : PyDecimal.Decimal) : Prop :=
  PyDecimal.is_finite d = true ∧ PyDecimal.cmp d PyDecimal.zero ≠ Lt.

(** ** Sample data *)

Module Sample.
Import PyDecimal.

(** The float [2.0]. *)
Definition two : PyFloat.float := S754_finite false 4503599627370496 (-51).

(** The line item of the concrete scenario: quantity 2, unit price 100.00,
    discount 0, tax rate 15, tax amount 30.00. *)
Definition item (line_total : Decimal) : InvoiceLineItem.Args.t :=
  {| InvoiceLineItem.Args.description := Some "Consulting";
     InvoiceLineItem.Args.description_ar := None;
     InvoiceLineItem.Args.description_en := None;
     InvoiceLineItem.Args.quantity := Some two;
     InvoiceLineItem.Args.unit_price := Some (Finite false 10000 (-2));
     InvoiceLineItem.Args.unit := None;
     InvoiceLineItem.Args.discount := Some (Finite false 0 0);
     InvoiceLineItem.Args.tax_rate := Some (Finite false 15 0);
     InvoiceLineItem.Args.tax_amount := Some (Finite false 3000 (-2));
     InvoiceLineItem.Args.line_total := Some line_total;
     InvoiceLineItem.Args.item_code := None |}.

Definition item_230 : InvoiceLineItem.t :=
  {| InvoiceLineItem.description := "Consulting";
     InvoiceLineItem.description_ar := None;
     InvoiceLineItem.description_en := None;
     InvoiceLineItem.quantity := two;
     InvoiceLineItem.unit_price := Finite false 10000 (-2);
     InvoiceLineItem.unit := None;
     InvoiceLineItem.discount := Finite false 0 0;
     InvoiceLineItem.tax_rate := Finite false 15 0;
     InvoiceLineItem.tax_amount := Finite false 3000 (-2);
     InvoiceLineItem.line_total := Finite false 23000 (-2);
     InvoiceLineItem.item_code := None |}.

(** A line item of one unit at a 29-digit price, one currency unit of tax
    and a line total equal to the price. *)
Definition huge : Decimal := Finite false (10 ^ 28) 0.


Definition vendor : VendorInfo.Args.t :=
  {| VendorInfo.Args.name := Some "ACME";
     VendorInfo.Args.name_ar := None;
     VendorInfo.Args.name_en := None;
     VendorInfo.Args.tax_id := None;
     VendorInfo.Args.registration_number := None;
     VendorInfo.Args.address := None;
     VendorInfo.Args.city := None;
     VendorInfo.Args.country := None;
     VendorInfo.Args.phone := None;
     VendorInfo.Args.email := None;
     VendorInfo.Args.website := None;
     VendorInfo.Args.mapped_vendor_code := None |}.

(** An invoice over the items [items], everything optional left out. *)
Definition invoice (invoice_date : date) (items : list InvoiceLineItem.Args.t)
    (subtotal total_tax total_amount : Decimal) : Invoice.Args.t :=
  {| Invoice.Args.invoice_number := Some "INV-001";
     Invoice.Args.invoice_type := None;
     Invoice.Args.invoice_date := Some invoice_date;
     Invoice.Args.currency := None;
     Invoice.Args.language_detected := None;
     Invoice.Args.vendor := Some vendor;
     Invoice.Args.customer := None;
     Invoice.Args.line_items := Some items;
     Invoice.Args.subtotal := Some subtotal;
     Invoice.Args.total_discount := None;
     Invoice.Args.total_tax := Some total_tax;
     Invoice.Args.total_amount := Some total_amount;
     Invoice.Args.tax_breakdown := None;
     Invoice.Args.payment_info := None;
     Invoice.Args.po_number := None;
     Invoice.Args.reference_number := None;
     Invoice.Args.notes := None;
     Invoice.Args.qr_code := None;
     Invoice.Args.confidence_score := None;
     Invoice.Args.extraction_timestamp := None;
     Invoice.Args.source_file := None;
     Invoice.Args.page_count := None |}.

(** Validation takes place on 2024-01-31 at noon. *)
Definition clock : Clock :=
  {| today := ymd 2024 1 31; now := Datetime (ymd 2024 1 31) 43200000000 |}.

(** A day later. *)
Definition later : Clock :=
  {| today := ymd 2024 2 1; now := Datetime (ymd 2024 2 1) 43200000000 |}.

(** The invoice of the scenario's line item: 200.00 + 30.00 = 230.00. *)
Definition plain_invoice (invoice_date : date) : Invoice.Args.t :=
  invoice invoice_date [item (Finite false 23000 (-2))]
    (Finite false 20000 (-2)) (Finite false 3000 (-2)) (Finite false 23000 (-2)).

(** An invoice whose subtotal has 29 digits: one unit of tax on top of it
    is not part of the total. *)
Definition huge_invoice : Invoice.Args.t :=
  invoice (ymd 2024 1 31) [item (Finite false 23000 (-2))] huge (Finite false 1 0) huge.

(** The result of an extraction that took one second. *)
Definition result (success : bool) (invoice : option ExtractionResult.InvoiceArg)
    : ExtractionResult.Args.t :=
  {| ExtractionResult.Args.success := Some success;
     ExtractionResult.Args.invoice := invoice;
     ExtractionResult.Args.errors := None;
     ExtractionResult.Args.warnings := None;
     ExtractionResult.Args.processing_time := Some PyFloat.one;
     ExtractionResult.Args.retry_count := None;
     ExtractionResult.Args.llm_model_used := None |}.

End Sample.

(** ** The errors the validators report *)

(** The error entry of a [ValueError] raised by [validate_total] and by
    [validate_line_total]. *)
Definition total_mismatch (expected v : PyDecimal.Decimal) : ErrorDetail :=
  {| type_ := value_error ("Total amount mismatch: expected " +:+ PyDecimal.str expected
                             +:+ ", got " +:+ PyDecimal.str v);
     loc := [Key "total_amount"] |}.

Definition line_total_mismatch (expected v : PyDecimal.Decimal) : ErrorDetail :=
  {| type_ := value_error ("Line total mismatch: expected " +:+ PyDecimal.str expected
                             +:+ ", got " +:+ PyDecimal.str v);
     loc := [Key "line_total"] |}.

(** ** More on outcomes *)

(** [math.isfinite]: neither an infinity nor a NaN. *)
Definition isfinite (x : PyFloat.float) : bool :=
  match x with
  | S754_zero _ | S754_finite _ _ _ => true
  | _ => false
  end.

(** The error entry of a required field that was not supplied. *)
Definition missing_at (path : list LocItem) : ErrorDetail :=
  {| type_ := missing; loc := path |}.

(** The error entries of a required field: none when it is supplied. *)
Definition missing_if_absent {A} (name : string) (x : option A) : list ErrorDetail :=
  match x with
  | Some _ => []
  | None => [missing_at [Key name]]
  end.

(** An error reported from inside a nested value: its path is prefixed. *)
Definition nested (path : list LocItem) (e : ErrorDetail) : ErrorDetail :=
  {| type_ := type_ e; loc := path ++ loc e |}.

(** Two constructions fail alike: with the same list of errors, or with the
    same exception. *)
Definition same_failure {A B} (u : Validated A) (v : Validated B) : Prop :=
  match u, v with
  | Invalid e1, Invalid e2 => e1 = e2
  | Propagated s1, Propagated s2 => s1 = s2
  | _, _ => False
  end.

(** [u] reports the errors of [v] together with the errors [extra], in
    some order; or both raise the same exception. *)
Definition differ_by (extra : list ErrorDetail) {A B} (u : Validated A) (v : Validated B)
    : Prop :=
  match u, v with
  | Propagated s, Propagated s' => s = s'
  | Propagated _, _ | _, Propagated _ => False
  | _, _ => errors_of u ≡ₚ extra ++ errors_of v
  end.

(** ** More on trees *)

(** A tree without [None], at any depth. *)
Inductive none_free : PyVal → Prop :=
  | none_free_bool b : none_free (VBool b)
  | none_free_int z : none_free (VInt z)
  | none_free_float x : none_free (VFloat x)
  | none_free_str s : none_free (VStr s)
  | none_free_decimal d : none_free (VDecimal d)
  | none_free_date d : none_free (VDate d)
  | none_free_datetime t : none_free (VDatetime t)
  | none_free_list l : Forall none_free l → none_free (VList l)
  | none_free_dict d : map_Forall (λ _, none_free) d → none_free (VDict d).

(** The names of the fields of [Invoice] that are never [None]. *)
Definition Invoice_plain_fields : gset string :=
  {[ "invoice_number"; "invoice_type"; "invoice_date"; "currency";
     "language_detected"; "vendor"; "line_items"; "subtotal"; "total_discount";
     "total_tax"; "total_amount"; "confidence_score"; "extraction_timestamp" ]}.

(** The key of an optional field, when the field is set. *)
Definition key_if_set {A} (k : string) (x : option A) : gset string :=
  match x with
  | Some _ => {[ k ]}
  | None => ∅
  end.

(** The names of the fields of an invoice that are not [None]. *)
Definition Invoice_fields_set (self : Invoice.t) : gset string :=
  Invoice_plain_fields
    ∪ key_if_set "customer" (Invoice.customer self)
    ∪ key_if_set "tax_breakdown" (Invoice.tax_breakdown self)
    ∪ key_if_set "payment_info" (Invoice.payment_info self)
    ∪ key_if_set "po_number" (Invoice.po_number self)
    ∪ key_if_set "reference_number" (Invoice.reference_number self)
    ∪ key_if_set "notes" (Invoice.notes self)
    ∪ key_if_set "qr_code" (Invoice.qr_code self)
    ∪ key_if_set "source_file" (Invoice.source_file self)
    ∪ key_if_set "page_count" (Invoice.page_count self).

(** ** More sample data *)

Module Variant.
Import PyDecimal.

(** The line item of the scenario with a quantity of zero. *)
Definition zero_quantity_item : InvoiceLineItem.Args.t :=
  {| InvoiceLineItem.Args.description := Some "Consulting";
     InvoiceLineItem.Args.description_ar := None;
     InvoiceLineItem.Args.description_en := None;
     InvoiceLineItem.Args.quantity := Some PyFloat.zero;
     InvoiceLineItem.Args.unit_price := Some (Finite false 10000 (-2));
     InvoiceLineItem.Args.unit := None;
     InvoiceLineItem.Args.discount := Some (Finite false 0 0);
     InvoiceLineItem.Args.tax_rate := Some (Finite false 15 0);
     InvoiceLineItem.Args.tax_amount := Some (Finite false 3000 (-2));
     InvoiceLineItem.Args.line_total := Some (Finite false 23000 (-2));
     InvoiceLineItem.Args.item_code := None |}.

(** A line item that is valid, of 235.00: the one of the scenario with a
    tax amount of 35.00. *)
Definition dearer_item : InvoiceLineItem.Args.t :=
  {| InvoiceLineItem.Args.description := Some "Consulting";
     InvoiceLineItem.Args.description_ar := None;
     InvoiceLineItem.Args.description_en := None;
     InvoiceLineItem.Args.quantity := Some Sample.two;
     InvoiceLineItem.Args.unit_price := Some (Finite false 10000 (-2));
     InvoiceLineItem.Args.unit := None;
     InvoiceLineItem.Args.discount := Some (Finite false 0 0);
     InvoiceLineItem.Args.tax_rate := Some (Finite false 15 0);
     InvoiceLineItem.Args.tax_amount := Some (Finite false 3500 (-2));
     InvoiceLineItem.Args.line_total := Some (Finite false 23500 (-2));
     InvoiceLineItem.Args.item_code := None |}.

(** The invoice of the scenario with a discount of -5.00. *)
Definition negative_discount_invoice : Invoice.Args.t :=
  {| Invoice.Args.invoice_number := Some "INV-001";
     Invoice.Args.invoice_type := None;
     Invoice.Args.invoice_date := Some (ymd 2024 1 31);
     Invoice.Args.currency := None;
     Invoice.Args.language_detected := None;
     Invoice.Args.vendor := Some Sample.vendor;
     Invoice.Args.customer := None;
     Invoice.Args.line_items := Some [Sample.item (Finite false 23000 (-2))];
     Invoice.Args.subtotal := Some (Finite false 20000 (-2));
     Invoice.Args.total_discount := Some (Finite true 500 (-2));
     Invoice.Args.total_tax := Some (Finite false 3000 (-2));
     Invoice.Args.total_amount := Some (Finite false 23000 (-2));
     Invoice.Args.tax_breakdown := None;
     Invoice.Args.payment_info := None;
     Invoice.Args.po_number := None;
     Invoice.Args.reference_number := None;
     Invoice.Args.notes := None;
     Invoice.Args.qr_code := None;
     Invoice.Args.confidence_score := None;
     Invoice.Args.extraction_timestamp := None;
     Invoice.Args.source_file := None;
     Invoice.Args.page_count := None |}.

(** The invoice of the scenario without its number and without its line
    items. *)
Definition incomplete_invoice : Invoice.Args.t :=
  {| Invoice.Args.invoice_number := None;
     Invoice.Args.invoice_type := None;
     Invoice.Args.invoice_date := Some (ymd 2024 1 31);
     Invoice.Args.currency := None;
     Invoice.Args.language_detected := None;
     Invoice.Args.vendor := Some Sample.vendor;
     Invoice.Args.customer := None;
     Invoice.Args.line_items := None;
     Invoice.Args.subtotal := Some (Finite false 20000 (-2));
     Invoice.Args.total_discount := None;
     Invoice.Args.total_tax := Some (Finite false 3000 (-2));
     Invoice.Args.total_amount := Some (Finite false 23000 (-2));
     Invoice.Args.tax_breakdown := None;
     Invoice.Args.payment_info := None;
     Invoice.Args.po_number := None;
     Invoice.Args.reference_number := None;
     Invoice.Args.notes := None;
     Invoice.Args.qr_code := None;
     Invoice.Args.confidence_score := None;
     Invoice.Args.extraction_timestamp := None;
     Invoice.Args.source_file := None;
     Invoice.Args.page_count := None |}.

(** An invoice whose subtotal and tax are both 9E+999999, near the largest
    decimal of the context. *)
Definition overflowing_invoice : Invoice.Args.t :=
  {| Invoice.Args.invoice_number := Some "INV-001";
     Invoice.Args.invoice_type := None;
     Invoice.Args.invoice_date := Some (ymd 2024 1 31);
     Invoice.Args.currency := None;
     Invoice.Args.language_detected := None;
     Invoice.Args.vendor := Some Sample.vendor;
     Invoice.Args.customer := None;
     Invoice.Args.line_items := Some [Sample.item (Finite false 23000 (-2))];
     Invoice.Args.subtotal := Some (Finite false 9 999999);
     Invoice.Args.total_discount := Some (Finite false 0 999999);
     Invoice.Args.total_tax := Some (Finite false 9 999999);
     Invoice.Args.total_amount := Some (Finite false 9 999999);
     Invoice.Args.tax_breakdown := None;
     Invoice.Args.payment_info := None;
     Invoice.Args.po_number := None;
     Invoice.Args.reference_number := None;
     Invoice.Args.notes := None;
     Invoice.Args.qr_code := None;
     Invoice.Args.confidence_score := None;
     Invoice.Args.extraction_timestamp := None;
     Invoice.Args.source_file := None;
     Invoice.Args.page_count := None |}.

(** A customer configuration with its three names only. *)
Definition config : CustomerConfig.Args.t :=
  {| CustomerConfig.Args.customer_id := Some "C-001";
     CustomerConfig.Args.customer_name := Some "ACME";
     CustomerConfig.Args.connector_type := Some "carrier_pigeon";
     CustomerConfig.Args.connector_config := None;
     CustomerConfig.Args.auto_process := None;
     CustomerConfig.Args.require_approval := None;
     CustomerConfig.Args.languages := None;
     CustomerConfig.Args.default_currency := None;
     CustomerConfig.Args.vendor_mapping_file := None |}.

(** A vendor whose name is the empty string. *)
Definition nameless_vendor : VendorInfo.Args.t :=
  {| VendorInfo.Args.name := Some "";
     VendorInfo.Args.name_ar := None;
     VendorInfo.Args.name_en := None;
     VendorInfo.Args.tax_id := None;
     VendorInfo.Args.registration_number := None;
     VendorInfo.Args.address := None;
     VendorInfo.Args.city := None;
     VendorInfo.Args.country := None;
     VendorInfo.Args.phone := None;
     VendorInfo.Args.email := None;
     VendorInfo.Args.website := None;
     VendorInfo.Args.mapped_vendor_code := None |}.

(** An entry of a tax breakdown: VAT at 15 on 200.00, with a tax amount of
    1.00. *)
Definition odd_breakdown : TaxBreakdown.Args.t :=
  {| TaxBreakdown.Args.tax_type := Some "VAT";
     TaxBreakdown.Args.tax_rate := Some (Finite false 15 0);
     TaxBreakdown.Args.taxable_amount := Some (Finite false 20000 (-2));
     TaxBreakdown.Args.tax_amount := Some (Finite false 100 (-2)) |}.

End Variant.

(** * Properties *)

(** ** The runtime model on known values *)

(** The values on the right are those the Python interpreter gives. *)
Section KnownValues.
Import PyDecimal.

(** [Decimal("1E+28") + Decimal("1")] is rounded to 28 digits. *)
Example add_rounds_to_28_digits :
  add (Finite false 1 28) (Finite false 1 0) = Return (Finite false (10 ^ 27) 1).
Proof. vm_compute. reflexivity. Qed.

(** [Decimal("0.125") + Decimal("1E+27")] *)
Example add_drops_small_digits :
  add (Finite false 125 (-3)) (Finite false 1 27) = Return (Finite false (10 ^ 27) 0).
Proof. vm_compute. reflexivity. Qed.

(** [Decimal("99999999999999999999999999995") + Decimal("0")]: the tie goes
    up to the even neighbour and the carry lengthens the result. *)
Example add_rounds_half_even :
  add (Finite false 99999999999999999999999999995 0) (Finite false 0 0)
  = Return (Finite false (10 ^ 27) 2).
Proof. vm_compute. reflexivity. Qed.

(** [Decimal("2.0") * Decimal("100.00")] keeps both exponents. *)
Example mul_adds_exponents :
  mul (Finite false 20 (-1)) (Finite false 10000 (-2)) = Return (Finite false 200000 (-3)).
Proof. vm_compute. reflexivity. Qed.

(** [Decimal("9E+999999") + Decimal("1E+999999")] raises [decimal.Overflow]. *)
Example add_overflows :
  add (Finite false 9 999999) (Finite false 1 999999) = Raise (DecimalException Overflow).
Proof. vm_compute. reflexivity. Qed.

(** [Decimal("15E-1000026") * Decimal("0.5")] underflows to [8E-1000026]
    without an exception. *)
Example mul_underflows :
  mul (Finite false 15 (-1000026)) (Finite false 5 (-1)) = Return (Finite false 8 (-1000026)).
Proof. vm_compute. reflexivity. Qed.

(** [Decimal("Infinity") - Decimal("Infinity")] raises
    [decimal.InvalidOperation]. *)
Example sub_infinities :
  sub (Infinity false) (Infinity false) = Raise (DecimalException InvalidOperation).
Proof. vm_compute. reflexivity. Qed.

Example str_of_decimals :
  map str [Finite false 230000 (-3); Finite false 1 28; Finite true 123 (-5);
           Finite false 123 (-9); Finite true 0 3; Finite false 0 (-2)]
  = ["230.000"; "1E+28"; "-0.00123"; "1.23E-7"; "-0E+3"; "0.00"]%string.
Proof. vm_compute. reflexivity. Qed.

(** [Decimal(str(x))] for the floats 0.1, 2.0, 1e22, 5e-324, 1e16, 1e15 and
    1e-05. *)
Example decimal_of_floats :
  map PyFloat.to_decimal
    [S754_finite false 7205759403792794 (-56); S754_finite false 4503599627370496 (-51);
     S754_finite false 4768371582031250 21; S754_finite false 1 (-1074);
     S754_finite false 5000000000000000 1; S754_finite false 8000000000000000 (-3);
     S754_finite false 5902958103587057 (-69); S754_infinity false]
  = [Finite false 1 (-1); Finite false 20 (-1); Finite false 1 22; Finite false 5 (-324);
     Finite false 1 16; Finite false 10000000000000000 (-1); Finite false 1 (-5);
     Infinity false].
Proof. vm_compute. reflexivity. Qed.

(** [format(x, ".2f")] for 2.675, 0.125 and 1234.5678. *)
Example format_2f_of_floats :
  map PyFloat.format_2f
    [S754_finite false 6023564501608038 (-51); S754_finite false 4503599627370496 (-55);
     S754_finite false 5429686605511341 (-42)]
  = ["2.67"; "0.12"; "1234.57"]%string.
Proof. vm_compute. reflexivity. Qed.

(** [date(2024, 2, 29).toordinal()] and [date.fromordinal(738945).isoformat()]. *)
Example leap_day : ymd 2024 2 29 = Date 738945 ∧ isoformat (Date 738945) = "2024-02-29"%string.
Proof. vm_compute. split; reflexivity. Qed.

End KnownValues.

(** ** Decimal arithmetic within the precision of the context *)

Section DecimalFacts.
Import PyDecimal.

Lemma ndigits_go_le fuel : ∀ c n, 1 <= n → (Z.of_N c < 10 ^ n) → ndigits_go fuel c <= n.
Proof.
  induction fuel as [f IH | f IH |]; intros c n Hn Hc; simpl;
    destruct (N.ltb_spec c 10) as [Hlt | Hge]; try lia.
  all: assert (2 <= n) by
    (destruct (Z.eq_dec n 1) as [-> | ?]; [change (10 ^ 1) with 10 in Hc; lia | lia]).
  all: assert (Z.of_N (c / 10) < 10 ^ (n - 1)).
  1,3: rewrite N2Z.inj_div; change (Z.of_N 10) with 10;
       apply Z.div_lt_upper_bound; [lia |];
       rewrite <- Z.pow_succ_r by lia; replace (Z.succ (n - 1)) with n by lia; lia.
  all: specialize (IH (c / 10)%N (n - 1)); lia.
Qed.

Lemma ndigits_le c n : 1 <= n → Z.of_N c < 10 ^ n → ndigits c <= n.
Proof.
  intros Hn Hc. destruct c as [| p]; simpl; [lia |].
  now apply ndigits_go_le.
Qed.

(** A result of at most 28 digits with an exponent in range is returned as
    it is. *)
Lemma fix_small s c e :
  Z.of_N c < 10 ^ 28 → Etiny <= e <= Etop → fix_ s c e = Return (Finite s c e).
Proof.
  intros Hc He. unfold fix_, Etiny, Etop, Emin, Emax, prec in *.
  destruct (N.eqb_spec c 0) as [-> | Hnz].
  - do 2 f_equal. lia.
  - pose proof (ndigits_le c 28 ltac:(lia) Hc).
    destruct (Z.ltb_spec (999999 - 28 + 1) (ndigits c + e - 28)); [lia |].
    destruct (Z.ltb_spec e (Z.max (ndigits c + e - 28) (-999999 - 28 + 1))); [lia |].
    reflexivity.
Qed.

Lemma pow10_split a b : 0 <= a → 0 <= b → 10 ^ (a + b) = 10 ^ a * 10 ^ b.
Proof. intros. now rewrite Z.pow_add_r. Qed.

Lemma pow10_pos a : 0 <= a → 1 <= 10 ^ a.
Proof. intros. pose proof (Z.pow_pos_nonneg 10 a). lia. Qed.

Lemma bounded_negate k b d : Exact.bounded k b d → Exact.bounded k b (copy_negate d).
Proof. destruct d; simpl; auto. Qed.

Lemma bounded_weaken k b b' d : b <= b' → Exact.bounded k b d → Exact.bounded k b' d.
Proof.
  intros Hb. destruct d as [s c e | |]; simpl; auto.
  intros [He Hc]. split; [done |]. nia.
Qed.

(** Sums that stay below [10^28] units are exact. *)
Lemma add_bounded k b1 b2 x y :
  0 <= k <= 1000000 → b1 + b2 <= 9 →
  Exact.bounded k b1 x → Exact.bounded k b2 y →
  add x y = Return (Exact.add x y) ∧ Exact.bounded k (b1 + b2) (Exact.add x y).
Proof.
  intros Hk Hb.
  destruct x as [sa ca ea | |], y as [sb cb eb | |]; simpl; try tauto.
  intros [Hea Hca] [Heb Hcb].
  set (m := Z.min ea eb).
  assert (Hm : - k <= m <= 27 - k) by (unfold m; lia).
  assert (Ha : 10 ^ (ea + k) = 10 ^ (ea - m) * 10 ^ (m + k))
    by (rewrite <- pow10_split by (unfold m; lia); f_equal; lia).
  assert (Hb' : 10 ^ (eb + k) = 10 ^ (eb - m) * 10 ^ (m + k))
    by (rewrite <- pow10_split by (unfold m; lia); f_equal; lia).
  pose proof (pow10_pos (m + k) ltac:(lia)) as Hp.
  pose proof (pow10_pos (ea - m) ltac:(unfold m; lia)) as Hpa.
  pose proof (pow10_pos (eb - m) ltac:(unfold m; lia)) as Hpb.
  rewrite Ha in Hca. rewrite Hb' in Hcb.
  assert (Hua : Z.abs (units_at m sa ca ea) = Z.of_N ca * 10 ^ (ea - m))
    by (unfold units_at; destruct sa; nia).
  assert (Hub : Z.abs (units_at m sb cb eb) = Z.of_N cb * 10 ^ (eb - m))
    by (unfold units_at; destruct sb; nia).
  unfold exact_sum. fold m.
  set (ua := units_at m sa ca ea) in *. set (ub := units_at m sb cb eb) in *.
  set (P := 10 ^ (m + k)) in *.
  assert (H27 : 10 ^ 28 = 10 * 10 ^ 27) by reflexivity.
  assert (0 < 10 ^ 27) by reflexivity.
  assert (Hsum : Z.abs (ua + ub) * P < (b1 + b2) * 10 ^ 27) by nia.
  destruct ((ca =? 0)%N && (cb =? 0)%N); [| destruct (Z.eqb_spec (ua + ub) 0)].
  - split; [apply fix_small; unfold Etiny, Etop, Emin, Emax, prec; simpl; lia |].
    simpl. split; [lia | nia].
  - split; [apply fix_small; unfold Etiny, Etop, Emin, Emax, prec; simpl; lia |].
    simpl. split; [lia | nia].
  - split; [apply fix_small; unfold Etiny, Etop, Emin, Emax, prec; [| lia] |].
    + rewrite N2Z.inj_abs_N. nia.
    + simpl. split; [lia |]. rewrite N2Z.inj_abs_N. lia.
Qed.

Lemma sub_bounded k b1 b2 x y :
  0 <= k <= 1000000 → b1 + b2 <= 9 →
  Exact.bounded k b1 x → Exact.bounded k b2 y →
  sub x y = Return (Exact.sub x y) ∧ Exact.bounded k (b1 + b2) (Exact.sub x y).
Proof.
  intros. unfold sub, Exact.sub. apply add_bounded; auto using bounded_negate.
Qed.

Lemma abs_bounded k b x :
  0 <= k <= 1000000 → b <= 9 → Exact.bounded k b x → abs x = Return (Exact.abs x).
Proof.
  intros Hk Hb. destruct x as [s c e | |]; simpl; try tauto.
  intros [He Hc]. apply fix_small; unfold Etiny, Etop, Emin, Emax, prec; [| lia].
  pose proof (pow10_pos (e + k) ltac:(lia)).
  assert (10 ^ 28 = 10 * 10 ^ 27) by reflexivity. assert (0 < 10 ^ 27) by reflexivity. nia.
Qed.


Lemma exact_abs_finite x : is_finite x = true → is_nan (Exact.abs x) = false.
Proof. destruct x; simpl; congruence. Qed.

Lemma bounded_finite k b x : Exact.bounded k b x → is_finite x = true.
Proof. destruct x; simpl; tauto. Qed.

End DecimalFacts.

(** ** Collecting the outcomes of the fields *)

Section Outcomes.
Context {A B : Type}.
Implicit Types (f : Validated (A → B)) (x : Validated A).

Lemma ap_Valid_inv f x r :
  f <*> x = Valid r → ∃ g a, f = Valid g ∧ x = Valid a ∧ r = g a.
Proof. destruct f, x; simpl; intros [=]; eauto. Qed.

Lemma failed_ap_l f x : failed f → failed (f <*> x).
Proof. destruct f, x; simpl; auto. Qed.

Lemma failed_ap_r f x : failed x → failed (f <*> x).
Proof. destruct f, x; simpl; auto. Qed.

Lemma no_exception_ap f x : no_exception f → no_exception x → no_exception (f <*> x).
Proof. destruct f, x; simpl; auto. Qed.

Lemma no_exception_ap_inv f x : no_exception (f <*> x) → no_exception f ∧ no_exception x.
Proof. destruct f, x; simpl; auto. Qed.

Lemma errors_of_ap f x :
  no_exception (f <*> x) → errors_of (f <*> x) = errors_of f ++ errors_of x.
Proof. destruct f, x; simpl; try tauto; intros _; now rewrite ?app_nil_r. Qed.

Lemma errors_ap_l f x e :
  no_exception (f <*> x) → e ∈ errors_of f → e ∈ errors_of (f <*> x).
Proof. intros H. rewrite errors_of_ap by done. rewrite elem_of_app. auto. Qed.

Lemma errors_ap_r f x e :
  no_exception (f <*> x) → e ∈ errors_of x → e ∈ errors_of (f <*> x).
Proof. intros H. rewrite errors_of_ap by done. rewrite elem_of_app. auto. Qed.

End Outcomes.

Lemma failed_not_Valid {A} (v : Validated A) : failed v ↔ ∀ a, v ≠ Valid a.
Proof. destruct v; simpl; split; try done; intros H; [ by destruct (H a) | .. ]; auto. Qed.

Lemma bind_Valid_inv {A B} (m : Validated A) (f : A → Validated B) r :
  m ≫= f = Valid r → ∃ a, m = Valid a ∧ f a = Valid r.
Proof. destruct m; simpl; intros [=]; eauto. Qed.

Lemma required_Valid_inv {A} name (x : option A) a :
  required name x = Valid a → x = Some a.
Proof. destruct x; simpl; intros [=]; congruence. Qed.

Lemma with_default_Valid_inv {A} (d : A) check x a :
  with_default d check x = Valid a → check (default d x) = Valid a ∨ (x = None ∧ a = d).
Proof. destruct x; simpl; [auto |]. intros [=]; auto. Qed.

Lemma decimal_field_Valid_inv name d a :
  decimal_field name d = Valid a → a = d ∧ PyDecimal.is_finite d = true.
Proof. unfold decimal_field. destruct (PyDecimal.is_finite d); intros [=]; auto. Qed.

Lemma decimal_ge_Valid_inv name b d a :
  decimal_ge name b d = Valid a →
  a = d ∧ PyDecimal.is_finite d = true ∧ PyDecimal.cmp d b ≠ Lt.
Proof.
  unfold decimal_ge. destruct (PyDecimal.is_finite d); [| intros [=]].
  destruct (PyDecimal.cmp d b); intros [=]; auto.
Qed.

Lemma decimal_ge_nonnegative name d :
  nonnegative d → decimal_ge name PyDecimal.zero d = Valid d.
Proof.
  intros [Hf Hc]. unfold decimal_ge. rewrite Hf.
  destruct (PyDecimal.cmp d PyDecimal.zero); congruence.
Qed.

Lemma run_validator_Valid_inv {A} name (r : PyResult A) a :
  run_validator name r = Valid a → r = Return a.
Proof. destruct r as [| [|]]; simpl; intros [=]; congruence. Qed.

(** Peels [Valid Build <*> f1 <*> ... <*> fn = Valid r] into one equation
    per field. *)
Ltac ap_inv H :=
  lazymatch type of H with
  | _ <*> _ = Valid _ =>
      let g := fresh "g" in
      let a := fresh "a" in
      let Hf := fresh "Hf" in
      let Hx := fresh "Hx" in
      apply ap_Valid_inv in H as (g & a & Hf & Hx & ->);
      ap_inv Hf
  | Valid _ = Valid _ => injection H as <-
  end.

(** ** The validators on amounts that fit the precision *)

Section TotalCheck.
Import PyDecimal.

(** On amounts that fit, [validate_total] decides the exact inequality. *)
Lemma validate_total_exact k v subtotal total_discount total_tax :
  0 <= k <= 1000000 →
  Exact.fits k subtotal → Exact.fits k total_discount → Exact.fits k total_tax →
  Exact.fits k v →
  Invoice.validate_total v
    {| Invoice.Values.subtotal := Some subtotal;
       Invoice.Values.total_discount := Some total_discount;
       Invoice.Values.total_tax := Some total_tax |}
  = let expected := Exact.expected_total subtotal total_discount total_tax in
    if Exact.exceeds_cent expected v
    then Raise (ValueError ("Total amount mismatch: expected " +:+ str expected
                              +:+ ", got " +:+ str v))
    else Return v.
Proof.
  intros Hk Hs Hd Ht Hv. unfold Invoice.validate_total, Exact.expected_total. simpl.
  destruct (sub_bounded k 1 1 _ _ Hk ltac:(lia) Hs Hd) as [-> H1]. simpl.
  destruct (add_bounded k (1 + 1) 1 _ _ Hk ltac:(lia) H1 Ht) as [-> H2]. simpl.
  destruct (sub_bounded k (1 + 1 + 1) 1 _ _ Hk ltac:(lia) H2 Hv) as [-> H3]. simpl.
  rewrite (abs_bounded k (1 + 1 + 1 + 1) _ Hk ltac:(lia) H3). simpl.
  unfold gt, Exact.exceeds_cent.
  rewrite (exact_abs_finite _ (bounded_finite _ _ _ H3)). simpl.
  now destruct (cmp _ cent).
Qed.

End TotalCheck.

Section Validators.
Import PyDecimal.

Lemma with_default_decimal_ge_Valid_inv name x a :
  with_default zero (decimal_ge name zero) x = Valid a →
  a = default zero x ∧ nonnegative a.
Proof.
  destruct x as [d |]; simpl.
  - intros H. apply decimal_ge_Valid_inv in H as (-> & ? & ?). by repeat split.
  - intros [= <-]. repeat split; done.
Qed.

Lemma with_default_decimal_ge_nonnegative name x :
  nonnegative (default zero x) →
  with_default zero (decimal_ge name zero) x = Valid (default zero x).
Proof. destruct x; simpl; [apply decimal_ge_nonnegative | done]. Qed.

Lemma bind_Return_inv {A B} (m : PyResult A) (f : A → PyResult B) r :
  m ≫= f = Return r → ∃ a, m = Return a ∧ f a = Return r.
Proof. destruct m; simpl; intros [=]; eauto. Qed.

Ltac bind_inv H :=
  repeat lazymatch type of H with
         | _ ≫= _ = Return _ =>
             let x := fresh "x" in
             let Hx := fresh "Hop" in
             apply bind_Return_inv in H as (x & Hx & H)
         end.

(** When a validator returns, it returns the value it was given. *)
Lemma validate_total_returns v values a :
  Invoice.validate_total v values = Return a → a = v.
Proof.
  unfold Invoice.validate_total.
  destruct (Invoice.Values.subtotal values), (Invoice.Values.total_tax values),
    (Invoice.Values.total_discount values); try (intros [=]; done).
  intros H. bind_inv H. destruct x3; congruence.
Qed.

Lemma validate_line_total_returns v values a :
  InvoiceLineItem.validate_line_total v values = Return a → a = v.
Proof.
  unfold InvoiceLineItem.validate_line_total.
  destruct (InvoiceLineItem.Values.quantity values),
    (InvoiceLineItem.Values.unit_price values); try (intros [=]; done).
  intros H. bind_inv H. destruct x4; congruence.
Qed.

(** The four amounts of a constructed invoice are those supplied (or the
    defaults), and [validate_total] returned on them. *)
Lemma Invoice_construct_total clock data inv :
  Invoice.construct clock data = Valid inv →
  Invoice.Args.subtotal data = Some (Invoice.subtotal inv)
  ∧ default zero (Invoice.Args.total_discount data) = Invoice.total_discount inv
  ∧ default zero (Invoice.Args.total_tax data) = Invoice.total_tax inv
  ∧ Invoice.Args.total_amount data = Some (Invoice.total_amount inv)
  ∧ Invoice.validate_total (Invoice.total_amount inv)
      {| Invoice.Values.subtotal := Some (Invoice.subtotal inv);
         Invoice.Values.total_discount := Some (Invoice.total_discount inv);
         Invoice.Values.total_tax := Some (Invoice.total_tax inv) |}
    = Return (Invoice.total_amount inv).
Proof.
  unfold Invoice.construct. cbv zeta. intros H. ap_inv H. simpl.
  rewrite Hx12, Hx11, Hx10 in Hx9. simpl in Hx9.
  apply bind_Valid_inv in Hx12 as (s & Hs%required_Valid_inv & (-> & _)%decimal_ge_Valid_inv).
  apply with_default_decimal_ge_Valid_inv in Hx11 as [-> _].
  apply with_default_decimal_ge_Valid_inv in Hx10 as [-> _].
  apply bind_Valid_inv in Hx9 as (v & Hv%required_Valid_inv & Hx9).
  apply bind_Valid_inv in Hx9 as (v' & (-> & _)%decimal_ge_Valid_inv & Hx9).
  apply run_validator_Valid_inv in Hx9.
  pose proof (validate_total_returns _ _ _ Hx9) as ->.
  by repeat split.
Qed.

End Validators.

(** ** The reconciliation of the invoice total *)

Section InvoiceTotal.
Import PyDecimal.

(** Walks down [F <*> x1 <*> ... <*> xn] to the field whose errors are
    looked for, [n] fields from the end. *)
Tactic Notation "errors_at" integer(n) hyp(Hne) :=
  do n (apply errors_ap_l; [exact Hne |];
        apply no_exception_ap_inv in Hne as [Hne _]);
  apply errors_ap_r; [exact Hne |].

Lemma Invoice_mismatch_reported clock data k subtotal total_discount total_tax total_amount :
  0 <= k <= 1000000 →
  Invoice.Args.subtotal data = Some subtotal →
  default zero (Invoice.Args.total_discount data) = total_discount →
  default zero (Invoice.Args.total_tax data) = total_tax →
  Invoice.Args.total_amount data = Some total_amount →
  Exact.fits k subtotal → Exact.fits k total_discount → Exact.fits k total_tax →
  Exact.fits k total_amount →
  nonnegative subtotal → nonnegative total_discount → nonnegative total_tax →
  nonnegative total_amount →
  Exact.exceeds_cent (Exact.expected_total subtotal total_discount total_tax) total_amount = true →
  no_exception (Invoice.construct clock data) →
  total_mismatch (Exact.expected_total subtotal total_discount total_tax) total_amount
    ∈ errors_of (Invoice.construct clock data).
Proof.
  intros Hk Hs Hd Ht Hv Fs Fd Ft Fv Ns Nd Nt Nv Hex.
  unfold Invoice.construct. cbv zeta. intros Hne.
  errors_at 10 Hne.
  rewrite Hs, Hv. simpl.
  rewrite (decimal_ge_nonnegative _ _ Ns), (decimal_ge_nonnegative _ _ Nv). simpl.
  rewrite !with_default_decimal_ge_nonnegative by (rewrite ?Hd, ?Ht; assumption).
  simpl. rewrite Hd, Ht.
  rewrite (validate_total_exact k) by assumption. simpl. rewrite Hex. simpl.
  unfold total_mismatch. apply list_elem_of_In. simpl. tauto.
Qed.

(** C1 (as amended): on amounts that, written with [k] decimal places, have
    at most 27 digits, a constructed invoice satisfies
    [|total_amount - (subtotal - total_discount + total_tax)| <= 0.01] in
    exact decimal arithmetic; when the difference exceeds 0.01 construction
    fails, and if the four amounts pass their own constraints and no
    arithmetic exception ends the construction first, the validation error
    lists the mismatch under [total_amount] with the expected and the actual
    value in its message. *)
Theorem Invoice_total_reconciled clock data k subtotal total_discount total_tax total_amount :
  0 <= k <= 1000000 →
  Invoice.Args.subtotal data = Some subtotal →
  default zero (Invoice.Args.total_discount data) = total_discount →
  default zero (Invoice.Args.total_tax data) = total_tax →
  Invoice.Args.total_amount data = Some total_amount →
  Exact.fits k subtotal → Exact.fits k total_discount → Exact.fits k total_tax →
  Exact.fits k total_amount →
  let expected := Exact.expected_total subtotal total_discount total_tax in
  (∀ inv, Invoice.construct clock data = Valid inv →
          Exact.exceeds_cent expected total_amount = false)
  ∧ (Exact.exceeds_cent expected total_amount = true →
     failed (Invoice.construct clock data)
     ∧ (nonnegative subtotal → nonnegative total_discount → nonnegative total_tax →
        nonnegative total_amount → no_exception (Invoice.construct clock data) →
        total_mismatch expected total_amount ∈ errors_of (Invoice.construct clock data))).
Proof.
  intros Hk Hs Hd Ht Hv Fs Fd Ft Fv expected.
  assert (Hvalid : ∀ inv, Invoice.construct clock data = Valid inv →
                          Exact.exceeds_cent expected total_amount = false).
  { intros inv H. apply Invoice_construct_total in H as (Hs' & Hd' & Ht' & Hv' & Hret).
    rewrite Hs in Hs'. rewrite Hv in Hv'. injection Hs' as Hs'. injection Hv' as Hv'.
    rewrite <- Hs', <- Hv', <- Hd', <- Ht', Hd, Ht in Hret.
    rewrite (validate_total_exact k) in Hret by assumption. simpl in Hret.
    fold expected in Hret. by destruct (Exact.exceeds_cent expected total_amount). }
  split; [exact Hvalid |]. intros Hex. split.
  - apply failed_not_Valid. intros inv H. apply Hvalid in H. congruence.
  - intros. by apply (Invoice_mismatch_reported clock data k).
Qed.

Lemma Invoice_total_reconciled_witness :
  let data := Sample.invoice (ymd 2024 1 31) [Sample.item (Finite false 23000 (-2))]
                (Finite false 20000 (-2)) (Finite false 3000 (-2)) (Finite false 23500 (-2)) in
  let expected :=
    Exact.expected_total (Finite false 20000 (-2)) zero (Finite false 3000 (-2)) in
  failed (Invoice.construct Sample.clock data)
  ∧ total_mismatch expected (Finite false 23500 (-2))
      ∈ errors_of (Invoice.construct Sample.clock data).
Proof.
  intros data expected.
  assert (Hk : 0 <= 2 <= 1000000) by lia.
  assert (F1 : Exact.fits 2 (Finite false 20000 (-2))) by (vm_compute; intuition discriminate).
  assert (F2 : Exact.fits 2 zero) by (vm_compute; intuition discriminate).
  assert (F3 : Exact.fits 2 (Finite false 3000 (-2))) by (vm_compute; intuition discriminate).
  assert (F4 : Exact.fits 2 (Finite false 23500 (-2))) by (vm_compute; intuition discriminate).
  assert (Hex : Exact.exceeds_cent expected (Finite false 23500 (-2)) = true)
    by (vm_compute; reflexivity).
  assert (Hne : no_exception (Invoice.construct Sample.clock data)) by (vm_compute; exact I).
  destruct (Invoice_total_reconciled Sample.clock data 2 _ _ _ _
              Hk eq_refl eq_refl eq_refl eq_refl F1 F2 F3 F4) as [_ H].
  destruct (H Hex) as [Hfail Hlist]. split; [exact Hfail |].
  apply Hlist; [| | | | exact Hne]; (split; [reflexivity | vm_compute; discriminate]).
Defined.

(** C1 (counterexample): an invoice with a 29-digit subtotal [10^28], one
    unit of tax and a total equal to the subtotal is constructed, although
    the total differs from [subtotal - total_discount + total_tax] by 1. *)
Lemma Invoice_total_not_exact :
  ∃ inv, Invoice.construct Sample.clock Sample.huge_invoice = Valid inv
         ∧ Exact.exceeds_cent
             (Exact.expected_total (Invoice.subtotal inv) (Invoice.total_discount inv)
                (Invoice.total_tax inv))
             (Invoice.total_amount inv) = true.
Proof. eexists. split; [vm_compute; reflexivity |]. vm_compute. reflexivity. Qed.

End InvoiceTotal.

(** ** The reconciliation of a line total *)

Section LineTotal.
Import PyDecimal.


(** The amounts of a constructed line item are those supplied (or the
    defaults), and [validate_line_total] returned on them. *)
Lemma InvoiceLineItem_construct_total data item :
  InvoiceLineItem.construct data = Valid item →
  InvoiceLineItem.Args.quantity data = Some (InvoiceLineItem.quantity item)
  ∧ InvoiceLineItem.Args.unit_price data = Some (InvoiceLineItem.unit_price item)
  ∧ default zero (InvoiceLineItem.Args.discount data) = InvoiceLineItem.discount item
  ∧ default zero (InvoiceLineItem.Args.tax_amount data) = InvoiceLineItem.tax_amount item
  ∧ InvoiceLineItem.Args.line_total data = Some (InvoiceLineItem.line_total item)
  ∧ InvoiceLineItem.validate_line_total (InvoiceLineItem.line_total item)
      {| InvoiceLineItem.Values.quantity := Some (InvoiceLineItem.quantity item);
         InvoiceLineItem.Values.unit_price := Some (InvoiceLineItem.unit_price item);
         InvoiceLineItem.Values.discount := Some (InvoiceLineItem.discount item);
         InvoiceLineItem.Values.tax_amount := Some (InvoiceLineItem.tax_amount item) |}
    = Return (InvoiceLineItem.line_total item).
Proof.
  unfold InvoiceLineItem.construct. cbv zeta. intros H. ap_inv H. simpl.
  rewrite Hx6, Hx5, Hx3, Hx1 in Hx0. simpl in Hx0.
  apply bind_Valid_inv in Hx6 as (q & Hq%required_Valid_inv & Hx6).
  unfold float_gt in Hx6. destruct (PyFloat.lt PyFloat.zero q); [| discriminate].
  injection Hx6 as <-.
  apply bind_Valid_inv in Hx5 as (p & Hp%required_Valid_inv & (-> & _)%decimal_field_Valid_inv).
  apply with_default_decimal_ge_Valid_inv in Hx3 as [-> _].
  apply with_default_decimal_ge_Valid_inv in Hx1 as [-> _].
  apply bind_Valid_inv in Hx0 as (v & Hv%required_Valid_inv & Hx0).
  apply bind_Valid_inv in Hx0 as (v' & (-> & _)%decimal_field_Valid_inv & Hx0).
  apply run_validator_Valid_inv in Hx0.
  pose proof (validate_line_total_returns _ _ _ Hx0) as ->.
  by repeat split.
Qed.






End LineTotal.

(** ** The date of an invoice *)

Section InvoiceDate.

(** [validate_date] only looks at how many days the date lies ahead. *)
Lemma validate_date_spec clock v :
  Invoice.validate_date clock v
  = if 30 <? days_between v (today clock)
    then Raise (ValueError ("Invoice date " +:+ isoformat v +:+ " is too far in the future"))
    else Return v.
Proof.
  unfold Invoice.validate_date, date_gt, days_between.
  destruct (Z.ltb_spec (toordinal (today clock)) (toordinal v)),
    (Z.ltb_spec 30 (toordinal v - toordinal (today clock))); try reflexivity; lia.
Qed.

(** A date the check accepts can take the place of the date of an invoice
    that was constructed: no other field depends on it. *)
Lemma Invoice_construct_other_date clock data d d0 inv :
  Invoice.Args.invoice_date data = Some d →
  Invoice.validate_date clock d = Return d →
  Invoice.construct clock (Invoice.Args.with_invoice_date (Some d0) data) = Valid inv →
  Invoice.construct clock data = Valid (Invoice.with_invoice_date d inv).
Proof.
  intros Hd Hcheck. unfold Invoice.construct, Invoice.Args.with_invoice_date. cbv zeta.
  cbn [Invoice.Args.invoice_number Invoice.Args.invoice_type Invoice.Args.invoice_date
       Invoice.Args.currency Invoice.Args.language_detected Invoice.Args.vendor
       Invoice.Args.customer Invoice.Args.line_items Invoice.Args.subtotal
       Invoice.Args.total_discount Invoice.Args.total_tax Invoice.Args.total_amount
       Invoice.Args.tax_breakdown Invoice.Args.payment_info Invoice.Args.po_number
       Invoice.Args.reference_number Invoice.Args.notes Invoice.Args.qr_code
       Invoice.Args.confidence_score Invoice.Args.extraction_timestamp
       Invoice.Args.source_file Invoice.Args.page_count].
  intros H. ap_inv H.
  rewrite Hx20, Hx19, Hx17, Hx16, Hx15, Hx14, Hx13, Hx9, Hx12, Hx11, Hx10, Hx8, Hx7,
    Hx6, Hx5, Hx4, Hx3, Hx2, Hx1, Hx0, Hx.
  rewrite Hd. cbn [required mbind Validated_bind]. rewrite Hcheck. reflexivity.
Qed.

Lemma Invoice_construct_date clock data inv :
  Invoice.construct clock data = Valid inv →
  Invoice.Args.invoice_date data = Some (Invoice.invoice_date inv)
  ∧ Invoice.validate_date clock (Invoice.invoice_date inv) = Return (Invoice.invoice_date inv).
Proof.
  unfold Invoice.construct. cbv zeta. intros H. ap_inv H. simpl.
  apply bind_Valid_inv in Hx18 as (v & Hv%required_Valid_inv & Hx18).
  apply run_validator_Valid_inv in Hx18. pose proof Hx18 as Hret.
  rewrite validate_date_spec in Hret.
  destruct (30 <? days_between v (today clock)); [discriminate |].
  injection Hret as <-. done.
Qed.

(** C3: an invoice dated more than 30 days after the current date is not
    constructed; dated exactly 30 days ahead it is constructed whenever the
    same arguments with some other date are; dated 31 days ahead it is
    not. *)
Theorem invoice_date_window clock data d :
  Invoice.Args.invoice_date data = Some d →
  (30 < days_between d (today clock) → failed (Invoice.construct clock data))
  ∧ (days_between d (today clock) = 30 →
     ∀ d0 inv,
       Invoice.construct clock (Invoice.Args.with_invoice_date (Some d0) data) = Valid inv →
       Invoice.construct clock data = Valid (Invoice.with_invoice_date d inv))
  ∧ (days_between d (today clock) = 31 → failed (Invoice.construct clock data)).
Proof.
  intros Hd.
  assert (Hlate : 30 < days_between d (today clock) → failed (Invoice.construct clock data)).
  { intros Hgt. apply failed_not_Valid. intros inv H.
    apply Invoice_construct_date in H as [Hd' Hret].
    rewrite Hd in Hd'. injection Hd' as Heq. rewrite <- Heq in Hret.
    rewrite validate_date_spec in Hret.
    destruct (Z.ltb_spec 30 (days_between d (today clock))); [discriminate | lia]. }
  split; [exact Hlate |]. split.
  - intros H30 d0 inv. apply Invoice_construct_other_date; [exact Hd |].
    rewrite validate_date_spec, H30. reflexivity.
  - intros H31. apply Hlate. lia.
Qed.

(** On 2024-01-31, the sample invoice dated 2024-03-01 (30 days ahead) is
    constructed, and dated 2024-03-02 it is not. *)
Lemma invoice_date_window_witness :
  (∃ inv, Invoice.construct Sample.clock (Sample.plain_invoice (ymd 2024 3 1)) = Valid inv)
  ∧ failed (Invoice.construct Sample.clock (Sample.plain_invoice (ymd 2024 3 2))).
Proof.
  split.
  - assert (H0 : ∃ inv, Invoice.construct Sample.clock
                          (Sample.plain_invoice (ymd 2024 1 1)) = Valid inv)
      by (vm_compute; eexists; reflexivity).
    destruct H0 as [inv H0]. exists (Invoice.with_invoice_date (ymd 2024 3 1) inv).
    exact (proj1 (proj2 (invoice_date_window Sample.clock
                           (Sample.plain_invoice (ymd 2024 3 1)) (ymd 2024 3 1) eq_refl))
             eq_refl (ymd 2024 1 1) inv H0).
  - exact (proj2 (proj2 (invoice_date_window Sample.clock
                           (Sample.plain_invoice (ymd 2024 3 2)) (ymd 2024 3 2) eq_refl))
             eq_refl).
Defined.

(** C10: the date check accepts every date on or before the current date,
    however old: the check returns the date, which can then take the place
    of the date of any invoice that was constructed; and the check only
    ever refuses a date that lies after the current date. *)
Theorem invoice_date_no_lower_bound clock data d :
  Invoice.Args.invoice_date data = Some d →
  toordinal d <= toordinal (today clock) →
  Invoice.validate_date clock d = Return d
  ∧ (∀ d0 inv,
       Invoice.construct clock (Invoice.Args.with_invoice_date (Some d0) data) = Valid inv →
       Invoice.construct clock data = Valid (Invoice.with_invoice_date d inv))
  ∧ (∀ v e, Invoice.validate_date clock v = Raise e →
            toordinal (today clock) < toordinal v).
Proof.
  intros Hd Hle.
  assert (Hret : Invoice.validate_date clock d = Return d).
  { rewrite validate_date_spec. unfold days_between.
    destruct (Z.ltb_spec 30 (toordinal d - toordinal (today clock))); [lia | done]. }
  split; [exact Hret |]. split.
  - intros d0 inv. by apply Invoice_construct_other_date.
  - intros v e H. rewrite validate_date_spec in H. unfold days_between in H.
    destruct (Z.ltb_spec 30 (toordinal v - toordinal (today clock))); [lia | discriminate].
Qed.

(** The sample invoice dated 0001-01-01, the oldest date there is, is
    constructed. *)
Lemma invoice_date_no_lower_bound_witness :
  Invoice.validate_date Sample.clock (ymd 1 1 1) = Return (ymd 1 1 1)
  ∧ ∃ inv, Invoice.construct Sample.clock (Sample.plain_invoice (ymd 1 1 1)) = Valid inv.
Proof.
  assert (Hle : toordinal (ymd 1 1 1) <= toordinal (today Sample.clock))
    by (vm_compute; discriminate).
  destruct (invoice_date_no_lower_bound Sample.clock (Sample.plain_invoice (ymd 1 1 1))
              (ymd 1 1 1) eq_refl Hle) as (Hret & Hother & _).
  split; [exact Hret |].
  assert (H0 : ∃ inv, Invoice.construct Sample.clock
                        (Sample.plain_invoice (ymd 2024 1 1)) = Valid inv)
    by (vm_compute; eexists; reflexivity).
  destruct H0 as [inv H0]. exists (Invoice.with_invoice_date (ymd 1 1 1) inv).
  exact (Hother (ymd 2024 1 1) inv H0).
Defined.

End InvoiceDate.

(** ** The line items of an invoice *)

Section LineItems.

Lemma Invoice_construct_line_items clock data inv :
  Invoice.construct clock data = Valid inv →
  ∃ l, Invoice.Args.line_items data = Some l
       ∧ under (Key "line_items") (validate_items InvoiceLineItem.construct 0 l)
         = Valid (Invoice.line_items inv)
       ∧ (1 <= length (Invoice.line_items inv))%nat.
Proof.
  unfold Invoice.construct. cbv zeta. intros H. ap_inv H. simpl.
  apply bind_Valid_inv in Hx13 as (l & Hl%required_Valid_inv & Hx13).
  apply bind_Valid_inv in Hx13 as (items & Hitems & Hmin).
  unfold min_length in Hmin.
  destruct (Nat.leb_spec 1 (length items)); [| discriminate].
  injection Hmin as <-. eauto.
Qed.

(** C7: with an empty list of line items construction fails, and a
    constructed invoice has at least one line item. *)
Theorem Invoice_needs_a_line_item clock data :
  (Invoice.Args.line_items data = Some [] → failed (Invoice.construct clock data))
  ∧ (∀ inv, Invoice.construct clock data = Valid inv → Invoice.line_items inv ≠ []).
Proof.
  split.
  - intros Hempty. apply failed_not_Valid. intros inv H.
    apply Invoice_construct_line_items in H as (l & Hl & Hitems & Hlen).
    rewrite Hempty in Hl. injection Hl as <-. simpl in Hitems.
    injection Hitems as Hnil. rewrite <- Hnil in Hlen. simpl in Hlen. lia.
  - intros inv H. apply Invoice_construct_line_items in H as (l & _ & _ & Hlen).
    destruct (Invoice.line_items inv); [simpl in Hlen; lia | done].
Qed.

(** The sample invoice without its line item. *)
Lemma Invoice_needs_a_line_item_witness :
  failed (Invoice.construct Sample.clock
            (Sample.invoice (ymd 2024 1 31) [] (PyDecimal.Finite false 20000 (-2))
               (PyDecimal.Finite false 3000 (-2)) (PyDecimal.Finite false 23000 (-2)))).
Proof.
  exact (proj1 (Invoice_needs_a_line_item Sample.clock
                  (Sample.invoice (ymd 2024 1 31) [] (PyDecimal.Finite false 20000 (-2))
                     (PyDecimal.Finite false 3000 (-2)) (PyDecimal.Finite false 23000 (-2))))
           eq_refl).
Defined.

End LineItems.

(** ** The result of an extraction *)

Section Extraction.

(** C9: whatever the [success] flag and whatever the invoice (absent, an
    instance, or keyword arguments from which an invoice is constructed), an
    [ExtractionResult] is constructed as soon as the processing time and the
    retry count are non-negative: nothing relates the flag to the invoice. *)
Theorem ExtractionResult_flag_and_invoice_unrelated clock data success invoice processing_time :
  ExtractionResult.Args.success data = Some success →
  optional (ExtractionResult.validate_invoice clock) (ExtractionResult.Args.invoice data)
    = Valid invoice →
  ExtractionResult.Args.processing_time data = Some processing_time →
  PyFloat.le PyFloat.zero processing_time = true →
  0 <= default 0 (ExtractionResult.Args.retry_count data) →
  ExtractionResult.construct clock data
  = Valid {| ExtractionResult.success := success;
             ExtractionResult.invoice := invoice;
             ExtractionResult.errors := default [] (ExtractionResult.Args.errors data);
             ExtractionResult.warnings := default [] (ExtractionResult.Args.warnings data);
             ExtractionResult.processing_time := processing_time;
             ExtractionResult.retry_count := default 0 (ExtractionResult.Args.retry_count data);
             ExtractionResult.llm_model_used := ExtractionResult.Args.llm_model_used data |}.
Proof.
  intros Hs Hi Hp Hge Hr. unfold ExtractionResult.construct. cbv zeta.
  rewrite Hs, Hi, Hp. simpl. unfold float_ge. rewrite Hge.
  destruct (ExtractionResult.Args.errors data), (ExtractionResult.Args.warnings data),
    (ExtractionResult.Args.retry_count data) as [n |]; simpl in *;
    unfold int_ge; try (destruct (Z.leb_spec 0 n); [| lia]); reflexivity.
Qed.

(** A successful result without an invoice and a failed one that carries
    the sample invoice are both constructed. *)
Lemma ExtractionResult_flag_and_invoice_unrelated_witness :
  (∃ r, ExtractionResult.construct Sample.clock (Sample.result true None) = Valid r
        ∧ ExtractionResult.success r = true ∧ ExtractionResult.invoice r = None)
  ∧ (∃ r inv,
        ExtractionResult.construct Sample.clock
          (Sample.result false
             (Some (ExtractionResult.Data (Sample.plain_invoice (ymd 2024 1 31))))) = Valid r
        ∧ ExtractionResult.success r = false ∧ ExtractionResult.invoice r = Some inv).
Proof.
  assert (Hge : PyFloat.le PyFloat.zero PyFloat.one = true) by reflexivity.
  assert (Hr : 0 <= 0) by lia.
  split.
  - eexists. split.
    { exact (ExtractionResult_flag_and_invoice_unrelated Sample.clock
               (Sample.result true None) true None PyFloat.one
               eq_refl eq_refl eq_refl Hge Hr). }
    split; reflexivity.
  - assert (H0 : ∃ inv,
               optional (ExtractionResult.validate_invoice Sample.clock)
                 (Some (ExtractionResult.Data (Sample.plain_invoice (ymd 2024 1 31))))
               = Valid (Some inv))
      by (vm_compute; eexists; reflexivity).
    destruct H0 as [inv H0]. eexists. exists inv. split.
    { exact (ExtractionResult_flag_and_invoice_unrelated Sample.clock
               (Sample.result false
                  (Some (ExtractionResult.Data (Sample.plain_invoice (ymd 2024 1 31)))))
               false (Some inv) PyFloat.one eq_refl H0 eq_refl Hge Hr). }
    split; reflexivity.
Defined.

End Extraction.

(** ** The translation of errors *)

Section Translation.
Import Exceptions.

(** C4: an exception that is not an instance of [InvoiceAIException] is
    translated, by a total function, into the envelope with the code
    INTERNAL_ERROR, its string form as message and the name of its class as
    the only detail. *)
Theorem handle_exception_unrecognized exception :
  isinstance_InvoiceAIException exception = false →
  handle_exception exception
  = {[ "error" := VStr "INTERNAL_ERROR";
       "message" := VStr (str_of exception);
       "details" := VDict {[ "exception_type" := VStr (type_name_of exception) ]} ]}.
Proof. destruct exception; simpl; [discriminate | reflexivity]. Qed.

(** An [AttributeError] on [None]. *)
Lemma handle_exception_unrecognized_witness :
  handle_exception (Foreign "AttributeError" "'NoneType' object has no attribute 'total_amount'")
  = {[ "error" := VStr "INTERNAL_ERROR";
       "message" := VStr "'NoneType' object has no attribute 'total_amount'";
       "details" := VDict {[ "exception_type" := VStr "AttributeError" ]} ]}.
Proof.
  exact (handle_exception_unrecognized
           (Foreign "AttributeError" "'NoneType' object has no attribute 'total_amount'")
           eq_refl).
Defined.


End Translation.

(** ** Reading a serialized instance back *)

Section Trees.
Context {A : Type} (proj : PyVal → option A).

Lemma lookup_put_opt_ne k k' o (d : dict) :
  String.eqb k k' = false → put_opt k' o d !! k = d !! k.
Proof.
  intros Hne%String.eqb_neq. destruct o; simpl; [| done].
  apply lookup_insert_ne. congruence.
Qed.

Lemma lookup_insert_ne' k k' v (d : dict) :
  String.eqb k k' = false → <[k' := v]> d !! k = d !! k.
Proof. intros Hne%String.eqb_neq. apply lookup_insert_ne. congruence. Qed.

Lemma get_insert_ne k k' v d :
  String.eqb k k' = false → get proj (<[k' := v]> d) k = get proj d k.
Proof. intros. unfold get. by rewrite lookup_insert_ne'. Qed.

Lemma get_put_opt_ne k k' o d :
  String.eqb k k' = false → get proj (put_opt k' o d) k = get proj d k.
Proof. intros. unfold get. by rewrite lookup_put_opt_ne. Qed.

Lemma get_insert_eq k v d : get proj (<[k := v]> d) k = Some <$> proj v.
Proof. unfold get. by rewrite lookup_insert_eq. Qed.

Lemma get_put_opt_eq (inj : A → PyVal) k o d :
  (∀ a, proj (inj a) = Some a) → d !! k = None →
  get proj (put_opt k (inj <$> o) d) k = Some o.
Proof.
  intros Hinj Hd. unfold get. destruct o as [a |]; simpl.
  - rewrite lookup_insert_eq. by rewrite Hinj.
  - by rewrite Hd.
Qed.

Lemma get_put_opt_eq' {B} (inj : B → PyVal) (f : B → A) k o d :
  (∀ b, proj (inj b) = Some (f b)) → d !! k = None →
  get proj (put_opt k (inj <$> o) d) k = Some (f <$> o).
Proof.
  intros Hinj Hd. unfold get. destruct o as [b |]; simpl.
  - rewrite lookup_insert_eq. by rewrite Hinj.
  - by rewrite Hd.
Qed.

Lemma as_list_map {B} (inj : B → PyVal) (f : B → A) l :
  (∀ b, proj (inj b) = Some (f b)) →
  as_list proj (VList (map inj l)) = Some (map f l).
Proof.
  intros Hinj. simpl. induction l as [| b l IH]; [done |].
  simpl. rewrite Hinj. simpl. by rewrite IH.
Qed.

End Trees.

(** Finds the entry of a key in the tree of an instance. *)
Ltac absent :=
  repeat first [rewrite lookup_insert_ne' by reflexivity
               | rewrite lookup_put_opt_ne by reflexivity];
  apply lookup_empty.

Ltac skip_fields :=
  repeat first [rewrite get_insert_ne by reflexivity
               | rewrite get_put_opt_ne by reflexivity].

Ltac read_field :=
  skip_fields;
  first [rewrite get_insert_eq
        | rewrite (get_put_opt_eq _ _) by (first [done | absent])].

Ltac read_fields :=
  repeat (read_field;
          cbn [mbind option_bind fmap option_fmap option_map
               as_str as_int as_float as_decimal as_date as_datetime]).

Section ReadBack.

Lemma VendorInfo_of_dict self :
  VendorInfo.of_dict (VendorInfo.dict_ self) = Some (VendorInfo.args_of self).
Proof. unfold VendorInfo.of_dict, VendorInfo.dict_. read_fields. reflexivity. Qed.

Lemma CustomerInfo_of_dict self :
  CustomerInfo.of_dict (CustomerInfo.dict_ self) = Some (CustomerInfo.args_of self).
Proof. unfold CustomerInfo.of_dict, CustomerInfo.dict_. read_fields. reflexivity. Qed.

Lemma TaxBreakdown_of_dict self :
  TaxBreakdown.of_dict (TaxBreakdown.dict_ self) = Some (TaxBreakdown.args_of self).
Proof. unfold TaxBreakdown.of_dict, TaxBreakdown.dict_. read_fields. reflexivity. Qed.

Lemma PaymentInfo_of_dict self :
  PaymentInfo.of_dict (PaymentInfo.dict_ self) = Some (PaymentInfo.args_of self).
Proof. unfold PaymentInfo.of_dict, PaymentInfo.dict_. read_fields. reflexivity. Qed.

Lemma InvoiceLineItem_of_dict self :
  InvoiceLineItem.of_dict (InvoiceLineItem.dict_ self) = Some (InvoiceLineItem.args_of self).
Proof. unfold InvoiceLineItem.of_dict, InvoiceLineItem.dict_. read_fields. reflexivity. Qed.

Lemma as_InvoiceType_value x : as_InvoiceType (VStr (InvoiceType_value x)) = Some x.
Proof. by destruct x. Qed.

Lemma as_Currency_value x : as_Currency (VStr (Currency_value x)) = Some x.
Proof. by destruct x. Qed.

Lemma as_Language_value x : as_Language (VStr (Language_value x)) = Some x.
Proof. by destruct x. Qed.

Lemma Invoice_of_dict self :
  Invoice.of_dict (Invoice.to_dict self) = Some (Invoice.args_of self).
Proof.
  unfold Invoice.of_dict, Invoice.to_dict, Invoice.dict_.
  repeat
    (skip_fields;
     first
       [ read_field
       | rewrite (get_put_opt_eq' _ (λ x, VDict (CustomerInfo.dict_ x)) CustomerInfo.args_of)
           by first [intros; apply CustomerInfo_of_dict | absent]
       | rewrite (get_put_opt_eq' _ (λ x, VDict (PaymentInfo.dict_ x)) PaymentInfo.args_of)
           by first [intros; apply PaymentInfo_of_dict | absent]
       | rewrite (get_put_opt_eq' _
                    (λ l, VList (map (λ x, VDict (TaxBreakdown.dict_ x)) l))
                    (map TaxBreakdown.args_of))
           by first [intros; apply as_list_map; intros; apply TaxBreakdown_of_dict | absent] ];
     cbn [mbind option_bind fmap option_fmap option_map
          as_str as_int as_float as_decimal as_date as_datetime as_model];
     rewrite ?as_InvoiceType_value, ?as_Currency_value, ?as_Language_value,
       ?VendorInfo_of_dict,
       ?(as_list_map _ (λ x, VDict (InvoiceLineItem.dict_ x)) InvoiceLineItem.args_of)
         by (intros; apply InvoiceLineItem_of_dict);
     cbn [mbind option_bind fmap option_fmap option_map]).
  reflexivity.
Qed.

End ReadBack.

(** ** Constructing an instance again from its own fields *)

Section Again.
Import PyDecimal.

Lemma under_Valid_inv {A} i (v : Validated A) a : under i v = Valid a → v = Valid a.
Proof. destruct v; simpl; congruence. Qed.

Lemma under_Valid {A} i (a : A) : under i (Valid a) = Valid a.
Proof. reflexivity. Qed.

Lemma required_decimal_ge_again name x a :
  required name x ≫= decimal_ge name zero = Valid a → decimal_ge name zero a = Valid a.
Proof.
  intros (d & _ & H)%bind_Valid_inv.
  pose proof H as (-> & _)%decimal_ge_Valid_inv. exact H.
Qed.

Lemma with_default_decimal_ge_again name x a :
  with_default zero (decimal_ge name zero) x = Valid a → decimal_ge name zero a = Valid a.
Proof.
  intros [_ H]%with_default_decimal_ge_Valid_inv. by apply decimal_ge_nonnegative.
Qed.

Lemma validate_items_again {A B} (construct : A → Validated B) (args_of : B → A) :
  (∀ a b, construct a = Valid b → construct (args_of b) = Valid b) →
  ∀ l i items, validate_items construct i l = Valid items →
  ∀ j, validate_items construct j (map args_of items) = Valid items.
Proof.
  intros Hagain. induction l as [| x rest IH]; intros i items H j;
    cbn [validate_items] in H.
  - by injection H as <-.
  - ap_inv H. apply under_Valid_inv in Hx0. cbn [map validate_items].
    rewrite (Hagain _ _ Hx0), (IH _ _ Hx). reflexivity.
Qed.

Lemma VendorInfo_again self : VendorInfo.construct (VendorInfo.args_of self) = Valid self.
Proof. by destruct self. Qed.

Lemma CustomerInfo_again self : CustomerInfo.construct (CustomerInfo.args_of self) = Valid self.
Proof. by destruct self. Qed.

Lemma PaymentInfo_again self : PaymentInfo.construct (PaymentInfo.args_of self) = Valid self.
Proof. by destruct self. Qed.

Lemma TaxBreakdown_again data self :
  TaxBreakdown.construct data = Valid self →
  TaxBreakdown.construct (TaxBreakdown.args_of self) = Valid self.
Proof.
  unfold TaxBreakdown.construct. cbv zeta. intros H. ap_inv H.
  apply required_decimal_ge_again in Hx1, Hx0, Hx.
  cbn [TaxBreakdown.args_of TaxBreakdown.Args.tax_type TaxBreakdown.Args.tax_rate
       TaxBreakdown.Args.taxable_amount TaxBreakdown.Args.tax_amount
       TaxBreakdown.tax_type TaxBreakdown.tax_rate TaxBreakdown.taxable_amount
       TaxBreakdown.tax_amount required mbind Validated_bind].
  rewrite Hx1, Hx0, Hx. reflexivity.
Qed.

Lemma InvoiceLineItem_again data self :
  InvoiceLineItem.construct data = Valid self →
  InvoiceLineItem.construct (InvoiceLineItem.args_of self) = Valid self.
Proof.
  unfold InvoiceLineItem.construct. cbv zeta. intros H. ap_inv H.
  rewrite Hx6, Hx5, Hx3, Hx1 in Hx0. cbn [to_option] in Hx0.
  apply bind_Valid_inv in Hx6 as (q & _ & Hq).
  assert (float_gt "quantity" PyFloat.zero a6 = Valid a6) as Hq'.
  { unfold float_gt in *. destruct (PyFloat.lt PyFloat.zero q) eqn:E; [| discriminate].
    injection Hq as <-. by rewrite E. }
  apply bind_Valid_inv in Hx5 as (p & _ & Hp).
  pose proof Hp as (-> & _)%decimal_field_Valid_inv.
  apply with_default_decimal_ge_again in Hx3, Hx2, Hx1.
  apply bind_Valid_inv in Hx0 as (v & _ & Hv).
  apply bind_Valid_inv in Hv as (v' & Hfin & Hv).
  pose proof Hfin as (-> & _)%decimal_field_Valid_inv.
  pose proof Hv as Hret%run_validator_Valid_inv.
  apply validate_line_total_returns in Hret as ->.
  cbn [InvoiceLineItem.args_of InvoiceLineItem.Args.description
       InvoiceLineItem.Args.description_ar InvoiceLineItem.Args.description_en
       InvoiceLineItem.Args.quantity InvoiceLineItem.Args.unit_price
       InvoiceLineItem.Args.unit InvoiceLineItem.Args.discount
       InvoiceLineItem.Args.tax_rate InvoiceLineItem.Args.tax_amount
       InvoiceLineItem.Args.line_total InvoiceLineItem.Args.item_code
       InvoiceLineItem.description InvoiceLineItem.description_ar
       InvoiceLineItem.description_en InvoiceLineItem.quantity InvoiceLineItem.unit_price
       InvoiceLineItem.unit InvoiceLineItem.discount InvoiceLineItem.tax_rate
       InvoiceLineItem.tax_amount InvoiceLineItem.line_total InvoiceLineItem.item_code
       required with_default mbind Validated_bind].
  rewrite Hq', Hp, Hx3, Hx2, Hx1, Hfin. cbn [to_option mbind Validated_bind].
  rewrite Hv. reflexivity.
Qed.

Lemma optional_model_again {A B} name (construct : A → Validated B) (args_of : B → A) x :
  (∀ b, construct (args_of b) = Valid b) →
  optional (λ a, under (Key name) (construct a)) (args_of <$> x) = Valid x.
Proof. intros Hagain. destruct x as [b |]; simpl; [| done]. by rewrite Hagain. Qed.

Lemma optional_items_again {A B} name (construct : A → Validated B) (args_of : B → A) x items :
  (∀ a b, construct a = Valid b → construct (args_of b) = Valid b) →
  optional (λ l, under (Key name) (validate_items construct 0 l)) x = Valid items →
  optional (λ l, under (Key name) (validate_items construct 0 l)) (map args_of <$> items)
  = Valid items.
Proof.
  intros Hagain. destruct x as [l |]; simpl.
  - destruct (under (Key name) (validate_items construct 0 l)) as [bs | |] eqn:E;
      simpl; intros [= <-].
    apply under_Valid_inv in E. simpl.
    by rewrite (validate_items_again construct args_of Hagain _ _ _ E).
  - by intros [= <-].
Qed.

Lemma confidence_score_again x a :
  with_default PyFloat.zero (float_between "confidence_score" PyFloat.zero PyFloat.one) x
    = Valid a →
  float_between "confidence_score" PyFloat.zero PyFloat.one a = Valid a.
Proof.
  destruct x as [c |]; simpl; [| by intros [= <-]].
  intros H. pose proof H as H'. unfold float_between in H'.
  destruct (PyFloat.le c PyFloat.one); [| discriminate].
  destruct (PyFloat.le PyFloat.zero c); [| discriminate].
  injection H' as <-. exact H.
Qed.

(** A date that passed the check passes it again at any later time. *)
Lemma validate_date_later clock clock' v a :
  toordinal (today clock) <= toordinal (today clock') →
  Invoice.validate_date clock v = Return a →
  a = v ∧ Invoice.validate_date clock' v = Return v.
Proof.
  intros Hle. rewrite !validate_date_spec. unfold days_between.
  destruct (Z.ltb_spec 30 (toordinal v - toordinal (today clock))); [discriminate |].
  intros [= <-]. split; [done |].
  destruct (Z.ltb_spec 30 (toordinal v - toordinal (today clock'))); [lia | done].
Qed.

(** An invoice is constructed again from its own fields, at the time of its
    construction or later. *)
Lemma Invoice_again clock clock' data self :
  Invoice.construct clock data = Valid self →
  toordinal (today clock) <= toordinal (today clock') →
  Invoice.construct clock' (Invoice.args_of self) = Valid self.
Proof.
  unfold Invoice.construct. cbv zeta. intros H Hle. ap_inv H.
  rewrite Hx12, Hx11, Hx10 in Hx9. cbn [to_option] in Hx9.
  apply bind_Valid_inv in Hx18 as (v & _ & Hdate%run_validator_Valid_inv).
  apply (validate_date_later clock clock' _ _ Hle) in Hdate as [-> Hdate].
  apply bind_Valid_inv in Hx13 as (l & _ & Hx13).
  apply bind_Valid_inv in Hx13 as (items & Hitems%under_Valid_inv & Hmin).
  assert (a13 = items) as ->
    by (pose proof Hmin as Hm; unfold min_length, fail in Hm;
        destruct (1 <=? length items)%nat; congruence).
  apply (validate_items_again _ _ InvoiceLineItem_again) with (j := 0%nat) in Hitems.
  apply required_decimal_ge_again in Hx12.
  apply with_default_decimal_ge_again in Hx11, Hx10.
  apply bind_Valid_inv in Hx9 as (t & _ & Hx9).
  apply bind_Valid_inv in Hx9 as (t' & Hge & Htotal).
  pose proof Hge as (-> & _)%decimal_ge_Valid_inv.
  pose proof Htotal as Hret%run_validator_Valid_inv.
  apply validate_total_returns in Hret as ->.
  apply (optional_items_again _ _ _ _ _ TaxBreakdown_again) in Hx8.
  apply confidence_score_again in Hx2.
  cbn [Invoice.args_of Invoice.Args.invoice_number Invoice.Args.invoice_type
       Invoice.Args.invoice_date Invoice.Args.currency
       Invoice.Args.language_detected Invoice.Args.vendor Invoice.Args.customer
       Invoice.Args.line_items Invoice.Args.subtotal Invoice.Args.total_discount
       Invoice.Args.total_tax Invoice.Args.total_amount Invoice.Args.tax_breakdown
       Invoice.Args.payment_info Invoice.Args.po_number
       Invoice.Args.reference_number Invoice.Args.notes Invoice.Args.qr_code
       Invoice.Args.confidence_score Invoice.Args.extraction_timestamp
       Invoice.Args.source_file Invoice.Args.page_count Invoice.invoice_number
       Invoice.invoice_type Invoice.invoice_date Invoice.currency
       Invoice.language_detected Invoice.vendor Invoice.customer Invoice.line_items
       Invoice.subtotal Invoice.total_discount Invoice.total_tax
       Invoice.total_amount Invoice.tax_breakdown Invoice.payment_info
       Invoice.po_number Invoice.reference_number Invoice.notes Invoice.qr_code
       Invoice.confidence_score Invoice.extraction_timestamp Invoice.source_file
       Invoice.page_count
       required with_default mbind Validated_bind].
  rewrite Hdate, VendorInfo_again, Hitems, Hx12, Hx11, Hx10, Hge, Hx8, Hx2.
  rewrite (optional_model_again "customer" _ _ _ CustomerInfo_again),
    (optional_model_again "payment_info" _ _ _ PaymentInfo_again).
  cbn [to_option under mbind Validated_bind run_validator]. rewrite Hmin, Htotal.
  reflexivity.
Qed.

(** ** The round trip through the serialized form *)

(** C6: serializing a constructed invoice with [to_dict], constructing an
    invoice from that tree (at the same time or later) and serializing
    again yields the same tree; the reconstructed invoice is the original
    one, stamped timestamp included. *)
Theorem Invoice_round_trip clock clock' data self :
  Invoice.construct clock data = Valid self →
  toordinal (today clock) <= toordinal (today clock') →
  ∃ data' self',
    Invoice.of_dict (Invoice.to_dict self) = Some data'
    ∧ Invoice.construct clock' data' = Valid self'
    ∧ Invoice.to_dict self' = Invoice.to_dict self.
Proof.
  intros H Hle. exists (Invoice.args_of self), self. split; [apply Invoice_of_dict |].
  split; [by apply (Invoice_again clock clock' data) | done].
Qed.

(** The sample invoice, constructed on 2024-01-31 and read back from its
    tree a day later. *)
Lemma Invoice_round_trip_witness :
  ∃ self data' self',
    Invoice.construct Sample.clock (Sample.plain_invoice (ymd 2024 1 31)) = Valid self
    ∧ Invoice.of_dict (Invoice.to_dict self) = Some data'
    ∧ Invoice.construct Sample.later data' = Valid self'
    ∧ Invoice.to_dict self' = Invoice.to_dict self.
Proof.
  assert (H0 : ∃ self, Invoice.construct Sample.clock
                         (Sample.plain_invoice (ymd 2024 1 31)) = Valid self)
    by (vm_compute; eexists; reflexivity).
  destruct H0 as [self H0].
  assert (Hle : toordinal (today Sample.clock) <= toordinal (today Sample.later))
    by (vm_compute; discriminate).
  destruct (Invoice_round_trip Sample.clock Sample.later _ self H0 Hle)
    as (data' & self' & H1 & H2 & H3).
  exists self, data', self'. auto.
Defined.

End Again.

(** ** Assignment to a field of an instance *)

Section Assignment.
Import PyDecimal.

(** C8 (as amended): the records are validated when they are constructed
    and not afterwards.  Neither [Invoice] nor [InvoiceLineItem] is frozen:
    assigning to [total_amount] or to [line_total] of an instance always
    completes, runs no validator and replaces the field in place, for every
    holder of a reference to the instance. *)
Theorem assignment_is_not_validated clock value self :
  (∀ store obj,
     store !! self = Some obj →
     Invoice_set_total_amount clock value self store
     = Stored (<[self := Invoice.with_total_amount value obj]> store))
  ∧ (∀ store item,
       store !! self = Some item →
       InvoiceLineItem_set_line_total value self store
       = Stored (<[self := InvoiceLineItem.with_line_total value item]> store)).
Proof.
  split; intros store obj H;
    unfold Invoice_set_total_amount, InvoiceLineItem_set_line_total, setattr;
    rewrite H; reflexivity.
Qed.

(** The line item of the scenario, once constructed, is given the line total
    235.00, with which it could not have been constructed. *)
Lemma assignment_is_not_validated_witness :
  InvoiceLineItem_set_line_total (Finite false 23500 (-2)) 1%positive
    {[ 1%positive := Sample.item_230 ]}
  = Stored {[ 1%positive :=
                InvoiceLineItem.with_line_total (Finite false 23500 (-2)) Sample.item_230 ]}
  ∧ failed (InvoiceLineItem.construct
              (InvoiceLineItem.args_of
                 (InvoiceLineItem.with_line_total (Finite false 23500 (-2)) Sample.item_230))).
Proof.
  split; [| vm_compute; exact I].
  rewrite (proj2 (assignment_is_not_validated Sample.clock (Finite false 23500 (-2)) 1%positive)
             {[ 1%positive := Sample.item_230 ]} Sample.item_230
             (lookup_singleton_eq 1%positive Sample.item_230)).
  vm_compute. reflexivity.
Defined.

(** C8 (counterexample): the sample invoice is constructed, then its
    [total_amount] is assigned 0: the instance in the store is no longer the
    one that was constructed, and its fields would not pass construction. *)
Lemma Invoice_assignment_changes_instance :
  ∃ obj store',
    Invoice.construct Sample.clock (Sample.plain_invoice (ymd 2024 1 31)) = Valid obj
    ∧ Invoice_set_total_amount Sample.clock zero 1%positive {[ 1%positive := obj ]}
      = Stored store'
    ∧ store' !! 1%positive = Some (Invoice.with_total_amount zero obj)
    ∧ Invoice.with_total_amount zero obj ≠ obj
    ∧ failed (Invoice.construct Sample.clock
                (Invoice.args_of (Invoice.with_total_amount zero obj))).
Proof.
  eexists. eexists. split; [vm_compute; reflexivity |].
  split; [vm_compute; reflexivity |].
  split; [vm_compute; reflexivity |].
  split; [intros [=] | vm_compute; exact I].
Qed.

End Assignment.

(** ** The codes of the envelopes *)

Section Codes.
Import Exceptions.

Lemma to_dict_error e : to_dict e !! "error" = Some (VStr (error_code e)).
Proof. reflexivity. Qed.

Lemma to_dict_message e : to_dict e !! "message" = Some (VStr (message e)).
Proof. reflexivity. Qed.

Lemma to_dict_details e : to_dict e !! "details" = Some (VDict (details e)).
Proof. reflexivity. Qed.

Lemma str_or_nonempty x y : y ≠ "" → str_or x y ≠ "".
Proof.
  intros Hy. destruct x as [s |]; simpl; [| done].
  destruct (String.eqb_spec s ""); done.
Qed.

(** X1: the base [__init__] never leaves the code empty nor the details
    unset: a code that is [None] or the empty string becomes
    GENERAL_ERROR, any other code is kept; details that are [None] become
    the empty dict; the message is kept.  The envelope shows all three. *)
Theorem InvoiceAIException_code_never_empty c message error_code details :
  let envelope := handle_exception (Known (init c message error_code details)) in
  ∃ code,
    envelope !! "error" = Some (VStr code)
    ∧ code ≠ ""
    ∧ code = match error_code with
             | Some s => if decide (s = "") then "GENERAL_ERROR" else s
             | None => "GENERAL_ERROR"
             end
    ∧ envelope !! "message" = Some (VStr message)
    ∧ envelope !! "details" = Some (VDict (default ∅ details))
    ∧ dom envelope = {[ "error"; "message"; "details" ]}.
Proof.
  intros envelope. subst envelope. cbn [handle_exception].
  exists (str_or error_code "GENERAL_ERROR").
  split; [apply to_dict_error |].
  split; [by apply str_or_nonempty |].
  split.
  { destruct error_code as [s |]; simpl; [| done].
    destruct (String.eqb_spec s ""), (decide (s = "")); done. }
  split; [apply to_dict_message |].
  split.
  { rewrite to_dict_details. cbn [Exceptions.details init]. do 2 f_equal.
    destruct details as [d |]; simpl; [| done]. by destruct (decide (d = ∅)). }
  unfold to_dict. rewrite !dom_insert_L, dom_singleton_L. set_solver.
Qed.

Lemma instantiate_code r :
  error_code (instantiate r) = documented_code (class_of (instantiate r)).
Proof. destruct r; reflexivity. Qed.

Lemma documented_code_inj c1 c2 :
  c1 ≠ InvoiceAIException_ → documented_code c1 = documented_code c2 → c1 = c2.
Proof. destruct c1, c2; simpl; intros Hb [=]; done. Qed.

Lemma instantiate_not_base r : class_of (instantiate r) ≠ InvoiceAIException_.
Proof. destruct r; discriminate. Qed.

(** X2: the code of an envelope tells the kind of a defined error: instances
    of two different subclasses never carry the same code, and no subclass
    uses GENERAL_ERROR or INTERNAL_ERROR, so that the envelope of a defined
    error is never the one of an unrecognized exception. *)
Theorem error_code_identifies_kind :
  (∀ r1 r2,
     handle_exception (Known (instantiate r1)) !! "error"
     = handle_exception (Known (instantiate r2)) !! "error" →
     class_of (instantiate r1) = class_of (instantiate r2))
  ∧ (∀ r, handle_exception (Known (instantiate r)) !! "error" ≠ Some (VStr "GENERAL_ERROR")
          ∧ handle_exception (Known (instantiate r)) !! "error" ≠ Some (VStr "INTERNAL_ERROR"))
  ∧ (∀ r exception,
       isinstance_InvoiceAIException exception = false →
       handle_exception (Known (instantiate r)) ≠ handle_exception exception).
Proof.
  assert (Hcode : ∀ r, handle_exception (Known (instantiate r)) !! "error"
                       = Some (VStr (documented_code (class_of (instantiate r))))).
  { intros r. cbn [handle_exception]. by rewrite to_dict_error, instantiate_code. }
  assert (Hnot : ∀ r code, code = "GENERAL_ERROR" ∨ code = "INTERNAL_ERROR" →
                           documented_code (class_of (instantiate r)) ≠ code).
  { intros r code [-> | ->]; destruct r; discriminate. }
  split; [| split].
  - intros r1 r2. rewrite !Hcode. intros [= H].
    by apply documented_code_inj; [apply instantiate_not_base |].
  - intros r. rewrite Hcode. split; intros [= H]; by eapply Hnot; [| exact H]; auto.
  - intros r [e | name s]; [discriminate |]. intros _ H.
    apply (f_equal (λ d : dict, d !! "error")) in H. rewrite Hcode in H.
    injection H as H. by eapply Hnot; [| exact H]; auto.
Qed.

(** Two timeouts, of the LLM and of the ERP system. *)
Lemma error_code_identifies_kind_witness :
  class_of (instantiate (RLLMTimeoutError 30)) = class_of (instantiate (RLLMTimeoutError 60))
  ∧ handle_exception (Known (instantiate (RERPTimeoutError "SAP" 30)))
    ≠ handle_exception (Foreign "TimeoutError" "timed out").
Proof.
  split.
  - apply (proj1 error_code_identifies_kind (RLLMTimeoutError 30) (RLLMTimeoutError 60)).
    reflexivity.
  - apply (proj2 (proj2 error_code_identifies_kind)). reflexivity.
Defined.

End Codes.

(** ** What a constructed line item satisfies *)

Section LineItemFields.
Import PyDecimal.

Lemma float_gt_Valid_inv name b x a :
  float_gt name b x = Valid a → a = x ∧ PyFloat.lt b x = true.
Proof. unfold float_gt. destruct (PyFloat.lt b x); intros [=]; auto. Qed.

(** With an infinite quantity the expected total is infinite, or the
    product with a zero price is an invalid operation: the validator never
    returns. *)
Lemma validate_line_total_infinite_quantity v s unit_price discount tax_amount :
  is_finite unit_price = true → is_finite discount = true →
  is_finite tax_amount = true → is_finite v = true →
  InvoiceLineItem.validate_line_total v
    {| InvoiceLineItem.Values.quantity := Some (S754_infinity s);
       InvoiceLineItem.Values.unit_price := Some unit_price;
       InvoiceLineItem.Values.discount := Some discount;
       InvoiceLineItem.Values.tax_amount := Some tax_amount |}
  ≠ Return v.
Proof.
  destruct unit_price as [sp cp ep | |]; [| discriminate ..].
  destruct discount as [sd cd ed | |]; [| discriminate ..].
  destruct tax_amount as [st ct et | |]; [| discriminate ..].
  destruct v as [sv cv ev | |]; [| discriminate ..].
  intros _ _ _ _. unfold InvoiceLineItem.validate_line_total. simpl.
  destruct (cp =? 0)%N; simpl; discriminate.
Qed.

(** X3: a constructed line item has a positive, finite quantity, a finite unit
    price and line total, whatever their sign, and a discount, a tax rate
    and a tax amount that are finite and not negative. *)
Theorem InvoiceLineItem_field_bounds data item :
  InvoiceLineItem.construct data = Valid item →
  PyFloat.lt PyFloat.zero (InvoiceLineItem.quantity item) = true
  ∧ isfinite (InvoiceLineItem.quantity item) = true
  ∧ is_finite (InvoiceLineItem.unit_price item) = true
  ∧ nonnegative (InvoiceLineItem.discount item)
  ∧ nonnegative (InvoiceLineItem.tax_rate item)
  ∧ nonnegative (InvoiceLineItem.tax_amount item)
  ∧ is_finite (InvoiceLineItem.line_total item) = true.
Proof.
  intros H. pose proof (InvoiceLineItem_construct_total _ _ H) as (_ & _ & _ & _ & _ & Hv).
  revert H. unfold InvoiceLineItem.construct. cbv zeta. intros H. ap_inv H.
  simpl in Hv |- *.
  apply bind_Valid_inv in Hx6 as (q & _ & (-> & Hq)%float_gt_Valid_inv).
  apply bind_Valid_inv in Hx5 as (p & _ & (-> & Hp)%decimal_field_Valid_inv).
  apply with_default_decimal_ge_Valid_inv in Hx3 as [_ Hd].
  apply with_default_decimal_ge_Valid_inv in Hx2 as [_ Hr].
  apply with_default_decimal_ge_Valid_inv in Hx1 as [_ Ht].
  apply bind_Valid_inv in Hx0 as (v & _ & Hx0).
  apply bind_Valid_inv in Hx0 as (v' & (-> & Hf)%decimal_field_Valid_inv & Hx0).
  apply run_validator_Valid_inv in Hx0.
  pose proof (validate_line_total_returns _ _ _ Hx0) as ->.
  repeat split; try done; try apply Hd; try apply Hr; try apply Ht.
  destruct q as [| s | |]; try done.
  exfalso.
  by eapply validate_line_total_infinite_quantity; [.. | exact Hv];
    try apply Hd; try apply Ht.
Qed.

(** The line item of the scenario. *)
Lemma InvoiceLineItem_field_bounds_witness :
  PyFloat.lt PyFloat.zero (InvoiceLineItem.quantity Sample.item_230) = true
  ∧ isfinite (InvoiceLineItem.quantity Sample.item_230) = true
  ∧ is_finite (InvoiceLineItem.unit_price Sample.item_230) = true
  ∧ nonnegative (InvoiceLineItem.discount Sample.item_230)
  ∧ nonnegative (InvoiceLineItem.tax_rate Sample.item_230)
  ∧ nonnegative (InvoiceLineItem.tax_amount Sample.item_230)
  ∧ is_finite (InvoiceLineItem.line_total Sample.item_230) = true.
Proof.
  apply (InvoiceLineItem_field_bounds (Sample.item (Finite false 23000 (-2)))).
  vm_compute. reflexivity.
Defined.

End LineItemFields.

(** ** What the check of a line total leaves out *)

Section LineItemCheck.
Import PyDecimal.

Ltac item_args :=
  cbn [InvoiceLineItem.Args.with_tax_rate InvoiceLineItem.Args.with_discount
       InvoiceLineItem.Args.description InvoiceLineItem.Args.description_ar
       InvoiceLineItem.Args.description_en InvoiceLineItem.Args.quantity
       InvoiceLineItem.Args.unit_price InvoiceLineItem.Args.unit
       InvoiceLineItem.Args.discount InvoiceLineItem.Args.tax_rate
       InvoiceLineItem.Args.tax_amount InvoiceLineItem.Args.line_total
       InvoiceLineItem.Args.item_code InvoiceLineItem.Args.with_line_total].

(** X4: the tax rate of a line item is checked against nothing: not against
    the tax amount, not against the total.  A constructed item is
    constructed with any other tax rate that is not negative. *)
Theorem InvoiceLineItem_tax_rate_not_checked data item tax_rate :
  InvoiceLineItem.construct data = Valid item →
  nonnegative tax_rate →
  InvoiceLineItem.construct (InvoiceLineItem.Args.with_tax_rate (Some tax_rate) data)
  = Valid (InvoiceLineItem.with_tax_rate tax_rate item).
Proof.
  unfold InvoiceLineItem.construct. cbv zeta. intros H Hr. ap_inv H. item_args.
  rewrite Hx0, Hx1, Hx3, Hx4, Hx5, Hx6, Hx7, Hx8, Hx9, Hx.
  cbn [with_default]. rewrite (decimal_ge_nonnegative _ _ Hr). reflexivity.
Qed.

(** The scenario's item with a tax rate of 5 instead of 15, the tax amount
    staying at 30.00. *)
Lemma InvoiceLineItem_tax_rate_not_checked_witness :
  InvoiceLineItem.construct
    (InvoiceLineItem.Args.with_tax_rate (Some (Finite false 5 0))
       (Sample.item (Finite false 23000 (-2))))
  = Valid (InvoiceLineItem.with_tax_rate (Finite false 5 0) Sample.item_230).
Proof.
  apply (InvoiceLineItem_tax_rate_not_checked (Sample.item (Finite false 23000 (-2)))).
  - vm_compute. reflexivity.
  - split; [reflexivity | vm_compute; discriminate].
Defined.

Lemma differ_by_start {A B} (f : Validated (A → B)) e a :
  differ_by [e] (f <*> Invalid [e]) (f <*> Valid a).
Proof.
  destruct f as [g | e1 | s]; simpl; [done | | done].
  apply (Permutation_app_comm e1 [e]).
Qed.

Lemma differ_by_ap {A B C} extra (f : Validated (A → B)) (g : Validated (A → C)) x :
  differ_by extra f g → differ_by extra (f <*> x) (g <*> x).
Proof.
  destruct f as [f | e1 | s1], g as [g | e2 | s2], x as [a | ex | sx]; simpl;
    try done; intros H; rewrite ?app_nil_r in *; rewrite ?app_assoc;
    try rewrite <- H; done.
Qed.

Lemma decimal_ge_refused name d :
  ¬ nonnegative d →
  ∃ e, loc e = [Key name] ∧ decimal_ge name zero d = Invalid [e].
Proof.
  intros Hn. unfold decimal_ge, fail.
  assert (Hfail : ∀ t, ∃ e, loc e = [Key name]
                            ∧ Invalid [{| type_ := t; loc := [Key name] |}]
                              = @Invalid Decimal [e])
    by (intros t; eexists; split; [| reflexivity]; reflexivity).
  destruct (is_finite d) eqn:Hf; [| apply Hfail].
  destruct (cmp d zero) eqn:Hc; [| apply Hfail |]; exfalso; apply Hn; split; congruence.
Qed.

(** X5: a discount that is refused counts as no discount in the check of the
    line total: the item fails with the error of the discount and, besides
    it, exactly as the same item without a discount does (or raises the
    same exception). *)
Theorem InvoiceLineItem_refused_discount_counts_as_zero data discount :
  InvoiceLineItem.Args.discount data = Some discount →
  ¬ nonnegative discount →
  ∃ e, loc e = [Key "discount"]
       ∧ differ_by [e] (InvoiceLineItem.construct data)
           (InvoiceLineItem.construct (InvoiceLineItem.Args.with_discount None data)).
Proof.
  intros Hd Hn. destruct (decimal_ge_refused "discount" _ Hn) as (e & Hloc & He).
  exists e. split; [exact Hloc |].
  unfold InvoiceLineItem.construct. cbv zeta. item_args.
  rewrite Hd. cbn [with_default to_option]. rewrite He. cbn [to_option].
  do 4 apply differ_by_ap. apply differ_by_start.
Qed.

(** The scenario's item with a discount of -5.00 and a line total of
    235.00, which would be the total if the discount were taken. *)
Lemma InvoiceLineItem_refused_discount_counts_as_zero_witness :
  ∃ e, loc e = [Key "discount"]
       ∧ differ_by [e]
           (InvoiceLineItem.construct
              (InvoiceLineItem.Args.with_discount (Some (Finite true 500 (-2)))
                 (Sample.item (Finite false 23500 (-2)))))
           (InvoiceLineItem.construct
              (InvoiceLineItem.Args.with_discount None
                 (InvoiceLineItem.Args.with_discount (Some (Finite true 500 (-2)))
                    (Sample.item (Finite false 23500 (-2)))))).
Proof.
  apply (InvoiceLineItem_refused_discount_counts_as_zero
           (InvoiceLineItem.Args.with_discount (Some (Finite true 500 (-2)))
              (Sample.item (Finite false 23500 (-2))))
           (Finite true 500 (-2))).
  - reflexivity.
  - intros [_ H]. apply H. vm_compute. reflexivity.
Defined.

Lemma same_failure_start {A B} (f : Validated (A → B)) a b :
  failed f → same_failure (f <*> Valid a) (f <*> Valid b).
Proof. by destruct f. Qed.

Lemma same_failure_ap {A B C} (f : Validated (A → B)) (g : Validated (A → C)) x :
  same_failure f g → same_failure (f <*> x) (g <*> x).
Proof. destruct f, g, x; simpl; try done; congruence. Qed.

Lemma line_total_field_skipped v quantity unit_price discount tax_amount :
  is_finite v = true →
  quantity = None ∨ unit_price = None →
  (v ← required "line_total" (Some v);
   v ← decimal_field "line_total" v;
   run_validator "line_total" (InvoiceLineItem.validate_line_total v
       {| InvoiceLineItem.Values.quantity := quantity;
          InvoiceLineItem.Values.unit_price := unit_price;
          InvoiceLineItem.Values.discount := discount;
          InvoiceLineItem.Values.tax_amount := tax_amount |}))
  = Valid v.
Proof.
  intros Hv H. simpl. unfold decimal_field. rewrite Hv. simpl.
  unfold InvoiceLineItem.validate_line_total. simpl.
  destruct H as [-> | ->]; [done |]. by destruct quantity.
Qed.

(** X6: the line total is checked only against a quantity and a unit price
    that passed their own validation.  When the quantity is missing or not
    positive, or the unit price is missing or not finite, the item fails in
    the same way whatever its line total is. *)
Theorem InvoiceLineItem_total_check_skipped data a b :
  (∀ q, InvoiceLineItem.Args.quantity data = Some q → PyFloat.lt PyFloat.zero q = false)
  ∨ (∀ p, InvoiceLineItem.Args.unit_price data = Some p → is_finite p = false) →
  is_finite a = true → is_finite b = true →
  same_failure
    (InvoiceLineItem.construct (InvoiceLineItem.Args.with_line_total (Some a) data))
    (InvoiceLineItem.construct (InvoiceLineItem.Args.with_line_total (Some b) data)).
Proof.
  intros H Ha Hb. unfold InvoiceLineItem.construct. cbv zeta. item_args.
  set (quantity := required "quantity" _ ≫= _).
  set (unit_price := required "unit_price" _ ≫= _).
  assert (Hfail : (failed quantity ∧ to_option quantity = None)
                  ∨ (failed unit_price ∧ to_option unit_price = None)).
  { subst quantity unit_price. destruct H as [H | H]; [left | right].
    - destruct (InvoiceLineItem.Args.quantity data) as [q |]; simpl; [| done].
      unfold float_gt. by rewrite (H q).
    - destruct (InvoiceLineItem.Args.unit_price data) as [p |]; simpl; [| done].
      unfold decimal_field. by rewrite (H p). }
  rewrite !line_total_field_skipped by (done || tauto).
  apply same_failure_ap, same_failure_start.
  destruct Hfail as [[Hf _] | [Hf _]].
  - do 5 apply failed_ap_l. by apply failed_ap_r.
  - do 4 apply failed_ap_l. by apply failed_ap_r.
Qed.

(** The scenario's item with a quantity of zero, and line totals of 230.00
    and of 235.00. *)
Lemma InvoiceLineItem_total_check_skipped_witness :
  same_failure
    (InvoiceLineItem.construct
       (InvoiceLineItem.Args.with_line_total (Some (Finite false 23000 (-2)))
          Variant.zero_quantity_item))
    (InvoiceLineItem.construct
       (InvoiceLineItem.Args.with_line_total (Some (Finite false 23500 (-2)))
          Variant.zero_quantity_item)).
Proof.
  apply (InvoiceLineItem_total_check_skipped Variant.zero_quantity_item
           (Finite false 23000 (-2)) (Finite false 23500 (-2)));
    [left; intros q [= <-] | ..]; reflexivity.
Defined.

End LineItemCheck.

(** ** What a constructed invoice holds *)

Section InvoiceFields.
Import PyDecimal.

Lemma float_between_Valid_inv name lower upper x a :
  float_between name lower upper x = Valid a →
  a = x ∧ PyFloat.le lower x = true ∧ PyFloat.le x upper = true.
Proof.
  unfold float_between. destruct (PyFloat.le x upper); [| discriminate].
  destruct (PyFloat.le lower x); intros [=]; auto.
Qed.

Lemma validate_items_Valid_inv {A B} (check : A → Validated B) l :
  ∀ i bs, validate_items check i l = Valid bs → Forall2 (λ a b, check a = Valid b) l bs.
Proof.
  induction l as [| a l IH]; intros i bs; cbn [validate_items].
  - intros [= <-]. constructor.
  - intros H. ap_inv H. constructor; [by eapply under_Valid_inv | by eapply IH].
Qed.

Lemma optional_Valid_inv {A B} (check : A → Validated B) x r :
  optional check x = Valid r →
  match x with
  | Some a => ∃ b, check a = Valid b ∧ r = Some b
  | None => r = None
  end.
Proof.
  destruct x as [a |]; simpl; [| by intros [= <-]].
  destruct (check a) as [b | |]; simpl; intros [= <-]. eauto.
Qed.

(** X8: the amounts of a constructed invoice are finite and not negative, and
    its confidence score lies between 0 and 1. *)
Theorem Invoice_field_bounds clock data inv :
  Invoice.construct clock data = Valid inv →
  nonnegative (Invoice.subtotal inv)
  ∧ nonnegative (Invoice.total_discount inv)
  ∧ nonnegative (Invoice.total_tax inv)
  ∧ nonnegative (Invoice.total_amount inv)
  ∧ PyFloat.le PyFloat.zero (Invoice.confidence_score inv) = true
  ∧ PyFloat.le (Invoice.confidence_score inv) PyFloat.one = true.
Proof.
  unfold Invoice.construct. cbv zeta. intros H. ap_inv H. simpl.
  apply bind_Valid_inv in Hx12 as (s & _ & (-> & Hs)%decimal_ge_Valid_inv).
  apply with_default_decimal_ge_Valid_inv in Hx11 as [_ Hd].
  apply with_default_decimal_ge_Valid_inv in Hx10 as [_ Ht].
  apply bind_Valid_inv in Hx9 as (v & _ & Hx9).
  apply bind_Valid_inv in Hx9 as (v' & (-> & Hv)%decimal_ge_Valid_inv & Hx9).
  apply run_validator_Valid_inv, validate_total_returns in Hx9 as ->.
  apply confidence_score_again, float_between_Valid_inv in Hx2 as (_ & Hlo & Hhi).
  done.
Qed.

(** The invoice of the scenario. *)
Lemma Invoice_field_bounds_witness :
  ∃ inv,
    Invoice.construct Sample.clock (Sample.plain_invoice (ymd 2024 1 31)) = Valid inv
    ∧ nonnegative (Invoice.subtotal inv)
    ∧ nonnegative (Invoice.total_discount inv)
    ∧ nonnegative (Invoice.total_tax inv)
    ∧ nonnegative (Invoice.total_amount inv)
    ∧ PyFloat.le PyFloat.zero (Invoice.confidence_score inv) = true
    ∧ PyFloat.le (Invoice.confidence_score inv) PyFloat.one = true.
Proof.
  eexists. split; [vm_compute; reflexivity |].
  apply (Invoice_field_bounds Sample.clock (Sample.plain_invoice (ymd 2024 1 31))).
  vm_compute. reflexivity.
Defined.

(** X9: construction stores the arguments as they are supplied: no amount is
    rounded or rescaled, no string is altered.  What is not supplied takes
    the declared default: STANDARD, SAR, AR, an amount of 0, a score of 0.0,
    the time of the construction, or [None]. *)
Theorem Invoice_stores_arguments clock data inv :
  Invoice.construct clock data = Valid inv →
  Invoice.Args.invoice_number data = Some (Invoice.invoice_number inv)
  ∧ Invoice.invoice_type inv = default STANDARD (Invoice.Args.invoice_type data)
  ∧ Invoice.Args.invoice_date data = Some (Invoice.invoice_date inv)
  ∧ Invoice.currency inv = default SAR (Invoice.Args.currency data)
  ∧ Invoice.language_detected inv = default AR (Invoice.Args.language_detected data)
  ∧ Invoice.Args.subtotal data = Some (Invoice.subtotal inv)
  ∧ Invoice.total_discount inv = default zero (Invoice.Args.total_discount data)
  ∧ Invoice.total_tax inv = default zero (Invoice.Args.total_tax data)
  ∧ Invoice.Args.total_amount data = Some (Invoice.total_amount inv)
  ∧ Invoice.po_number inv = Invoice.Args.po_number data
  ∧ Invoice.reference_number inv = Invoice.Args.reference_number data
  ∧ Invoice.notes inv = Invoice.Args.notes data
  ∧ Invoice.qr_code inv = Invoice.Args.qr_code data
  ∧ Invoice.confidence_score inv
    = default PyFloat.zero (Invoice.Args.confidence_score data)
  ∧ Invoice.extraction_timestamp inv
    = default (now clock) (Invoice.Args.extraction_timestamp data)
  ∧ Invoice.source_file inv = Invoice.Args.source_file data
  ∧ Invoice.page_count inv = Invoice.Args.page_count data.
Proof.
  intros H.
  pose proof (Invoice_construct_total _ _ _ H) as (Hs & Hd & Ht & Hv & _).
  pose proof (Invoice_construct_date _ _ _ H) as [Hdate _].
  revert H. unfold Invoice.construct. cbv zeta. intros H. ap_inv H.
  cbn [Invoice.invoice_number Invoice.invoice_type Invoice.invoice_date Invoice.currency
       Invoice.language_detected Invoice.subtotal Invoice.total_discount
       Invoice.total_tax Invoice.total_amount Invoice.po_number
       Invoice.reference_number Invoice.notes Invoice.qr_code Invoice.confidence_score
       Invoice.extraction_timestamp Invoice.source_file Invoice.page_count] in *.
  apply required_Valid_inv in Hx20.
  assert (Hdef : ∀ {A} (d : A) x y, with_default d Valid x = Valid y → y = default d x).
  { intros A d [x |] y; simpl; congruence. }
  apply Hdef in Hx19, Hx17, Hx16, Hx1.
  assert (Hscore : a2 = default PyFloat.zero (Invoice.Args.confidence_score data)).
  { destruct (Invoice.Args.confidence_score data) as [c |]; simpl in Hx2 |- *;
      [by apply float_between_Valid_inv in Hx2 as [-> _] | congruence]. }
  repeat split; congruence.
Qed.

(** The invoice of the scenario is stamped at noon, the time of its
    construction. *)
Lemma Invoice_stores_arguments_witness :
  ∃ inv,
    Invoice.construct Sample.clock (Sample.plain_invoice (ymd 2024 1 31)) = Valid inv
    ∧ Invoice.extraction_timestamp inv = now Sample.clock.
Proof.
  eexists. split; [vm_compute; reflexivity |].
  refine (proj1 (proj2 (proj2 (proj2 (proj2 (proj2 (proj2 (proj2 (proj2 (proj2 (proj2
           (proj2 (proj2 (proj2 (proj2
             (Invoice_stores_arguments Sample.clock
                (Sample.plain_invoice (ymd 2024 1 31)) _ _))))))))))))))));
    vm_compute; reflexivity.
Defined.

(** X10: every part of a constructed invoice passed its own validation: the
    line items one by one, in the order in which they are supplied, the
    vendor, and the customer, the entries of the tax breakdown and the
    payment information when they are supplied. *)
Theorem Invoice_parts_validated clock data inv :
  Invoice.construct clock data = Valid inv →
  (∃ l, Invoice.Args.line_items data = Some l
        ∧ Forall2 (λ a item, InvoiceLineItem.construct a = Valid item)
            l (Invoice.line_items inv))
  ∧ (∃ v, Invoice.Args.vendor data = Some v
          ∧ VendorInfo.construct v = Valid (Invoice.vendor inv))
  ∧ match Invoice.Args.customer data with
    | Some c => ∃ c', CustomerInfo.construct c = Valid c' ∧ Invoice.customer inv = Some c'
    | None => Invoice.customer inv = None
    end
  ∧ match Invoice.Args.tax_breakdown data with
    | Some l => ∃ entries, Forall2 (λ a entry, TaxBreakdown.construct a = Valid entry) l entries
                           ∧ Invoice.tax_breakdown inv = Some entries
    | None => Invoice.tax_breakdown inv = None
    end
  ∧ match Invoice.Args.payment_info data with
    | Some p => ∃ p', PaymentInfo.construct p = Valid p' ∧ Invoice.payment_info inv = Some p'
    | None => Invoice.payment_info inv = None
    end.
Proof.
  intros H.
  pose proof (Invoice_construct_line_items _ _ _ H) as (l & Hl & Hitems%under_Valid_inv & _).
  revert H. unfold Invoice.construct. cbv zeta. intros H. ap_inv H.
  cbn [Invoice.line_items Invoice.vendor Invoice.customer Invoice.tax_breakdown
       Invoice.payment_info] in *.
  split; [| split; [| split; [| split]]].
  - exists l. split; [done |]. by eapply validate_items_Valid_inv.
  - apply bind_Valid_inv in Hx15 as (v & Hv%required_Valid_inv & Hx15%under_Valid_inv).
    eauto.
  - apply optional_Valid_inv in Hx14.
    destruct (Invoice.Args.customer data); [| done].
    destruct Hx14 as (c' & Hc%under_Valid_inv & ->). eauto.
  - apply optional_Valid_inv in Hx8.
    destruct (Invoice.Args.tax_breakdown data); [| done].
    destruct Hx8 as (entries & He%under_Valid_inv & ->).
    exists entries. split; [| done]. by eapply validate_items_Valid_inv.
  - apply optional_Valid_inv in Hx7.
    destruct (Invoice.Args.payment_info data); [| done].
    destruct Hx7 as (p' & Hp%under_Valid_inv & ->). eauto.
Qed.

(** The invoice of the scenario holds the one line item of the scenario. *)
Lemma Invoice_parts_validated_witness :
  ∃ inv,
    Invoice.construct Sample.clock (Sample.plain_invoice (ymd 2024 1 31)) = Valid inv
    ∧ ∃ l, Invoice.Args.line_items (Sample.plain_invoice (ymd 2024 1 31)) = Some l
           ∧ Forall2 (λ a item, InvoiceLineItem.construct a = Valid item)
               l (Invoice.line_items inv).
Proof.
  eexists. split; [vm_compute; reflexivity |].
  refine (proj1 (Invoice_parts_validated Sample.clock
                   (Sample.plain_invoice (ymd 2024 1 31)) _ _)).
  vm_compute. reflexivity.
Defined.

End InvoiceFields.

(** ** What the check of the invoice total decides, and what it leaves out *)

Section InvoiceCheck.
Import PyDecimal.

Ltac invoice_args :=
  cbn [Invoice.Args.with_invoice_date Invoice.Args.with_line_items
       Invoice.Args.with_total_amount
       Invoice.Args.invoice_number Invoice.Args.invoice_type Invoice.Args.invoice_date
       Invoice.Args.currency Invoice.Args.language_detected Invoice.Args.vendor
       Invoice.Args.customer Invoice.Args.line_items Invoice.Args.subtotal
       Invoice.Args.total_discount Invoice.Args.total_tax Invoice.Args.total_amount
       Invoice.Args.tax_breakdown Invoice.Args.payment_info Invoice.Args.po_number
       Invoice.Args.reference_number Invoice.Args.notes Invoice.Args.qr_code
       Invoice.Args.confidence_score Invoice.Args.extraction_timestamp
       Invoice.Args.source_file Invoice.Args.page_count].

(** X11: acceptance of the total is decided by the tolerance alone: on amounts
    of at most 27 digits, a constructed invoice is constructed with any
    other total that is not negative and lies within 0.01 of
    [subtotal - total_discount + total_tax], the bound included. *)
Theorem Invoice_total_within_tolerance clock data inv k total_amount :
  0 <= k <= 1000000 →
  Invoice.construct clock data = Valid inv →
  Exact.fits k (Invoice.subtotal inv) → Exact.fits k (Invoice.total_discount inv) →
  Exact.fits k (Invoice.total_tax inv) → Exact.fits k total_amount →
  nonnegative total_amount →
  Exact.exceeds_cent
    (Exact.expected_total (Invoice.subtotal inv) (Invoice.total_discount inv)
       (Invoice.total_tax inv))
    total_amount = false →
  Invoice.construct clock (Invoice.Args.with_total_amount (Some total_amount) data)
  = Valid (Invoice.with_total_amount total_amount inv).
Proof.
  intros Hk H. unfold Invoice.construct in *. cbv zeta in *. ap_inv H.
  cbn [Invoice.subtotal Invoice.total_discount Invoice.total_tax].
  intros Fs Fd Ft Fv Hv Hex. invoice_args.
  rewrite Hx20, Hx19, Hx18, Hx17, Hx16, Hx15, Hx14, Hx13, Hx12, Hx11, Hx10, Hx8, Hx7,
    Hx6, Hx5, Hx4, Hx3, Hx2, Hx1, Hx0, Hx.
  cbn [required mbind Validated_bind to_option].
  rewrite (decimal_ge_nonnegative _ _ Hv). cbn [mbind Validated_bind].
  rewrite (validate_total_exact k) by assumption. cbv zeta. rewrite Hex. reflexivity.
Qed.

(** The invoice of the scenario with a total of 230.01. *)
Lemma Invoice_total_within_tolerance_witness :
  ∃ inv,
    Invoice.construct Sample.clock (Sample.plain_invoice (ymd 2024 1 31)) = Valid inv
    ∧ Invoice.construct Sample.clock
        (Invoice.Args.with_total_amount (Some (Finite false 23001 (-2)))
           (Sample.plain_invoice (ymd 2024 1 31)))
      = Valid (Invoice.with_total_amount (Finite false 23001 (-2)) inv).
Proof.
  eexists. split; [vm_compute; reflexivity |].
  apply (Invoice_total_within_tolerance Sample.clock
           (Sample.plain_invoice (ymd 2024 1 31)) _ 2).
  - lia.
  - vm_compute. reflexivity.
  - vm_compute. intuition discriminate.
  - vm_compute. intuition discriminate.
  - vm_compute. intuition discriminate.
  - vm_compute. intuition discriminate.
  - split; [reflexivity | vm_compute; discriminate].
  - vm_compute. reflexivity.
Defined.

Lemma validate_items_Forall2 {A B} (check : A → Validated B) l :
  ∀ i bs, Forall2 (λ a b, check a = Valid b) l bs → validate_items check i l = Valid bs.
Proof.
  induction l as [| a l IH]; intros i bs Hall; inversion Hall as [| ? b ? bs' Ha Hrest];
    subst; cbn [validate_items]; [done |].
  by rewrite Ha, (IH _ _ Hrest).
Qed.

(** X13: nothing relates the line items to the amounts of the invoice: the
    subtotal is not compared with the line totals.  A constructed invoice
    is constructed with any other list of line items, provided the list is
    not empty and each item is valid. *)
Theorem Invoice_line_items_not_reconciled clock data inv l items :
  Invoice.construct clock data = Valid inv →
  Forall2 (λ a item, InvoiceLineItem.construct a = Valid item) l items →
  l ≠ [] →
  Invoice.construct clock (Invoice.Args.with_line_items (Some l) data)
  = Valid (Invoice.with_line_items items inv).
Proof.
  intros H Hall Hne. unfold Invoice.construct in *. cbv zeta in *. ap_inv H.
  invoice_args.
  rewrite Hx9, Hx20, Hx19, Hx18, Hx17, Hx16, Hx15, Hx14, Hx12, Hx11, Hx10, Hx8, Hx7,
    Hx6, Hx5, Hx4, Hx3, Hx2, Hx1, Hx0, Hx.
  cbn [required mbind Validated_bind].
  rewrite (validate_items_Forall2 _ _ _ _ Hall). cbn [under mbind Validated_bind].
  unfold min_length. apply Forall2_length in Hall.
  destruct l; [done |]. destruct items; [done |]. reflexivity.
Qed.

(** The invoice of the scenario, of 230.00, over one line item of
    235.00. *)
Lemma Invoice_line_items_not_reconciled_witness :
  ∃ inv item,
    Invoice.construct Sample.clock (Sample.plain_invoice (ymd 2024 1 31)) = Valid inv
    ∧ InvoiceLineItem.line_total item = Finite false 23500 (-2)
    ∧ Invoice.construct Sample.clock
        (Invoice.Args.with_line_items (Some [Variant.dearer_item])
           (Sample.plain_invoice (ymd 2024 1 31)))
      = Valid (Invoice.with_line_items [item] inv).
Proof.
  eexists. eexists. split; [vm_compute; reflexivity |].
  split; [| apply (Invoice_line_items_not_reconciled Sample.clock
                     (Sample.plain_invoice (ymd 2024 1 31)))].
  4: discriminate.
  3: { constructor; [| constructor]. vm_compute. reflexivity. }
  - reflexivity.
  - vm_compute. reflexivity.
Defined.

Lemma total_amount_field_skipped v subtotal total_discount total_tax :
  nonnegative v →
  subtotal = None ∨ total_discount = None ∨ total_tax = None →
  (v ← required "total_amount" (Some v);
   v ← decimal_ge "total_amount" zero v;
   run_validator "total_amount" (Invoice.validate_total v
       {| Invoice.Values.subtotal := subtotal;
          Invoice.Values.total_discount := total_discount;
          Invoice.Values.total_tax := total_tax |}))
  = Valid v.
Proof.
  intros Hv H. cbn [required mbind Validated_bind].
  rewrite (decimal_ge_nonnegative _ _ Hv). cbn [mbind Validated_bind].
  unfold Invoice.validate_total. cbn.
  destruct H as [-> | [-> | ->]]; [done | |].
  - by destruct subtotal, total_tax.
  - by destruct subtotal.
Qed.

Lemma decimal_ge_refused_failed name d :
  ¬ nonnegative d →
  failed (decimal_ge name zero d) ∧ to_option (decimal_ge name zero d) = None.
Proof. intros (e & _ & ->)%(decimal_ge_refused name). done. Qed.

Lemma with_default_decimal_ge_refused name x :
  ¬ nonnegative (default zero x) →
  failed (with_default zero (decimal_ge name zero) x)
  ∧ to_option (with_default zero (decimal_ge name zero) x) = None.
Proof.
  destruct x as [d |]; simpl; [apply decimal_ge_refused_failed |].
  intros H. destruct H. split; [reflexivity | vm_compute; discriminate].
Qed.

(** X12: the total is checked only against a subtotal, a discount and a tax
    that passed their own validation.  When the subtotal is missing or
    refused, or the discount or the tax is refused, the invoice fails in
    the same way whatever its total is: no mismatch is reported. *)
Theorem Invoice_total_check_skipped clock data a b :
  (∀ s, Invoice.Args.subtotal data = Some s → ¬ nonnegative s)
  ∨ ¬ nonnegative (default zero (Invoice.Args.total_discount data))
  ∨ ¬ nonnegative (default zero (Invoice.Args.total_tax data)) →
  nonnegative a → nonnegative b →
  same_failure
    (Invoice.construct clock (Invoice.Args.with_total_amount (Some a) data))
    (Invoice.construct clock (Invoice.Args.with_total_amount (Some b) data)).
Proof.
  intros H Ha Hb. unfold Invoice.construct. cbv zeta. invoice_args.
  set (subtotal := required "subtotal" _ ≫= _).
  set (total_discount := with_default zero (decimal_ge "total_discount" zero) _).
  set (total_tax := with_default zero (decimal_ge "total_tax" zero) _).
  assert (Hfail : (failed subtotal ∧ to_option subtotal = None)
                  ∨ (failed total_discount ∧ to_option total_discount = None)
                  ∨ (failed total_tax ∧ to_option total_tax = None)).
  { subst subtotal total_discount total_tax.
    destruct H as [H | [H | H]]; [left | right; left | right; right].
    - destruct (Invoice.Args.subtotal data) as [s |]; simpl; [| done].
      by apply decimal_ge_refused_failed, H.
    - by apply with_default_decimal_ge_refused.
    - by apply with_default_decimal_ge_refused. }
  rewrite !total_amount_field_skipped by (done || tauto).
  do 10 apply same_failure_ap. apply same_failure_start.
  destruct Hfail as [[Hf _] | [[Hf _] | [Hf _]]].
  - do 2 apply failed_ap_l. by apply failed_ap_r.
  - apply failed_ap_l. by apply failed_ap_r.
  - by apply failed_ap_r.
Qed.

(** The invoice of the scenario with a discount of -5.00, and totals of
    230.00 and of 999.00. *)
Lemma Invoice_total_check_skipped_witness :
  same_failure
    (Invoice.construct Sample.clock
       (Invoice.Args.with_total_amount (Some (Finite false 23000 (-2)))
          Variant.negative_discount_invoice))
    (Invoice.construct Sample.clock
       (Invoice.Args.with_total_amount (Some (Finite false 99900 (-2)))
          Variant.negative_discount_invoice)).
Proof.
  apply (Invoice_total_check_skipped Sample.clock Variant.negative_discount_invoice).
  - right; left. intros [_ H]. apply H. vm_compute. reflexivity.
  - split; [reflexivity | vm_compute; discriminate].
  - split; [reflexivity | vm_compute; discriminate].
Defined.

End InvoiceCheck.

(** ** Where the errors are reported *)

Section Reports.
Import PyDecimal.

Lemma sublist_ap {A B} (f : Validated (A → B)) x m mx :
  no_exception (f <*> x) →
  (no_exception f → sublist m (errors_of f)) →
  sublist mx (errors_of x) →
  sublist (m ++ mx) (errors_of (f <*> x)).
Proof.
  intros Hne Hf Hx. rewrite errors_of_ap by done.
  apply no_exception_ap_inv in Hne as [Hne _]. by apply sublist_app; [apply Hf |].
Qed.

Lemma sublist_ap_skip {A B} (f : Validated (A → B)) x m :
  no_exception (f <*> x) →
  (no_exception f → sublist m (errors_of f)) →
  sublist m (errors_of (f <*> x)).
Proof.
  intros Hne Hf. rewrite errors_of_ap by done.
  apply no_exception_ap_inv in Hne as [Hne _]. by apply sublist_inserts_r, Hf.
Qed.

Lemma sublist_missing {A B} name (x : option A) (f : A → Validated B) :
  sublist (missing_if_absent name x) (errors_of (required name x ≫= f)).
Proof. destruct x; simpl; [apply sublist_nil_l | done]. Qed.

Lemma sublist_missing_plain {A} name (x : option A) :
  sublist (missing_if_absent name x) (errors_of (required name x)).
Proof. destruct x; simpl; [apply sublist_nil_l | done]. Qed.

(** X15: each required field of an invoice that is not supplied is reported as
    missing under its own name, all of them in one error report and in the
    order of the declarations, whatever else is wrong with the invoice. *)
Theorem Invoice_missing_fields_reported clock data :
  no_exception (Invoice.construct clock data) →
  sublist
    (missing_if_absent "invoice_number" (Invoice.Args.invoice_number data)
       ++ missing_if_absent "invoice_date" (Invoice.Args.invoice_date data)
       ++ missing_if_absent "vendor" (Invoice.Args.vendor data)
       ++ missing_if_absent "line_items" (Invoice.Args.line_items data)
       ++ missing_if_absent "subtotal" (Invoice.Args.subtotal data)
       ++ missing_if_absent "total_amount" (Invoice.Args.total_amount data))
    (errors_of (Invoice.construct clock data)).
Proof.
  unfold Invoice.construct. cbv zeta. intros Hne. rewrite !app_assoc.
  do 10 (apply sublist_ap_skip; [exact Hne |]; clear Hne; intros Hne).
  apply sublist_ap; [exact Hne | | apply sublist_missing]. clear Hne; intros Hne.
  do 2 (apply sublist_ap_skip; [exact Hne |]; clear Hne; intros Hne).
  apply sublist_ap; [exact Hne | | apply sublist_missing]. clear Hne; intros Hne.
  apply sublist_ap; [exact Hne | | apply sublist_missing]. clear Hne; intros Hne.
  apply sublist_ap_skip; [exact Hne |]; clear Hne; intros Hne.
  apply sublist_ap; [exact Hne | | apply sublist_missing]. clear Hne; intros Hne.
  do 2 (apply sublist_ap_skip; [exact Hne |]; clear Hne; intros Hne).
  apply sublist_ap; [exact Hne | | apply sublist_missing]. clear Hne; intros Hne.
  apply sublist_ap_skip; [exact Hne |]; clear Hne; intros Hne.
  apply (sublist_ap _ _ []); [exact Hne | | apply sublist_missing_plain].
  intros _. apply sublist_nil_l.
Qed.

(** An invoice with neither a number nor line items. *)
Lemma Invoice_missing_fields_reported_witness :
  sublist [missing_at [Key "invoice_number"]; missing_at [Key "line_items"]]
    (errors_of (Invoice.construct Sample.clock Variant.incomplete_invoice)).
Proof.
  apply (Invoice_missing_fields_reported Sample.clock Variant.incomplete_invoice).
  vm_compute. exact I.
Defined.

Lemma errors_of_under {A} i (v : Validated A) e :
  e ∈ errors_of v → nested [i] e ∈ errors_of (under i v).
Proof.
  destruct v as [a | errs | s]; simpl; [by intros ?%elem_of_nil | | by intros ?%elem_of_nil].
  intros He%list_elem_of_In. apply list_elem_of_In.
  by apply (in_map (λ d, {| type_ := type_ d; loc := i :: loc d |}) errs e).
Qed.

Lemma validate_items_errors {A B} (check : A → Validated B) l :
  ∀ i j a e,
    l !! j = Some a → e ∈ errors_of (check a) →
    no_exception (validate_items check i l) →
    nested [Index (i + j)] e ∈ errors_of (validate_items check i l).
Proof.
  induction l as [| x l IH]; intros i j a e Hj He; [done |].
  cbn [validate_items]. intros Hne. destruct j as [| j]; simpl in Hj.
  - injection Hj as ->. apply errors_ap_l; [done |].
    apply no_exception_ap_inv in Hne as [Hne _].
    apply errors_ap_r; [done |]. rewrite Nat.add_0_r. by apply errors_of_under.
  - apply errors_ap_r; [done |]. apply no_exception_ap_inv in Hne as [_ Hne].
    replace (i + S j)%nat with (S i + j)%nat by lia. by eapply IH.
Qed.

Lemma errors_of_bind_failed {A B} (m : Validated A) (f : A → Validated B) e :
  e ∈ errors_of m → e ∈ errors_of (m ≫= f).
Proof. destruct m; simpl; [by intros ?%elem_of_nil | done | done]. Qed.

Lemma no_exception_bind_inv {A B} (m : Validated A) (f : A → Validated B) :
  no_exception (m ≫= f) → no_exception m.
Proof. by destruct m. Qed.

Lemma no_exception_under {A} i (v : Validated A) : no_exception (under i v) → no_exception v.
Proof. by destruct v. Qed.

(** X16: an error of a line item is reported by the invoice under [line_items]
    and the position of the item in the list, followed by the place of the
    error in the item. *)
Theorem Invoice_line_item_errors_located clock data l j a e :
  Invoice.Args.line_items data = Some l →
  l !! j = Some a →
  e ∈ errors_of (InvoiceLineItem.construct a) →
  no_exception (Invoice.construct clock data) →
  nested [Key "line_items"; Index j] e ∈ errors_of (Invoice.construct clock data).
Proof.
  intros Hl Hj He. unfold Invoice.construct. cbv zeta. intros Hne.
  do 14 (apply errors_ap_l; [exact Hne |];
         apply no_exception_ap_inv in Hne as [Hne _]).
  apply errors_ap_r; [exact Hne |]. apply no_exception_ap_inv in Hne as [_ Hne].
  rewrite Hl in Hne |- *. cbn [required mbind Validated_bind] in Hne |- *.
  apply errors_of_bind_failed.
  apply no_exception_bind_inv, no_exception_under in Hne.
  change (nested [Key "line_items"; Index j] e)
    with (nested [Key "line_items"] (nested [Index (0 + j)] e)).
  apply errors_of_under.
  by apply (validate_items_errors InvoiceLineItem.construct l 0 j a).
Qed.

(** The invoice of the scenario over two line items, the second of which
    has a line total of 235.00 instead of 230.00. *)
Lemma Invoice_line_item_errors_located_witness :
  nested [Key "line_items"; Index 1]
    (line_total_mismatch (Finite false 230000 (-3)) (Finite false 23500 (-2)))
    ∈ errors_of
        (Invoice.construct Sample.clock
           (Invoice.Args.with_line_items
              (Some [Sample.item (Finite false 23000 (-2));
                     Sample.item (Finite false 23500 (-2))])
              (Sample.plain_invoice (ymd 2024 1 31)))).
Proof.
  apply (Invoice_line_item_errors_located Sample.clock _
           [Sample.item (Finite false 23000 (-2)); Sample.item (Finite false 23500 (-2))]
           1 (Sample.item (Finite false 23500 (-2)))).
  - reflexivity.
  - reflexivity.
  - vm_compute. apply list_elem_of_In. simpl. tauto.
  - vm_compute. exact I.
Defined.

(** X17: an invoice dated more than 30 days ahead is refused with an error
    under [invoice_date] whose message spells the date out as
    year-month-day. *)
Theorem Invoice_future_date_reported clock data d :
  Invoice.Args.invoice_date data = Some d →
  30 < days_between d (today clock) →
  no_exception (Invoice.construct clock data) →
  {| type_ := value_error ("Invoice date " +:+ isoformat d +:+ " is too far in the future");
     loc := [Key "invoice_date"] |}
    ∈ errors_of (Invoice.construct clock data).
Proof.
  intros Hd Hfar. unfold Invoice.construct. cbv zeta. intros Hne.
  do 19 (apply errors_ap_l; [exact Hne |];
         apply no_exception_ap_inv in Hne as [Hne _]).
  apply errors_ap_r; [exact Hne |].
  rewrite Hd. cbn [required mbind Validated_bind]. rewrite validate_date_spec.
  apply Z.ltb_lt in Hfar. rewrite Hfar. apply list_elem_of_In. simpl. tauto.
Qed.

(** The invoice of the scenario dated 2024-03-02, validated on
    2024-01-31. *)
Lemma Invoice_future_date_reported_witness :
  isoformat (ymd 2024 3 2) = "2024-03-02"
  ∧ {| type_ := value_error ("Invoice date " +:+ isoformat (ymd 2024 3 2)
                               +:+ " is too far in the future");
       loc := [Key "invoice_date"] |}
      ∈ errors_of (Invoice.construct Sample.clock (Sample.plain_invoice (ymd 2024 3 2))).
Proof.
  split; [vm_compute; reflexivity |].
  apply (Invoice_future_date_reported Sample.clock (Sample.plain_invoice (ymd 2024 3 2))).
  - reflexivity.
  - vm_compute. reflexivity.
  - vm_compute. exact I.
Defined.

End Reports.

(** ** Arithmetic exceptions *)

Section Escapes.
Import PyDecimal.

Lemma ap_Propagated_l {A B} s (x : Validated A) : @Propagated (A → B) s <*> x = Propagated s.
Proof. by destruct x. Qed.

Lemma ap_Propagated_r {A B} (f : Validated (A → B)) s :
  no_exception f → f <*> Propagated s = Propagated s.
Proof. by destruct f. Qed.

Lemma no_exception_required {A} name (x : option A) : no_exception (required name x).
Proof. by destruct x. Qed.

Lemma no_exception_with_default {A} (d : A) check x :
  (∀ a, no_exception (check a)) → no_exception (with_default d check x).
Proof. intros H. destruct x; simpl; [apply H | done]. Qed.

Lemma no_exception_under_intro {A} i (v : Validated A) :
  no_exception v → no_exception (under i v).
Proof. by destruct v. Qed.

Lemma no_exception_optional {A B} (check : A → Validated B) x :
  (∀ a, no_exception (check a)) → no_exception (optional check x).
Proof. intros H. destruct x as [a |]; simpl; [| done]. specialize (H a). by destruct (check a). Qed.

Lemma no_exception_validate_date clock x :
  no_exception (v ← required "invoice_date" x;
                run_validator "invoice_date" (Invoice.validate_date clock v)).
Proof.
  destruct x as [v |]; simpl; [| done]. rewrite validate_date_spec.
  by destruct (30 <? days_between v (today clock)).
Qed.

Lemma no_exception_VendorInfo a : no_exception (VendorInfo.construct a).
Proof. unfold VendorInfo.construct. by destruct (VendorInfo.Args.name a). Qed.

Lemma no_exception_CustomerInfo a : no_exception (CustomerInfo.construct a).
Proof. unfold CustomerInfo.construct. by destruct (CustomerInfo.Args.name a). Qed.

(** A finite decimal without a minus sign is not negative. *)
Lemma nonnegative_unsigned c e : nonnegative (Finite false c e).
Proof.
  split; [done |]. unfold cmp, zero, units_at. rewrite Z.compare_lt_iff.
  change (Z.of_N 0) with 0. rewrite Z.mul_0_r, Z.mul_0_l, Z.mul_1_l.
  pose proof (Z.pow_nonneg 10 (e - Z.min e 0) ltac:(lia)) as Hp.
  pose proof (N2Z.is_nonneg c) as Hc.
  pose proof (Z.mul_nonneg_nonneg _ _ Hc Hp). lia.
Qed.

(** X18: an arithmetic exception of the total check is not turned into a
    validation error.  When subtotal, discount, tax and total pass their
    own validation and the check of the total raises a decimal exception,
    constructing the invoice raises that exception, whatever errors the
    other fields have (the validation of the line items raising none
    before). *)
Theorem Invoice_arithmetic_exception_escapes clock data subtotal total_amount s :
  no_exception
    (validate_items InvoiceLineItem.construct 0 (default [] (Invoice.Args.line_items data))) →
  Invoice.Args.subtotal data = Some subtotal →
  Invoice.Args.total_amount data = Some total_amount →
  nonnegative subtotal →
  nonnegative (default zero (Invoice.Args.total_discount data)) →
  nonnegative (default zero (Invoice.Args.total_tax data)) →
  nonnegative total_amount →
  Invoice.validate_total total_amount
    {| Invoice.Values.subtotal := Some subtotal;
       Invoice.Values.total_discount := Some (default zero (Invoice.Args.total_discount data));
       Invoice.Values.total_tax := Some (default zero (Invoice.Args.total_tax data)) |}
  = Raise (DecimalException s) →
  Invoice.construct clock data = Propagated s.
Proof.
  intros Hitems Hs Hv Ns Nd Nt Nv Hraise. unfold Invoice.construct. cbv zeta.
  rewrite Hs, Hv. cbn [required mbind Validated_bind].
  rewrite (decimal_ge_nonnegative _ _ Ns), (decimal_ge_nonnegative _ _ Nv).
  rewrite (with_default_decimal_ge_nonnegative "total_discount"),
    (with_default_decimal_ge_nonnegative "total_tax") by assumption.
  cbn [to_option mbind Validated_bind]. rewrite Hraise. cbn [run_validator].
  rewrite ap_Propagated_r; [by rewrite !ap_Propagated_l |].
  repeat apply no_exception_ap; try done.
  - apply no_exception_required.
  - by apply no_exception_with_default.
  - apply no_exception_validate_date.
  - by apply no_exception_with_default.
  - by apply no_exception_with_default.
  - destruct (Invoice.Args.vendor data) as [a |]; simpl; [| done].
    apply no_exception_under_intro, no_exception_VendorInfo.
  - apply no_exception_optional. intros a.
    apply no_exception_under_intro, no_exception_CustomerInfo.
  - destruct (Invoice.Args.line_items data) as [l |]; simpl in Hitems |- *; [| done].
    destruct (validate_items InvoiceLineItem.construct 0 l) as [items | |]; simpl; try done.
    unfold min_length. by destruct (1 <=? length items)%nat.
Qed.

(** An invoice of 9E+999999 with as much tax: their sum is beyond the
    largest decimal of the context. *)
Lemma Invoice_arithmetic_exception_escapes_witness :
  Invoice.construct Sample.clock Variant.overflowing_invoice = Propagated Overflow.
Proof.
  apply (Invoice_arithmetic_exception_escapes Sample.clock Variant.overflowing_invoice
           (Finite false 9 999999) (Finite false 9 999999)).
  - vm_compute. exact I.
  - reflexivity.
  - reflexivity.
  - apply nonnegative_unsigned.
  - apply nonnegative_unsigned.
  - apply nonnegative_unsigned.
  - apply nonnegative_unsigned.
  - vm_compute. reflexivity.
Defined.

End Escapes.

(** ** Values and trees *)

Section Serialized.

(** X20: a member of an enumeration is read from its value and from nothing
    else: the values are told apart by case, and a string that is the value
    of no member is refused. *)
Theorem enum_member_of_value :
  (∀ s x, as_InvoiceType (VStr s) = Some x ↔ s = InvoiceType_value x)
  ∧ (∀ s x, as_Currency (VStr s) = Some x ↔ s = Currency_value x)
  ∧ (∀ s x, as_Language (VStr s) = Some x ↔ s = Language_value x).
Proof.
  split; [| split]; intros s x; (split; [| intros ->]).
  - unfold as_InvoiceType. cbn. repeat case_decide; intros [= <-]; by subst.
  - apply as_InvoiceType_value.
  - unfold as_Currency. cbn. repeat case_decide; intros [= <-]; by subst.
  - apply as_Currency_value.
  - unfold as_Language. cbn. repeat case_decide; intros [= <-]; by subst.
  - apply as_Language_value.
Qed.

(** The currency is SAR, not sar. *)
Lemma enum_member_of_value_witness :
  as_Currency (VStr "SAR") = Some SAR ∧ as_Currency (VStr "sar") ≠ Some SAR.
Proof.
  split.
  - apply (proj1 (proj2 enum_member_of_value)). reflexivity.
  - intros H. apply (proj1 (proj2 enum_member_of_value)) in H. discriminate.
Defined.

Lemma dom_put_opt {A} (inj : A → PyVal) k o (d : dict) :
  dom (put_opt k (inj <$> o) d) = key_if_set k o ∪ dom d.
Proof. destruct o; simpl; [apply dom_insert_L | by rewrite union_empty_l_L]. Qed.

Lemma none_free_insert k v (d : dict) :
  none_free v → map_Forall (λ _, none_free) d → map_Forall (λ _, none_free) (<[k := v]> d).
Proof. intros. by apply map_Forall_insert_2. Qed.

Lemma none_free_put_opt {A} (inj : A → PyVal) k o (d : dict) :
  (∀ a, none_free (inj a)) →
  map_Forall (λ _, none_free) d → map_Forall (λ _, none_free) (put_opt k (inj <$> o) d).
Proof. intros Hinj Hd. destruct o; simpl; [by apply none_free_insert | done]. Qed.

Lemma none_free_map {A} (f : A → PyVal) l :
  (∀ a, none_free (f a)) → none_free (VList (map f l)).
Proof.
  intros Hf. constructor. induction l; simpl; constructor; auto.
Qed.

Ltac none_free_fields :=
  constructor;
  repeat first [ apply none_free_insert; [try by constructor |]
               | apply none_free_put_opt; [try by (intros; constructor) |]
               | apply map_Forall_empty ].

Lemma VendorInfo_none_free self : none_free (VDict (VendorInfo.dict_ self)).
Proof. unfold VendorInfo.dict_. none_free_fields. Qed.

Lemma CustomerInfo_none_free self : none_free (VDict (CustomerInfo.dict_ self)).
Proof. unfold CustomerInfo.dict_. none_free_fields. Qed.

Lemma TaxBreakdown_none_free self : none_free (VDict (TaxBreakdown.dict_ self)).
Proof. unfold TaxBreakdown.dict_. none_free_fields. Qed.

Lemma PaymentInfo_none_free self : none_free (VDict (PaymentInfo.dict_ self)).
Proof. unfold PaymentInfo.dict_. none_free_fields. Qed.

Lemma InvoiceLineItem_none_free self : none_free (VDict (InvoiceLineItem.dict_ self)).
Proof. unfold InvoiceLineItem.dict_. none_free_fields. Qed.

(** X19: the tree of an invoice has a key for each field that is not [None] and
    for no other, and holds no [None] at any depth: not in the vendor, the
    customer, the line items, the tax breakdown or the payment
    information either. *)
Theorem Invoice_to_dict_leaves_out_None self :
  dom (Invoice.to_dict self) = Invoice_fields_set self
  ∧ none_free (VDict (Invoice.to_dict self)).
Proof.
  unfold Invoice.to_dict, Invoice.dict_. split.
  - rewrite ?dom_insert_L, ?dom_put_opt, ?dom_insert_L, ?dom_put_opt, ?dom_insert_L,
      ?dom_put_opt, ?dom_insert_L, ?dom_put_opt, dom_empty_L.
    unfold Invoice_fields_set, Invoice_plain_fields.
    apply set_eq. intros k. rewrite !elem_of_union, elem_of_empty. tauto.
  - none_free_fields.
    + apply VendorInfo_none_free.
    + apply CustomerInfo_none_free.
    + apply none_free_map, InvoiceLineItem_none_free.
    + intros l. apply none_free_map, TaxBreakdown_none_free.
    + apply PaymentInfo_none_free.
Qed.

End Serialized.

(** ** Results and configurations *)

Section Results.

Lemma float_ge_Valid_inv name b x a :
  float_ge name b x = Valid a → a = x ∧ PyFloat.le b x = true.
Proof. unfold float_ge. destruct (PyFloat.le b x); intros [=]; auto. Qed.

Lemma int_ge_Valid_inv name b n a : int_ge name b n = Valid a → a = n ∧ b <= n.
Proof. unfold int_ge. destruct (Z.leb_spec b n); intros [=]; auto. Qed.

(** X21: a constructed result has a processing time and a retry count that are
    not negative, empty lists of errors and warnings unless they are
    supplied, and holds the invoice it was given: an instance as it is, and
    for the arguments of an invoice the invoice constructed from them. *)
Theorem ExtractionResult_holds_valid_invoice clock data r :
  ExtractionResult.construct clock data = Valid r →
  PyFloat.le PyFloat.zero (ExtractionResult.processing_time r) = true
  ∧ 0 <= ExtractionResult.retry_count r
  ∧ ExtractionResult.retry_count r = default 0 (ExtractionResult.Args.retry_count data)
  ∧ ExtractionResult.errors r = default [] (ExtractionResult.Args.errors data)
  ∧ ExtractionResult.warnings r = default [] (ExtractionResult.Args.warnings data)
  ∧ match ExtractionResult.Args.invoice data with
    | None => ExtractionResult.invoice r = None
    | Some (ExtractionResult.Instance self) => ExtractionResult.invoice r = Some self
    | Some (ExtractionResult.Data d) =>
        ∃ inv, Invoice.construct clock d = Valid inv
               ∧ ExtractionResult.invoice r = Some inv
    end.
Proof.
  unfold ExtractionResult.construct. cbv zeta. intros H. ap_inv H.
  cbn [ExtractionResult.processing_time ExtractionResult.retry_count
       ExtractionResult.errors ExtractionResult.warnings ExtractionResult.invoice].
  apply bind_Valid_inv in Hx1 as (p & _ & (-> & Hp)%float_ge_Valid_inv).
  assert (Hr : 0 <= a0 ∧ a0 = default 0 (ExtractionResult.Args.retry_count data)).
  { destruct (ExtractionResult.Args.retry_count data) as [n |]; simpl in Hx0 |- *.
    - by apply int_ge_Valid_inv in Hx0 as [-> ?].
    - injection Hx0 as <-. done. }
  assert (Hdef : ∀ {A} (d : A) x y, with_default d Valid x = Valid y → y = default d x).
  { intros A d [x |] y; simpl; congruence. }
  apply Hdef in Hx2, Hx3. apply optional_Valid_inv in Hx4.
  repeat split; try tauto; try done.
  destruct (ExtractionResult.Args.invoice data) as [[self | d] |]; [| | done].
  - destruct Hx4 as (b & [= <-] & ->). done.
  - destruct Hx4 as (b & Hb%under_Valid_inv & ->). eauto.
Qed.

(** A successful result over the arguments of the scenario's invoice. *)
Lemma ExtractionResult_holds_valid_invoice_witness :
  ∃ r,
    ExtractionResult.construct Sample.clock
      (Sample.result true
         (Some (ExtractionResult.Data (Sample.plain_invoice (ymd 2024 1 31)))))
    = Valid r
    ∧ ∃ inv, Invoice.construct Sample.clock (Sample.plain_invoice (ymd 2024 1 31)) = Valid inv
             ∧ ExtractionResult.invoice r = Some inv.
Proof.
  eexists. split; [vm_compute; reflexivity |].
  refine (proj2 (proj2 (proj2 (proj2 (proj2
           (ExtractionResult_holds_valid_invoice Sample.clock
              (Sample.result true
                 (Some (ExtractionResult.Data (Sample.plain_invoice (ymd 2024 1 31)))))
              _ _)))))).
  vm_compute. reflexivity.
Defined.

Lemma in_errors_failed {A} (v : Validated A) e : e ∈ errors_of v → failed v.
Proof. destruct v; simpl; [by intros ?%elem_of_nil | done | done]. Qed.

(** X22: when the arguments of the invoice are refused, the result is refused
    with the errors of the invoice, each under [invoice]. *)
Theorem ExtractionResult_invoice_errors_located clock data d e :
  ExtractionResult.Args.invoice data = Some (ExtractionResult.Data d) →
  e ∈ errors_of (Invoice.construct clock d) →
  no_exception (ExtractionResult.construct clock data) →
  failed (ExtractionResult.construct clock data)
  ∧ nested [Key "invoice"] e ∈ errors_of (ExtractionResult.construct clock data).
Proof.
  intros Hd He Hne.
  assert (Hin : nested [Key "invoice"] e ∈ errors_of (ExtractionResult.construct clock data)).
  { revert Hne. unfold ExtractionResult.construct. cbv zeta. intros Hne.
    do 5 (apply errors_ap_l; [exact Hne |];
          apply no_exception_ap_inv in Hne as [Hne _]).
    apply errors_ap_r; [exact Hne |]. rewrite Hd. cbn [optional ExtractionResult.validate_invoice].
    pose proof (errors_of_under (Key "invoice") _ _ He) as Hu.
    by destruct (under (Key "invoice") (Invoice.construct clock d)). }
  split; [| exact Hin]. by eapply in_errors_failed.
Qed.

(** A result over the invoice without number and line items. *)
Lemma ExtractionResult_invoice_errors_located_witness :
  missing_at [Key "invoice"; Key "invoice_number"]
    ∈ errors_of
        (ExtractionResult.construct Sample.clock
           (Sample.result false (Some (ExtractionResult.Data Variant.incomplete_invoice)))).
Proof.
  apply (ExtractionResult_invoice_errors_located Sample.clock
           (Sample.result false (Some (ExtractionResult.Data Variant.incomplete_invoice)))
           Variant.incomplete_invoice (missing_at [Key "invoice_number"])).
  - reflexivity.
  - vm_compute. apply list_elem_of_In. simpl. tauto.
  - vm_compute. exact I.
Defined.

(** X23: a customer configuration needs its three names and nothing more: any
    string is a connector type.  With the three it is constructed, what is
    not supplied taking its default (an empty connector configuration,
    automatic processing, no approval, Arabic and English, SAR); without
    one of them each missing name is reported, in the order of the
    declarations. *)
Theorem CustomerConfig_needs_three_names data :
  (∀ customer_id customer_name connector_type,
     CustomerConfig.Args.customer_id data = Some customer_id →
     CustomerConfig.Args.customer_name data = Some customer_name →
     CustomerConfig.Args.connector_type data = Some connector_type →
     CustomerConfig.construct data
     = Valid {| CustomerConfig.customer_id := customer_id;
                CustomerConfig.customer_name := customer_name;
                CustomerConfig.connector_type := connector_type;
                CustomerConfig.connector_config :=
                  default ∅ (CustomerConfig.Args.connector_config data);
                CustomerConfig.auto_process :=
                  default true (CustomerConfig.Args.auto_process data);
                CustomerConfig.require_approval :=
                  default false (CustomerConfig.Args.require_approval data);
                CustomerConfig.languages :=
                  default [AR; EN] (CustomerConfig.Args.languages data);
                CustomerConfig.default_currency :=
                  default SAR (CustomerConfig.Args.default_currency data);
                CustomerConfig.vendor_mapping_file :=
                  CustomerConfig.Args.vendor_mapping_file data |})
  ∧ errors_of (CustomerConfig.construct data)
    = missing_if_absent "customer_id" (CustomerConfig.Args.customer_id data)
        ++ missing_if_absent "customer_name" (CustomerConfig.Args.customer_name data)
        ++ missing_if_absent "connector_type" (CustomerConfig.Args.connector_type data)
  ∧ no_exception (CustomerConfig.construct data).
Proof.
  unfold CustomerConfig.construct. cbv zeta.
  destruct (CustomerConfig.Args.customer_id data),
    (CustomerConfig.Args.customer_name data),
    (CustomerConfig.Args.connector_type data),
    (CustomerConfig.Args.connector_config data),
    (CustomerConfig.Args.auto_process data),
    (CustomerConfig.Args.require_approval data),
    (CustomerConfig.Args.languages data),
    (CustomerConfig.Args.default_currency data);
    (split; [intros ? ? ? [=] [=] [=]; by subst | split; reflexivity]).
Qed.

(** A configuration with a connector the description does not list. *)
Lemma CustomerConfig_needs_three_names_witness :
  ∃ config,
    CustomerConfig.construct Variant.config = Valid config
    ∧ CustomerConfig.connector_type config = "carrier_pigeon"
    ∧ CustomerConfig.languages config = [AR; EN].
Proof.
  eexists. split.
  - apply (proj1 (CustomerConfig_needs_three_names Variant.config)); reflexivity.
  - split; reflexivity.
Defined.

End Results.

(** ** The smaller records *)

Section Records.
Import PyDecimal.

(** X24: the vendor and the customer need a name and nothing more, not even a
    name that is not empty; the payment information needs nothing.  Each
    is constructed exactly from the arguments that spell it out: what is
    supplied is stored as it is, what is not is [None]. *)
Theorem parties_store_arguments :
  (∀ data self, VendorInfo.construct data = Valid self ↔ data = VendorInfo.args_of self)
  ∧ (∀ data self, CustomerInfo.construct data = Valid self ↔ data = CustomerInfo.args_of self)
  ∧ (∀ data self, PaymentInfo.construct data = Valid self ↔ data = PaymentInfo.args_of self).
Proof.
  split; [| split]; intros data self; split.
  - unfold VendorInfo.construct. cbv zeta. intros H. ap_inv H.
    apply required_Valid_inv in Hx10. destruct data. by simplify_eq/=.
  - intros ->. apply VendorInfo_again.
  - unfold CustomerInfo.construct. cbv zeta. intros H. ap_inv H.
    apply required_Valid_inv in Hx5. destruct data. by simplify_eq/=.
  - intros ->. apply CustomerInfo_again.
  - unfold PaymentInfo.construct. cbv zeta. intros H. ap_inv H.
    destruct data. by simplify_eq/=.
  - intros ->. apply PaymentInfo_again.
Qed.

(** A vendor whose name is the empty string. *)
Lemma parties_store_arguments_witness :
  VendorInfo.construct Variant.nameless_vendor
  = Valid {| VendorInfo.name := "";
             VendorInfo.name_ar := None; VendorInfo.name_en := None;
             VendorInfo.tax_id := None; VendorInfo.registration_number := None;
             VendorInfo.address := None; VendorInfo.city := None;
             VendorInfo.country := None; VendorInfo.phone := None;
             VendorInfo.email := None; VendorInfo.website := None;
             VendorInfo.mapped_vendor_code := None |}.
Proof. apply (proj1 parties_store_arguments). reflexivity. Defined.

(** X25: an entry of the tax breakdown is constructed exactly when its type and
    its three amounts are supplied and the amounts are finite and not
    negative: the tax amount is not compared with the rate and the taxable
    amount. *)
Theorem TaxBreakdown_checks_signs_only data self :
  TaxBreakdown.construct data = Valid self
  ↔ data = TaxBreakdown.args_of self
    ∧ nonnegative (TaxBreakdown.tax_rate self)
    ∧ nonnegative (TaxBreakdown.taxable_amount self)
    ∧ nonnegative (TaxBreakdown.tax_amount self).
Proof.
  split.
  - unfold TaxBreakdown.construct. cbv zeta. intros H. ap_inv H.
    apply required_Valid_inv in Hx2.
    apply bind_Valid_inv in Hx1 as (r & Hr%required_Valid_inv & (-> & Nr)%decimal_ge_Valid_inv).
    apply bind_Valid_inv in Hx0 as (t & Ht%required_Valid_inv & (-> & Nt)%decimal_ge_Valid_inv).
    apply bind_Valid_inv in Hx as (x & Hx%required_Valid_inv & (-> & Nx)%decimal_ge_Valid_inv).
    destruct data. by simplify_eq/=.
  - intros (-> & Nr & Nt & Nx). unfold TaxBreakdown.construct. cbv zeta.
    cbn [TaxBreakdown.args_of TaxBreakdown.Args.tax_type TaxBreakdown.Args.tax_rate
         TaxBreakdown.Args.taxable_amount TaxBreakdown.Args.tax_amount
         required mbind Validated_bind].
    rewrite !decimal_ge_nonnegative by assumption. by destruct self.
Qed.

(** VAT at 15 on 200.00 with a tax amount of 1.00. *)
Lemma TaxBreakdown_checks_signs_only_witness :
  TaxBreakdown.construct Variant.odd_breakdown
  = Valid {| TaxBreakdown.tax_type := "VAT";
             TaxBreakdown.tax_rate := Finite false 15 0;
             TaxBreakdown.taxable_amount := Finite false 20000 (-2);
             TaxBreakdown.tax_amount := Finite false 100 (-2) |}.
Proof.
  apply TaxBreakdown_checks_signs_only. split; [reflexivity |].
  repeat split; try reflexivity; vm_compute; discriminate.
Defined.

Ltac invoice_args :=
  cbn [Invoice.Args.with_invoice_date Invoice.Args.with_line_items
       Invoice.Args.with_total_amount Invoice.Args.with_tax_breakdown
       Invoice.Args.invoice_number Invoice.Args.invoice_type Invoice.Args.invoice_date
       Invoice.Args.currency Invoice.Args.language_detected Invoice.Args.vendor
       Invoice.Args.customer Invoice.Args.line_items Invoice.Args.subtotal
       Invoice.Args.total_discount Invoice.Args.total_tax Invoice.Args.total_amount
       Invoice.Args.tax_breakdown Invoice.Args.payment_info Invoice.Args.po_number
       Invoice.Args.reference_number Invoice.Args.notes Invoice.Args.qr_code
       Invoice.Args.confidence_score Invoice.Args.extraction_timestamp
       Invoice.Args.source_file Invoice.Args.page_count].

(** X14: nothing relates the tax breakdown to the amounts of the invoice: the
    total tax is not compared with the tax amounts of the entries.  A
    constructed invoice is constructed without a breakdown, and with any
    list of valid entries, the empty one included. *)
Theorem Invoice_tax_breakdown_not_reconciled clock data inv :
  Invoice.construct clock data = Valid inv →
  Invoice.construct clock (Invoice.Args.with_tax_breakdown None data)
  = Valid (Invoice.with_tax_breakdown None inv)
  ∧ ∀ l entries,
      Forall2 (λ a entry, TaxBreakdown.construct a = Valid entry) l entries →
      Invoice.construct clock (Invoice.Args.with_tax_breakdown (Some l) data)
      = Valid (Invoice.with_tax_breakdown (Some entries) inv).
Proof.
  intros H. unfold Invoice.construct in *. cbv zeta in *. ap_inv H. invoice_args.
  rewrite Hx9, Hx20, Hx19, Hx18, Hx17, Hx16, Hx15, Hx14, Hx13, Hx12, Hx11, Hx10, Hx7,
    Hx6, Hx5, Hx4, Hx3, Hx2, Hx1, Hx0, Hx.
  split; [reflexivity |]. intros l entries Hall. cbn [optional].
  by rewrite (validate_items_Forall2 _ _ _ _ Hall).
Qed.

(** The invoice of the scenario, with 30.00 of tax, over a breakdown of
    1.00 of tax. *)
Lemma Invoice_tax_breakdown_not_reconciled_witness :
  ∃ inv entry,
    Invoice.construct Sample.clock (Sample.plain_invoice (ymd 2024 1 31)) = Valid inv
    ∧ Invoice.construct Sample.clock
        (Invoice.Args.with_tax_breakdown (Some [Variant.odd_breakdown])
           (Sample.plain_invoice (ymd 2024 1 31)))
      = Valid (Invoice.with_tax_breakdown (Some [entry]) inv).
Proof.
  eexists. eexists. split; [vm_compute; reflexivity |].
  refine (proj2 (Invoice_tax_breakdown_not_reconciled Sample.clock
                   (Sample.plain_invoice (ymd 2024 1 31)) _ _) _ _ _).
  - vm_compute. reflexivity.
  - constructor; [| constructor]. vm_compute. reflexivity.
Defined.

Ltac item_args :=
  cbn [InvoiceLineItem.Args.with_tax_rate InvoiceLineItem.Args.with_discount
       InvoiceLineItem.Args.with_line_total
       InvoiceLineItem.Args.description InvoiceLineItem.Args.description_ar
       InvoiceLineItem.Args.description_en InvoiceLineItem.Args.quantity
       InvoiceLineItem.Args.unit_price InvoiceLineItem.Args.unit
       InvoiceLineItem.Args.discount InvoiceLineItem.Args.tax_rate
       InvoiceLineItem.Args.tax_amount InvoiceLineItem.Args.line_total
       InvoiceLineItem.Args.item_code].



End Records.
